(** * Reddit analytics dashboard: settings store, data loading and chart shaping

    A shallow embedding of [streamlit_utils/config_manager.py],
    [streamlit_utils/data_loader.py], [streamlit_utils/visualizations.py],
    [streamlit_utils/reddit_api.py] and the parts of [streamlit_app.py] that
    use them.

    Python exceptions are modelled by the result type [result]: [Ret v] is a
    normal return, [Raise e] an exception propagating to the caller.  A
    [try ... except Exception] block is [try_except].  Files, the warehouse
    connection and the CSV parser are inputs of the model (an [env]). *)

From Stdlib Require Import String Ascii List Bool ZArith QArith Lia Permutation Sorted.
Import ListNotations.
Open Scope string_scope.

(* ================================================================= *)
(** ** Exceptions and the result monad *)

Inductive exn : Type :=
| FileNotFoundError (msg : string)
| NoSectionError (section : string)
| NoOptionError (option_name section : string)
| KeyError (key : string)
| TypeError
| ValueError (msg : string)
| DatabaseError (msg : string)
| ParserError (msg : string)
| InterpolationSyntaxError (option_name section : string)
| InterpolationMissingOptionError (option_name section reference : string)
| InterpolationDepthError (option_name section : string)
| StreamlitAPIException (msg : string).

Inductive result (A : Type) : Type :=
| Ret (a : A)
| Raise (e : exn).
Arguments Ret {A} a.
Arguments Raise {A} e.

Definition bind {A B} (c : result A) (k : A -> result B) : result B :=
  match c with
  | Ret a => k a
  | Raise e => Raise e
  end.

Notation "x <- c ;; k" := (bind c (fun x => k))
  (at level 61, c at next level, right associativity).

(** [try: c  except Exception as e: h e] *)
Definition try_except {A} (c : result A) (h : exn -> result A) : result A :=
  match c with
  | Ret a => Ret a
  | Raise e => h e
  end.

(* ================================================================= *)
(** ** configparser

    A parsed settings file: the [DEFAULT] section and the named sections,
    each a list of (option, value) pairs.  Option names are stored as
    configparser's [optionxform] leaves them (lower case).  [get] applies
    [BasicInterpolation] to the value it finds. *)

Definition options := list (string * string).

Record config_parser := mk_parser {
  defaults : options;
  sections : list (string * options)
}.

Fixpoint assoc {V} (k : string) (l : list (string * V)) : option V :=
  match l with
  | [] => None
  | (k', v) :: l' => if String.eqb k k' then Some v else assoc k l'
  end.

(** [ConfigParser.has_section]: [DEFAULT] is not listed among the sections. *)
Definition has_section (p : config_parser) (s : string) : bool :=
  match assoc s (sections p) with Some _ => true | None => false end.

(** [ConfigParser.has_option]: an option of a present section, or of [DEFAULT]. *)
Definition has_option (p : config_parser) (s k : string) : bool :=
  match assoc s (sections p) with
  | None => false
  | Some opts =>
      match assoc k opts, assoc k (defaults p) with
      | None, None => false
      | _, _ => true
      end
  end.

(** [str.lower()] on ASCII letters; other characters are left as they are. *)
Definition lower_ascii (c : ascii) : ascii :=
  let n := nat_of_ascii c in
  if (65 <=? n)%nat && (n <=? 90)%nat then ascii_of_nat (n + 32) else c.

Fixpoint py_lower (s : string) : string :=
  match s with
  | EmptyString => EmptyString
  | String c s' => String (lower_ascii c) (py_lower s')
  end.

(** A hexadecimal digit as [repr] writes it (lower case). *)
Definition hex_digit (n : nat) : ascii :=
  if (n <? 10)%nat then ascii_of_nat (48 + n) else ascii_of_nat (87 + n).

(** The characters of [repr(s)] between its quotes, for quote [q]: the
    quote and the backslash are escaped, tab, newline and carriage return
    get their short escapes, and the other characters that are not
    printable (code points below 32, 127 to 160, and 173, reading a
    character as its Latin-1 code point) are written [\xhh]. *)
Fixpoint repr_body (q : ascii) (s : string) : string :=
  match s with
  | EmptyString => EmptyString
  | String c s' =>
      let n := nat_of_ascii c in
      let rest := repr_body q s' in
      if Ascii.eqb c q || Ascii.eqb c "092"%char then String "092"%char (String c rest)
      else if (n =? 9)%nat then String "092"%char (String "t" rest)
      else if (n =? 10)%nat then String "092"%char (String "n" rest)
      else if (n =? 13)%nat then String "092"%char (String "r" rest)
      else if ((n <? 32) || (127 <=? n) && (n <=? 160) || (n =? 173))%nat then
        String "092"%char (String "x" (String (hex_digit (n / 16)) (String (hex_digit (n mod 16)) rest)))
      else String c rest
  end.

(** [sub in s] *)
Fixpoint py_contains (sub s : string) : bool :=
  String.prefix sub s || match s with EmptyString => false | String _ s' => py_contains sub s' end.

(** A match of [_KEYCRE = %\(([^)]+)\)s] on the text after ["%("]: the
    name (up to the first [")"]) and the text after [")s"]. *)
Fixpoint ref_name (s : string) : option (string * string) :=
  match s with
  | String ")" (String "s" rest) => Some (EmptyString, rest)
  | String ")" _ => None
  | String c s' => option_map (fun '(n, r) => (String c n, r)) (ref_name s')
  | EmptyString => None
  end.

(** The [while rest] loop of [BasicInterpolation._interpolate_some] for
    option [opt] of section [sec]: [lookup] is [get]'s map (the section's
    options over [DEFAULT]), [nested] the recursive call made on a
    referenced value that contains ['%'], [fuel] bounds the iterations
    (each consumes one character at least). *)
Fixpoint interpolate_loop (lookup : string -> option string) (opt sec : string)
  (nested : string -> result string) (fuel : nat) (rest : string) : result string :=
  match fuel with
  | O => Ret rest
  | S f =>
      match rest with
      | EmptyString => Ret EmptyString
      | String "%" r =>
          match r with
          | String "%" r' => s <- interpolate_loop lookup opt sec nested f r' ;; Ret (String "%" s)
          | String "(" r' =>
              match ref_name r' with
              | Some (name, rest') =>
                  if String.eqb name "" then Raise (InterpolationSyntaxError opt sec)
                  else
                    match lookup (py_lower name) with
                    | None => Raise (InterpolationMissingOptionError opt sec (py_lower name))
                    | Some v =>
                        a <- (if py_contains "%" v then nested v else Ret v) ;;
                        s <- interpolate_loop lookup opt sec nested f rest' ;;
                        Ret (a ++ s)
                    end
              | None => Raise (InterpolationSyntaxError opt sec)
              end
          | _ => Raise (InterpolationSyntaxError opt sec)
          end
      | String c r => s <- interpolate_loop lookup opt sec nested f r ;; Ret (String c s)
      end
  end.

(** [_interpolate_some]: [levels] counts the nested calls still allowed
    before [depth] exceeds [MAX_INTERPOLATION_DEPTH = 10]. *)
Fixpoint interpolate_some (lookup : string -> option string) (opt sec : string)
  (levels : nat) (rest : string) : result string :=
  interpolate_loop lookup opt sec
    (fun v => match levels with
              | O => Raise (InterpolationDepthError opt sec)
              | S l => interpolate_some lookup opt sec l v
              end)
    (S (String.length rest)) rest.

(** [BasicInterpolation.before_get]: the call at [depth = 1]. *)
(** [repr(s)]: in single quotes, unless [s] has a single quote and no
    double quote. *)
Definition py_repr (s : string) : string :=
  let q := if py_contains (String "'" EmptyString) s && negb (py_contains (String "034"%char EmptyString) s)
           then "034"%char else "'"%char in
  String q (repr_body q s ++ String q EmptyString).

Definition before_get (lookup : string -> option string) (opt sec v : string) : result string :=
  interpolate_some lookup opt sec 9 v.

(** [ConfigParser.get]: the section's own value, else the [DEFAULT] one,
    interpolated. *)
Definition cp_get (p : config_parser) (s k : string) : result string :=
  match assoc s (sections p) with
  | None => Raise (NoSectionError s)
  | Some opts =>
      let lookup k' := match assoc k' opts with Some v => Some v | None => assoc k' (defaults p) end in
      match lookup k with
      | Some v => before_get lookup k s v
      | None => Raise (NoOptionError k s)
      end
  end.

(** The settings file on disk: [None] when it does not exist, else the
    parser that [parser.read] builds from it.  A file that [parser.read]
    refuses (it raises [MissingSectionHeaderError], [DuplicateOptionError],
    [ParsingError] and the like) has no value here: the statements are
    about files that configparser reads. *)
Definition settings_file := option config_parser.

Definition config_path : string := "airflow/extraction/configuration.conf".

Definition read_config (f : settings_file) : result config_parser :=
  match f with
  | None => Raise (FileNotFoundError ("Configuration file not found at " ++ config_path))
  | Some p => Ret p
  end.

(* ================================================================= *)
(** ** Python [int()] on a configuration value

    Blanks around the literal, an optional sign, then decimal digits with
    single [_] separators between digits. *)

Definition digit_value (c : ascii) : option Z :=
  let n := nat_of_ascii c in
  if (48 <=? n)%nat && (n <=? 57)%nat then Some (Z.of_nat (n - 48)) else None.

Fixpoint digits_value (acc : Z) (s : string) : option Z :=
  match s with
  | EmptyString => Some acc
  | String c s' =>
      match digit_value c with
      | Some d => digits_value (10 * acc + d) s'
      | None => None
      end
  end.

Definition is_digit (c : ascii) : bool :=
  match digit_value c with Some _ => true | None => false end.

(** The characters [str.isspace()] accepts among ASCII: tab to carriage
    return, the separators 28 to 31, and the space. *)
Definition is_space (c : ascii) : bool :=
  let n := nat_of_ascii c in ((9 <=? n) && (n <=? 13) || (28 <=? n) && (n <=? 32))%nat.

Fixpoint lstrip (s : string) : string :=
  match s with
  | String c s' => if is_space c then lstrip s' else s
  | EmptyString => EmptyString
  end.

(** The text up to the first blank, and the rest. *)
Fixpoint take_token (s : string) : string * string :=
  match s with
  | EmptyString => (EmptyString, EmptyString)
  | String c s' => if is_space c then (EmptyString, s) else
                     let '(a, b) := take_token s' in (String c a, b)
  end.

Fixpoint all_space (s : string) : bool :=
  match s with
  | EmptyString => true
  | String c s' => is_space c && all_space s'
  end.

(** The digits with their [_] separators removed; [None] when a [_] does not
    stand between two digits.  [prev] tells whether a digit precedes. *)
Fixpoint drop_separators (prev : bool) (s : string) : option string :=
  match s with
  | EmptyString => Some EmptyString
  | String "_" s' =>
      match s' with
      | String c _ => if prev && is_digit c then drop_separators false s' else None
      | EmptyString => None
      end
  | String c s' => option_map (String c) (drop_separators (is_digit c) s')
  end.

Definition unsigned_value (s : string) : option Z :=
  match s with
  | EmptyString => None
  | _ => match drop_separators false s with Some d => digits_value 0 d | None => None end
  end.

Definition parse_literal (s : string) : option Z :=
  match s with
  | String "-" s' => option_map Z.opp (unsigned_value s')
  | String "+" s' => unsigned_value s'
  | _ => unsigned_value s
  end.

Definition parse_int (s : string) : option Z :=
  let '(tok, tail) := take_token (lstrip s) in
  if all_space tail then parse_literal tok else None.

Definition py_int (s : string) : result Z :=
  match parse_int s with
  | Some z => Ret z
  | None => Raise (ValueError ("invalid literal for int() with base 10: " ++ py_repr s))
  end.

(* ================================================================= *)
(** ** config_manager.py *)

Record extraction_config := mk_extraction {
  subreddit : string;
  time_filter : string;
  limit : option Z
}.

Definition default_extraction : extraction_config :=
  mk_extraction "dataengineering" "day" None.

Definition get_reddit_extraction_config (f : settings_file) : result extraction_config :=
  parser <- read_config f ;;
  if negb (has_section parser "reddit_extraction") then Ret default_extraction
  else
    limit_value <- cp_get parser "reddit_extraction" "limit" ;;
    sr <- cp_get parser "reddit_extraction" "subreddit" ;;
    tf <- cp_get parser "reddit_extraction" "time_filter" ;;
    lim <- (if String.eqb limit_value "None" then Ret None
            else z <- py_int limit_value ;; Ret (Some z)) ;;
    Ret (mk_extraction sr tf lim).

(** A Python [Dict[str, str]] built by a dict literal. *)
Definition str_dict := list (string * string).

Definition aws_keys : list string :=
  ["bucket_name"; "redshift_username"; "redshift_password"; "redshift_hostname";
   "redshift_role"; "redshift_port"; "redshift_database"; "account_id"; "aws_region"].

(** The dict literal evaluates its values left to right. *)
Fixpoint get_all (p : config_parser) (s : string) (ks : list string) : result str_dict :=
  match ks with
  | [] => Ret []
  | k :: ks' =>
      v <- cp_get p s k ;;
      rest <- get_all p s ks' ;;
      Ret ((k, v) :: rest)
  end.

Definition get_aws_config (f : settings_file) : result str_dict :=
  parser <- read_config f ;;
  if negb (has_section parser "aws_config") then Ret []
  else get_all parser "aws_config" aws_keys.

Definition get_reddit_api_config (f : settings_file) : result str_dict :=
  parser <- read_config f ;;
  if negb (has_section parser "reddit_config") then Ret []
  else get_all parser "reddit_config" ["secret"; "client_id"; "developer"; "name"].

Definition required_sections : list string :=
  ["aws_config"; "reddit_config"; "reddit_extraction"].

Definition required_aws_keys : list string :=
  ["bucket_name"; "redshift_username"; "redshift_password";
   "redshift_hostname"; "redshift_database"].

Definition required_reddit_keys : list string := ["secret"; "client_id"].

Definition required_extraction_keys : list string := ["subreddit"; "time_filter"; "limit"].

Definition section_error (s : string) : string :=
  "Missing required section: [" ++ s ++ "]".

Definition key_error (s k : string) : string :=
  "Missing required key in [" ++ s ++ "]: " ++ k.

(** The loop over one section's required keys (only when the section exists). *)
Definition check_keys (p : config_parser) (s : string) (ks : list string) : list string :=
  if has_section p s then
    map (key_error s) (filter (fun k => negb (has_option p s k)) ks)
  else [].

(** Only [FileNotFoundError] is caught; anything else would propagate. *)
Definition validate_config (f : settings_file) : result (bool * list string) :=
  match read_config f with
  | Raise (FileNotFoundError msg) => Ret (false, [msg])
  | Raise e => Raise e
  | Ret parser =>
      let errors :=
        (map section_error (filter (fun s => negb (has_section parser s)) required_sections)
         ++ check_keys parser "aws_config" required_aws_keys
         ++ check_keys parser "reddit_config" required_reddit_keys
         ++ check_keys parser "reddit_extraction" required_extraction_keys)%list in
      Ret (Nat.eqb (length errors) 0, errors)
  end.

(* ================================================================= *)
(** ** Tables (pandas DataFrames)

    A cell holds a missing value ([CNA]: NaN/NaT/None), an integer, a
    boolean, a string, or a timestamp in nanoseconds since the epoch
    ([CTime], pandas' [datetime64[ns]]).  A row maps column names to cells;
    a column a row does not mention is missing there (NaN after [concat]). *)

Inductive cell : Type :=
| CNA
| CInt (z : Z)
| CBool (b : bool)
| CStr (s : string)
| CTime (t : Z).

(** Equality of keys as [drop_duplicates] and [groupby] see it (NaN equals NaN). *)
Definition cell_eqb (a b : cell) : bool :=
  match a, b with
  | CNA, CNA => true
  | CInt x, CInt y => Z.eqb x y
  | CBool x, CBool y => Bool.eqb x y
  | CStr x, CStr y => String.eqb x y
  | CTime x, CTime y => Z.eqb x y
  | _, _ => false
  end.

Definition row := list (string * cell).

Definition get_cell (r : row) (c : string) : cell :=
  match assoc c r with Some v => v | None => CNA end.

Record table := mk_table {
  columns : list string;
  rows : list row
}.

Definition has_column (t : table) (c : string) : bool :=
  existsb (String.eqb c) (columns t).

(** [DataFrame.empty]: no rows or no columns. *)
Definition is_empty (t : table) : bool :=
  match columns t, rows t with
  | [], _ => true
  | _, [] => true
  | _, _ => false
  end.

(** [len(df)] *)
Definition len (t : table) : nat := length (rows t).

Definition column_values (t : table) (c : string) : list cell :=
  map (fun r => get_cell r c) (rows t).

(** [pd.concat(dfs, ignore_index=True)]: the union of the columns in order of
    first appearance, the rows one frame after the other. *)
Definition union_columns (cs ds : list string) : list string :=
  (cs ++ filter (fun d => negb (existsb (String.eqb d) cs)) ds)%list.

Definition concat_tables (ts : list table) : table :=
  fold_right (fun t acc => mk_table (union_columns (columns t) (columns acc))
                                    (rows t ++ rows acc)%list)
             (mk_table [] []) ts.

(** [drop_duplicates(subset=[c], keep='last')]: a row is kept when no later
    row has the same key; the kept rows stay in their original order. *)
Fixpoint drop_duplicates_last (c : string) (rs : list row) : list row :=
  match rs with
  | [] => []
  | r :: rs' =>
      if existsb (fun r' => cell_eqb (get_cell r c) (get_cell r' c)) rs'
      then drop_duplicates_last c rs'
      else r :: drop_duplicates_last c rs'
  end.

Definition drop_duplicates (t : table) (c : string) : table :=
  mk_table (columns t) (drop_duplicates_last c (rows t)).

(** [pd.to_datetime] on one cell.  Integers are nanoseconds (pandas' default
    unit); strings go through the date parser [parse], and a string it
    rejects raises, as [errors='raise'] (the default) does. *)
Definition to_datetime_cell (parse : string -> option Z) (v : cell) : result cell :=
  match v with
  | CNA => Ret CNA
  | CTime t => Ret (CTime t)
  | CInt z => Ret (CTime z)
  | CBool _ => Raise TypeError
  | CStr s =>
      match parse s with
      | Some t => Ret (CTime t)
      | None => Raise (ParserError ("Unknown datetime string format: " ++ s))
      end
  end.

Fixpoint map_result {A B} (f : A -> result B) (l : list A) : result (list B) :=
  match l with
  | [] => Ret []
  | x :: l' => y <- f x ;; ys <- map_result f l' ;; Ret (y :: ys)
  end.

Definition update_cell (f : cell -> result cell) (c : string) (r : row) : result row :=
  map_result (fun '(k, v) => if String.eqb k c then v' <- f v ;; Ret (k, v') else Ret (k, v)) r.

(** [df[c] = pd.to_datetime(df[c])] *)
Definition to_datetime_column (parse : string -> option Z) (t : table) (c : string)
  : result table :=
  rs <- map_result (update_cell (to_datetime_cell parse) c) (rows t) ;;
  Ret (mk_table (columns t) rs).

(** Sorting keys: a number, or missing (sorted last). *)
Definition key_ge (a b : option Z) : bool :=
  match a, b with
  | Some x, Some y => Z.leb y x
  | Some _, None => true
  | None, None => true
  | None, Some _ => false
  end.

Fixpoint insert_desc {A} (key : A -> option Z) (x : A) (l : list A) : list A :=
  match l with
  | [] => [x]
  | y :: l' => if key_ge (key x) (key y) then x :: y :: l' else y :: insert_desc key x l'
  end.

(** A stable descending sort, missing keys last. *)
Fixpoint sort_desc {A} (key : A -> option Z) (l : list A) : list A :=
  match l with
  | [] => []
  | x :: l' => insert_desc key x (sort_desc key l')
  end.

Definition time_key (c : string) (r : row) : option Z :=
  match get_cell r c with CTime t => Some t | _ => None end.

(** [sort_values(c, ascending=False)] on a datetime column (NaT last).  pandas'
    default sort is not stable; the model fixes the order of equal keys. *)
Definition sort_values_desc (t : table) (c : string) : table :=
  mk_table (columns t) (sort_desc (time_key c) (rows t)).

(* ================================================================= *)
(** ** The outside world of the loaders *)

Record conn_params := mk_conn {
  dbname : string;
  user : string;
  password : string;
  host : string;
  port : string
}.

Record env := mk_env {
  settings : settings_file;
  (** [psycopg2.connect(...)] followed by [pd.read_sql_query] of
      [SELECT * FROM table ORDER BY created_utc DESC]. *)
  redshift : conn_params -> string -> result table;
  (** [pd.read_csv] of each file of [pathlib.Path(dir).glob("*.csv")]. *)
  csv_glob : string -> list (result table);
  (** The datetime string parser used by [pd.to_datetime]. *)
  parse_datetime : string -> option Z
}.

Definition alt_path : string := "airflow/extraction".

Definition dict_get (d : str_dict) (k : string) : result string :=
  match assoc k d with Some v => Ret v | None => Raise (KeyError k) end.

(* ================================================================= *)
(** ** data_loader.py: the loaders *)

(** The body of [load_from_redshift]'s [try] block. *)
Definition load_from_redshift_body (e : env) (table_name : string) : result (option table) :=
  config <- get_aws_config (settings e) ;;
  db <- dict_get config "redshift_database" ;;
  u <- dict_get config "redshift_username" ;;
  pw <- dict_get config "redshift_password" ;;
  h <- dict_get config "redshift_hostname" ;;
  pt <- dict_get config "redshift_port" ;;
  df <- redshift e (mk_conn db u pw h pt) table_name ;;
  Ret (Some df).

Definition load_from_redshift (e : env) (table_name : string) : result (option table) :=
  try_except (load_from_redshift_body e table_name) (fun _ => Ret None).

(** The per-file loop: files whose [read_csv] raises are skipped. *)
Fixpoint read_csvs (files : list (result table)) : list table :=
  match files with
  | [] => []
  | Ret df :: fs => df :: read_csvs fs
  | Raise _ :: fs => read_csvs fs
  end.

(** Concatenation and deduplication by post id. *)
Definition concat_dedup (dfs : list table) : table :=
  let combined := concat_tables dfs in
  if has_column combined "id" then drop_duplicates combined "id" else combined.

(** ... then timestamp normalisation and sorting. *)
Definition combine_csvs (parse : string -> option Z) (dfs : list table) : result table :=
  let combined := concat_dedup dfs in
  combined <- (if has_column combined "created_utc"
               then to_datetime_column parse combined "created_utc"
               else Ret combined) ;;
  Ret (if has_column combined "created_utc"
       then sort_values_desc combined "created_utc" else combined).

(** The CSV files found: those of [data_dir], else those of the fallback
    directory. *)
Definition csv_files (e : env) (data_dir : string) : list (result table) :=
  match csv_glob e data_dir with
  | [] => csv_glob e alt_path
  | fs => fs
  end.

(** The body of [load_local_data]'s [try] block. *)
Definition load_local_data_body (e : env) (data_dir : string) : result (option table) :=
  match csv_files e data_dir with
  | [] => Ret None
  | files =>
      match read_csvs files with
      | [] => Ret None
      | dfs => df <- combine_csvs (parse_datetime e) dfs ;; Ret (Some df)
      end
  end.

Definition load_local_data (e : env) (data_dir : string) : result (option table) :=
  try_except (load_local_data_body e data_dir) (fun _ => Ret None).

(** [df is not None and not df.empty] *)
Definition has_data (o : option table) : bool :=
  match o with Some df => negb (is_empty df) | None => false end.

Definition load_data (e : env) (prefer_redshift : bool) : result (option table) :=
  if prefer_redshift then
    df <- load_from_redshift e "reddit" ;;
    if has_data df then Ret df else load_local_data e "/tmp"
  else
    df <- load_local_data e "/tmp" ;;
    if has_data df then Ret df else load_from_redshift e "reddit".

(* ================================================================= *)
(** ** pandas reductions over a column *)

Definition is_na (v : cell) : bool := match v with CNA => true | _ => false end.

(** [Series.sum()]: missing values skipped; numbers and booleans add up.
    Timestamps raise [TypeError], and so do strings here, where pandas
    concatenates a column made only of strings: sums are modelled for
    numeric columns only, and the statements about them assume such
    columns. *)
Fixpoint sum_cells (l : list cell) : result Z :=
  match l with
  | [] => Ret 0%Z
  | v :: l' =>
      s <- sum_cells l' ;;
      match v with
      | CNA => Ret s
      | CInt z => Ret (z + s)%Z
      | CBool b => Ret ((if b then 1 else 0) + s)%Z
      | _ => Raise TypeError
      end
  end.

(** [Series.count()]: the non-missing values. *)
Definition count_valid (l : list cell) : nat := length (filter (fun v => negb (is_na v)) l).

(** [Series.mean()]: [None] is NaN (no value to average). *)
Definition mean_cells (l : list cell) : result (option Q) :=
  s <- sum_cells l ;;
  let n := count_valid l in
  Ret (if Nat.eqb n 0 then None else Some (inject_Z s / inject_Z (Z.of_nat n))%Q).

(** Comparison of two values of one kind; values of different kinds do not
    compare and raise. *)
Definition cell_compare (a b : cell) : result comparison :=
  match a, b with
  | CInt x, CInt y => Ret (Z.compare x y)
  | CTime x, CTime y => Ret (Z.compare x y)
  | CStr x, CStr y => Ret (String.compare x y)
  | CBool x, CBool y => Ret (Nat.compare (Nat.b2n x) (Nat.b2n y))
  | _, _ => Raise TypeError
  end.

(** [Series.min()] ([want = Lt]) and [Series.max()] ([want = Gt]), skipping
    missing values; [CNA] (NaT) when there is none. *)
Fixpoint extreme_cells (want : comparison) (l : list cell) : result cell :=
  match l with
  | [] => Ret CNA
  | v :: l' =>
      acc <- extreme_cells want l' ;;
      match v, acc with
      | CNA, _ => Ret acc
      | _, CNA => Ret v
      | _, _ => c <- cell_compare v acc ;;
                Ret (match c, want with
                     | Lt, Lt | Gt, Gt => v
                     | _, _ => acc
                     end)
      end
  end.

(** [Series.nunique()]: distinct non-missing values. *)
Fixpoint distinct_cells (l : list cell) : list cell :=
  match l with
  | [] => []
  | v :: l' =>
      let d := distinct_cells l' in
      if is_na v || existsb (cell_eqb v) d then d else v :: d
  end.

Definition nunique (l : list cell) : nat := length (distinct_cells l).

(* ================================================================= *)
(** ** data_loader.py: [get_data_summary] *)

Record summary_record := mk_summary {
  total_posts : nat;
  date_start : option cell;   (** [None] when there is no created_utc column *)
  date_end : option cell;
  total_score : Z;
  total_comments : Z;
  avg_score : option Q;       (** [None] is NaN *)
  avg_comments : option Q;
  unique_authors : nat;
  nsfw_count : Z;
  edited_count : Z
}.

(** The returned dict: the literal [{}], or the dict with the ten fields. *)
Inductive summary_dict : Type :=
| empty_dict
| summary_of (s : summary_record).

(** [df[c].f() if c in df.columns else dflt] *)
Definition if_column {A} (t : table) (c : string) (f : list cell -> result A) (dflt : A)
  : result A :=
  if has_column t c then f (column_values t c) else Ret dflt.

Definition get_data_summary (df : option table) : result summary_dict :=
  match df with
  | None => Ret empty_dict
  | Some t =>
      if is_empty t then Ret empty_dict
      else
        st <- if_column t "created_utc" (fun l => v <- extreme_cells Lt l ;; Ret (Some v)) None ;;
        en <- if_column t "created_utc" (fun l => v <- extreme_cells Gt l ;; Ret (Some v)) None ;;
        ts <- if_column t "score" sum_cells 0%Z ;;
        tc <- if_column t "num_comments" sum_cells 0%Z ;;
        avs <- if_column t "score" mean_cells (Some 0%Q) ;;
        avc <- if_column t "num_comments" mean_cells (Some 0%Q) ;;
        ua <- if_column t "author" (fun l => Ret (nunique l)) 0%nat ;;
        nsfw <- if_column t "over_18" sum_cells 0%Z ;;
        ed <- if_column t "edited" sum_cells 0%Z ;;
        Ret (summary_of (mk_summary (len t) st en ts tc avs avc ua nsfw ed))
  end.

(* ================================================================= *)
(** ** visualizations.py

    A figure is described by the data it is built from; [EmptyFigure] is
    [go.Figure()].  The functions that convert [created_utc] take the
    datetime string parser of [pd.to_datetime] as [parse]. *)

Inductive figure : Type :=
| EmptyFigure
| TimeSeries (metric : string) (points : list (Z * Z * nat))  (** date, sum, post count *)
| TopPostsBar (n : nat) (metric : string) (bars : list (string * cell))  (** short title, value *)
| AuthorBar (n : nat) (bars : list (cell * nat))
| EngagementScatter (points : list row) (color : option string)
| Histogram (column : string) (values : list cell)
| Heatmap (days : list string) (hours : list Z) (z : list (list nat)).

Definition no_data (df : option table) : bool :=
  match df with None => true | Some t => is_empty t end.

Definition day_ns : Z := 86400 * 1000000000.
Definition hour_ns : Z := 3600 * 1000000000.

(** [.dt.date], as a day number since the epoch. *)
Definition date_of (t : Z) : Z := t / day_ns.

(** [.dt.hour] *)
Definition hour_of (t : Z) : Z := (t mod day_ns) / hour_ns.

Definition days_order : list string :=
  ["Monday"; "Tuesday"; "Wednesday"; "Thursday"; "Friday"; "Saturday"; "Sunday"].

(** [.dt.day_name()]: 1970-01-01 was a Thursday. *)
Definition day_name (t : Z) : string :=
  nth (Z.to_nat ((date_of t + 3) mod 7)) days_order EmptyString.

(** The timestamps of a converted column (NaT dropped, as [groupby] does). *)
Definition timestamps (t : table) (c : string) : list (Z * row) :=
  flat_map (fun r => match get_cell r c with CTime x => [(x, r)] | _ => [] end) (rows t).

Fixpoint insert_uniq (x : Z) (l : list Z) : list Z :=
  match l with
  | [] => [x]
  | y :: l' => if Z.ltb x y then x :: l else if Z.eqb x y then l else y :: insert_uniq x l'
  end.

(** The sorted distinct values (the group keys of [groupby]). *)
Definition sort_uniq (l : list Z) : list Z := fold_right insert_uniq [] l.

Definition require_column (t : table) (c : string) : result unit :=
  if has_column t c then Ret tt else Raise (KeyError c).

(** [df_copy['date'] = pd.to_datetime(df_copy['created_utc']).dt.date] as
    [groupby('date')] sees it: each row of [df_copy] (the rows of [orig])
    with the date of its converted timestamp (a row of [conv]); rows with
    NaT are dropped. *)
Definition dated_rows (conv orig : table) : list (Z * row) :=
  flat_map (fun '(r', r) => match get_cell r' "created_utc" with CTime x => [(date_of x, r)] | _ => [] end)
           (combine (rows conv) (rows orig)).

(** With [metric = 'id'] the dict [{metric: 'sum', 'id': 'count'}] keeps
    one entry, so [daily_data] has two columns and the assignment of three
    column names raises.  A metric named [date], the grouping column
    itself, is read here from the original rows. *)
Definition create_time_series_chart (parse : string -> option Z) (df : option table)
  (metric : string) : result figure :=
  match df with
  | None => Ret EmptyFigure
  | Some t =>
      if is_empty t || negb (has_column t "created_utc") then Ret EmptyFigure
      else
        t' <- to_datetime_column parse t "created_utc" ;;
        _ <- require_column t metric ;;
        _ <- require_column t "id" ;;
        let dated := dated_rows t' t in
        if String.eqb metric "id"
        then Raise (ValueError "Length mismatch: Expected axis has 2 elements, new values have 3 elements")
        else
          points <- map_result
            (fun d =>
               let rs := map snd (filter (fun p => Z.eqb (fst p) d) dated) in
               s <- sum_cells (map (fun r => get_cell r metric) rs) ;;
               Ret (d, s, count_valid (map (fun r => get_cell r "id") rs)))
            (sort_uniq (map fst dated)) ;;
          Ret (TimeSeries metric points)
  end.

(** The sort key of [nlargest]: the metric's integer value, NaN last. *)
Definition metric_key (metric : string) (r : row) : option Z :=
  match get_cell r metric with CInt z => Some z | _ => None end.

Definition numeric_or_na (v : cell) : bool :=
  match v with CNA | CInt _ => true | _ => false end.

(** [df.nlargest(n, metric)] with [keep='first']: the rows by decreasing
    metric, equal values in table order, the first [n] of them.  A missing
    column raises [KeyError]; a non-numeric one [TypeError]. *)
Definition nlargest (n : nat) (metric : string) (t : table) : result (list row) :=
  if negb (has_column t metric) then Raise (KeyError metric)
  else if forallb numeric_or_na (column_values t metric)
  then Ret (firstn n (sort_desc (metric_key metric) (rows t)))
  else Raise TypeError.

(** [x[:50] + '...' if len(x) > 50 else x] *)
Definition short_title (s : string) : string :=
  if Nat.ltb 50 (String.length s) then substring 0 50 s ++ "..." else s.

(** The lambda applied to a title cell: [len] of a non-string raises. *)
Definition shorten (x : cell) : result string :=
  match x with
  | CStr s => Ret (short_title s)
  | _ => Raise TypeError
  end.

Definition create_top_posts_chart (df : option table) (n : nat) (metric : string)
  : result figure :=
  match df with
  | None => Ret EmptyFigure
  | Some t =>
      if is_empty t then Ret EmptyFigure
      else
        top <- nlargest n metric t ;;
        _ <- require_column t "title" ;;
        bars <- map_result (fun r => s <- shorten (get_cell r "title") ;;
                                     Ret (s, get_cell r metric)) top ;;
        Ret (TopPostsBar n metric bars)
  end.

(** [value_counts()]: each distinct non-missing value (first-appearance
    order) with its count, by decreasing count, equal counts in that order. *)
Definition value_counts (l : list cell) : list (cell * nat) :=
  let vals := filter (fun v => negb (is_na v)) l in
  let uniq := rev (distinct_cells (rev vals)) in
  sort_desc (fun p => Some (Z.of_nat (snd p)))
            (map (fun v => (v, length (filter (cell_eqb v) vals))) uniq).

Definition create_author_chart (df : option table) (n : nat) : result figure :=
  match df with
  | None => Ret EmptyFigure
  | Some t =>
      if is_empty t || negb (has_column t "author") then Ret EmptyFigure
      else Ret (AuthorBar n (firstn n (value_counts (column_values t "author"))))
  end.

(** [px.scatter] raises [ValueError] for a column not in the frame. *)
Definition create_engagement_scatter (df : option table) : result figure :=
  match df with
  | None => Ret EmptyFigure
  | Some t =>
      if is_empty t then Ret EmptyFigure
      else
        match find (fun c => negb (has_column t c)) ["num_comments"; "score"; "title"; "author"] with
        | Some c => Raise (ValueError c)
        | None => Ret (EngagementScatter (rows t)
                         (if has_column t "upvote_ratio" then Some "upvote_ratio" else None))
        end
  end.

(** [px.histogram(df, x=column, nbins=30)]: the binning is done by the
    renderer from the column's values. *)
Definition create_distribution_chart (df : option table) (column : string) : result figure :=
  match df with
  | None => Ret EmptyFigure
  | Some t =>
      if is_empty t || negb (has_column t column) then Ret EmptyFigure
      else Ret (Histogram column (column_values t column))
  end.

(** [groupby(['day_of_week', 'hour']).size()], pivoted with [fillna(0)]:
    rows are the day names present, reindexed in [days_order]; columns are
    the hours present, ascending. *)
Definition heatmap_count (stamps : list Z) (d : string) (h : Z) : nat :=
  length (filter (fun x => String.eqb (day_name x) d && Z.eqb (hour_of x) h) stamps).

(** The converted timestamps of the posts (NaT dropped). *)
Definition stamps_of (t : table) : list Z := map fst (timestamps t "created_utc").

Definition create_heatmap (parse : string -> option Z) (df : option table) : result figure :=
  match df with
  | None => Ret EmptyFigure
  | Some t =>
      if is_empty t || negb (has_column t "created_utc") then Ret EmptyFigure
      else
        t' <- to_datetime_column parse t "created_utc" ;;
        let stamps := stamps_of t' in
        let days := filter (fun d => existsb (fun x => String.eqb (day_name x) d) stamps)
                           days_order in
        let hours := sort_uniq (map hour_of stamps) in
        Ret (Heatmap days hours (map (fun d => map (heatmap_count stamps d) hours) days))
  end.

(* ================================================================= *)
(** ** A datetime string parser

    An ISO 8601 parser in the shape [pd.to_datetime] accepts, used to run
    the loaders on concrete inputs: [YYYY-MM-DD] or [YYYY-MM-DD HH:MM:SS],
    giving nanoseconds since the epoch. *)

Local Open Scope Z_scope.

Definition days_from_civil (y m d : Z) : Z :=
  let y' := if Z.leb m 2 then y - 1 else y in
  let era := y' / 400 in
  let yoe := y' - era * 400 in
  let mp := (m + 9) mod 12 in
  let doy := (153 * mp + 2) / 5 + d - 1 in
  let doe := yoe * 365 + yoe / 4 - yoe / 100 + doy in
  era * 146097 + doe - 719468.

Definition field (s : string) (from width : nat) : option Z :=
  if Nat.eqb (String.length (substring from width s)) width
  then digits_value 0 (substring from width s) else None.

Definition char_at (s : string) (i : nat) (c : ascii) : bool :=
  match String.get i s with Some c' => Ascii.eqb c c' | None => false end.

Definition iso_parser (s : string) : option Z :=
  match field s 0 4, field s 5 2, field s 8 2 with
  | Some y, Some mo, Some d =>
      if char_at s 4 "-" && char_at s 7 "-" && Z.leb 1 mo && Z.leb mo 12
         && Z.leb 1 d && Z.leb d 31 then
        let day := days_from_civil y mo d * day_ns in
        if Nat.eqb (String.length s) 10 then Some day
        else if Nat.eqb (String.length s) 19 && char_at s 10 " " && char_at s 13 ":"
                && char_at s 16 ":" then
          match field s 11 2, field s 14 2, field s 17 2 with
          | Some h, Some mi, Some se =>
              if Z.ltb h 24 && Z.ltb mi 60 && Z.ltb se 60
              then Some (day + (h * 3600 + mi * 60 + se) * 1000000000)
              else None
          | _, _, _ => None
          end
        else None
      else None
  | _, _, _ => None
  end.

(* ================================================================= *)
(** ** Python string helpers *)

(** The decimal digits of a non-negative integer, most significant first,
    in front of [acc]; [fuel] bounds the number of digits. *)
Fixpoint z_digits (fuel : nat) (z : Z) (acc : string) : string :=
  match fuel with
  | O => acc
  | S f =>
      let acc' := String (ascii_of_nat (48 + Z.to_nat (z mod 10))%nat) acc in
      if z <? 10 then acc' else z_digits f (z / 10) acc'
  end.

(** [str(z)] for a Python int. *)
Definition py_str_int (z : Z) : string :=
  if z <? 0 then "-" ++ z_digits (S (Z.to_nat (Z.log2 (- z)))) (- z) ""
  else z_digits (S (Z.to_nat (Z.log2 z))) z "".

(* ================================================================= *)
(** ** configparser: changing a parser and writing it *)

(** [value.replace('%%', '')] *)
Fixpoint drop_escaped (s : string) : string :=
  match s with
  | String "%" (String "%" s') => drop_escaped s'
  | String c s' => String c (drop_escaped s')
  | EmptyString => EmptyString
  end.

(** After ["%("]: one or more characters other than [")"], then [")s"];
    the text after the match. *)
Fixpoint after_name (nonempty : bool) (s : string) : option string :=
  match s with
  | String ")" (String "s" rest) => if nonempty then Some rest else None
  | String ")" _ => None
  | String _ s' => after_name true s'
  | EmptyString => None
  end.

(** A match of [%\(([^)]+)\)s] at the start of [s]. *)
Definition key_ref_rest (s : string) : option string :=
  match s with
  | String "%" (String "(" s') => after_name false s'
  | _ => None
  end.

(** [_KEYCRE.sub('', s)]: the references removed, scanning left to right. *)
Fixpoint drop_key_refs (fuel : nat) (s : string) : string :=
  match fuel with
  | O => s
  | S f =>
      match s with
      | EmptyString => EmptyString
      | String c s' =>
          match key_ref_rest s with
          | Some rest => drop_key_refs f rest
          | None => String c (drop_key_refs f s')
          end
      end
  end.

(** [s.find('%')] *)
Fixpoint find_pct (s : string) : Z :=
  match s with
  | EmptyString => -1
  | String c s' => if Ascii.eqb c "%" then 0 else let i := find_pct s' in if i <? 0 then -1 else i + 1
  end.

(** [BasicInterpolation.before_set]: a ['%'] left once the escaped ["%%"]
    and the ["%(name)s"] references are removed is rejected. *)
Definition before_set (value : string) : result string :=
  let tmp := drop_escaped value in
  let tmp := drop_key_refs (String.length tmp) tmp in
  if py_contains "%" tmp
  then Raise (ValueError ("invalid interpolation syntax in " ++ py_repr value
                          ++ " at position " ++ py_str_int (find_pct tmp)))
  else Ret value.

(** A dict assignment [d[k] = v]: in place when [k] is there, else at the end. *)
Fixpoint assoc_set {V} (k : string) (v : V) (l : list (string * V)) : list (string * V) :=
  match l with
  | [] => [(k, v)]
  | (k', v') :: l' => if String.eqb k k' then (k, v) :: l' else (k', v') :: assoc_set k v l'
  end.

(** [ConfigParser.set(section, option, value)]. *)
Definition cp_set (p : config_parser) (s k v : string) : result config_parser :=
  v <- (if String.eqb v "" then Ret v else before_set v) ;;
  if String.eqb s "" || String.eqb s "DEFAULT"
  then Ret (mk_parser (assoc_set (py_lower k) v (defaults p)) (sections p))
  else
    match assoc s (sections p) with
    | None => Raise (NoSectionError s)
    | Some opts =>
        Ret (mk_parser (defaults p) (assoc_set s (assoc_set (py_lower k) v opts) (sections p)))
    end.

(** [ConfigParser.add_section(s)], for a section other than [DEFAULT] that
    is not there yet (its only use): a new empty section at the end. *)
Definition add_section (p : config_parser) (s : string) : config_parser :=
  mk_parser (defaults p) (sections p ++ [(s, [])]).

(** The settings file and whether it can be opened for writing.  The file
    is modelled by what [read_config] parses from it: [parser.write]
    followed by a read gives the written sections, options and values back
    (for values that are one line, without surrounding blanks). *)
Record disk := mk_disk {
  file : settings_file;
  writable : bool
}.

(** [write_config]: [open(config_path, 'w')] raises on a file that cannot
    be written, which is caught. *)
Definition write_config (d : disk) (p : config_parser) : bool * disk :=
  if writable d then (true, mk_disk (Some p) true) else (false, d).

(** ["None" if limit is None else str(limit)] *)
Definition limit_text (limit : option Z) : string :=
  match limit with None => "None" | Some z => py_str_int z end.

(** The body of [update_reddit_extraction_config]'s [try] block, up to the
    call of [write_config]. *)
Definition update_body (f : settings_file) (sr tf : string) (limit : option Z)
  : result config_parser :=
  parser <- read_config f ;;
  let parser := if negb (has_section parser "reddit_extraction")
                then add_section parser "reddit_extraction" else parser in
  parser <- cp_set parser "reddit_extraction" "subreddit" sr ;;
  parser <- cp_set parser "reddit_extraction" "time_filter" tf ;;
  cp_set parser "reddit_extraction" "limit" (limit_text limit).

Definition update_reddit_extraction_config (d : disk) (sr tf : string) (limit : option Z)
  : bool * disk :=
  match update_body (file d) sr tf limit with
  | Ret parser => write_config d parser
  | Raise _ => (false, d)
  end.

(* ================================================================= *)
(** ** reddit_api.py

    The Reddit API as praw presents it: a call either returns or raises an
    exception whose [str] is [msg].  Instances are opaque handles. *)

Inductive api_result (A : Type) : Type :=
| AOk (a : A)
| AErr (msg : string).
Arguments AOk {A} a.
Arguments AErr {A} msg.

Definition api_bind {A B} (c : api_result A) (k : A -> api_result B) : api_result B :=
  match c with AOk a => k a | AErr m => AErr m end.

Record reddit_api := mk_api {
  (** [praw.Reddit(client_id=..., client_secret=..., user_agent=...)] *)
  praw_reddit : string -> string -> string -> api_result nat;
  (** [reddit.user.me()] *)
  user_me : nat -> api_result unit;
  (** [reddit.subreddit(name)] *)
  subreddit_of : nat -> string -> api_result unit;
  (** [subreddit.display_name] *)
  display_name : nat -> string -> api_result string;
  (** the other attributes of [subreddit], by name *)
  sub_attr : nat -> string -> string -> api_result cell
}.

(** [not config.get(k)] is false: the key is there with a non-empty value. *)
Definition truthy (o : option string) : bool :=
  match o with Some s => negb (String.eqb s "") | None => false end.

Definition user_agent (developer : string) : string := "Reddit Analytics by u/" ++ developer.

(** Every exception is caught and gives [None]. *)
Definition create_reddit_instance (f : settings_file) (api : reddit_api) : option nat :=
  match get_reddit_api_config f with
  | Raise _ => None
  | Ret config =>
      if negb (truthy (assoc "client_id" config)) || negb (truthy (assoc "secret" config))
      then None
      else
        let developer := match assoc "developer" config with Some v => v | None => "unknown" end in
        match assoc "client_id" config, assoc "secret" config with
        | Some cid, Some sec =>
            match praw_reddit api cid sec (user_agent developer) with
            | AErr _ => None
            | AOk h => match user_me api h with AOk _ => Some h | AErr _ => None end
            end
        | _, _ => None
        end
  end.

(** The message of the outer [except] of [validate_subreddit]. *)
Definition lookup_error (name msg : string) : string :=
  if py_contains "404" msg || py_contains "Redirect" msg
  then "Subreddit r/" ++ name ++ " does not exist."
  else "Error validating subreddit: " ++ msg.

Definition validate_subreddit (f : settings_file) (api : reddit_api) (name : string)
  : bool * option string :=
  match create_reddit_instance f api with
  | None => (false, Some "Unable to connect to Reddit API. Check your credentials.")
  | Some h =>
      match api_bind (subreddit_of api h name) (fun _ => display_name api h name) with
      | AErr msg => (false, Some (lookup_error name msg))
      | AOk _ =>
          match sub_attr api h name "subscribers" with
          | AErr _ =>
              (false, Some ("Subreddit r/" ++ name ++ " exists but may be private or restricted."))
          | AOk _ => (true, None)
          end
      end
  end.

Definition get_subreddit_info (f : settings_file) (api : reddit_api) (name : string)
  : option (list (string * cell)) :=
  match create_reddit_instance f api with
  | None => None
  | Some h =>
      match
        api_bind (subreddit_of api h name) (fun _ =>
        api_bind (display_name api h name) (fun dn =>
        api_bind (sub_attr api h name "title") (fun ti =>
        api_bind (sub_attr api h name "public_description") (fun de =>
        api_bind (sub_attr api h name "subscribers") (fun su =>
        api_bind (sub_attr api h name "created_utc") (fun cr =>
        api_bind (sub_attr api h name "over18") (fun o =>
        api_bind (display_name api h name) (fun dn' =>
        AOk [("name", CStr dn); ("title", ti); ("description", de); ("subscribers", su);
             ("created_utc", cr); ("over18", o);
             ("url", CStr ("https://reddit.com/r/" ++ dn'))]))))))))
      with
      | AOk d => Some d
      | AErr _ => None
      end
  end.

Definition test_reddit_credentials (f : settings_file) (api : reddit_api) : bool * option string :=
  match create_reddit_instance f api with
  | None =>
      (false, Some "Unable to create Reddit instance. Check your credentials in configuration.conf")
  | Some h =>
      match user_me api h with
      | AOk _ => (true, None)
      | AErr msg => (false, Some ("Reddit API credentials are invalid: " ++ msg))
      end
  end.

(* ================================================================= *)
(** ** visualizations.py: [create_pie_chart] *)

Inductive pie_figure : Type :=
| EmptyPie
| Pie (title : string) (slices : list (cell * nat)).

Definition create_pie_chart (df : option table) (column title : string) : pie_figure :=
  match df with
  | None => EmptyPie
  | Some t =>
      if is_empty t || negb (has_column t column) then EmptyPie
      else Pie title (value_counts (column_values t column))
  end.

(* ================================================================= *)
(** ** streamlit_app.py: the pages' use of the utilities *)

(** [f"{limit if limit else 'No limit'}"] *)
Definition limit_display (l : option Z) : string :=
  match l with
  | Some z => if z =? 0 then "No limit" else py_str_int z
  | None => "No limit"
  end.

(** The sidebar's "Quick Info": subreddit, time filter and limit as shown;
    [None] is the "Error loading configuration" message. *)
Definition sidebar_info (f : settings_file) : option (string * string * string) :=
  match get_reddit_extraction_config f with
  | Ret c => Some ("r/" ++ subreddit c, time_filter c, limit_display (limit c))
  | Raise _ => None
  end.

Definition time_filter_options : list string := ["hour"; "day"; "week"; "month"; "year"; "all"].

Fixpoint list_index (x : string) (l : list string) : option nat :=
  match l with
  | [] => None
  | y :: l' => if String.eqb x y then Some O else option_map S (list_index x l')
  end.

(** [list.index(x)] *)
Definition py_index (x : string) (l : list string) : result nat :=
  match list_index x l with
  | Some i => Ret i
  | None => Raise (ValueError (py_repr x ++ " is not in list"))
  end.

(** The initial state of the configuration form. *)
Record config_form := mk_form {
  form_subreddit : string;
  form_time_filter_index : nat;
  form_limit_option_index : nat;   (** 0: "No Limit", 1: "Custom Limit" *)
  form_limit_value : Z
}.

(** The Configuration page up to its form: the settings and the widgets'
    initial values.  The [number_input] is drawn only under "Custom Limit",
    the radio's initial choice when a limit is set; it refuses a default
    value outside [[1, 1000]]. *)
Definition configuration_form (f : settings_file) : result config_form :=
  current <- get_reddit_extraction_config f ;;
  idx <- py_index (time_filter current) time_filter_options ;;
  let value := match limit current with Some z => if z =? 0 then 100 else z | None => 100 end in
  match limit current with
  | Some _ =>
      if (1 <=? value) && (value <=? 1000) then Ret (mk_form (subreddit current) idx (S O) value)
      else Raise (StreamlitAPIException
                    ("The default `value` of " ++ py_str_int value
                     ++ " must lie between the `min_value` of 1 and the `max_value` of 1000, inclusive."))
  | None => Ret (mk_form (subreddit current) idx O value)
  end.

(** The "Test AWS Configuration" button: the settings shown without the
    keys that mention a password, or [None] (the error message) for [{}]. *)
Definition aws_config_view (f : settings_file) : result (option str_dict) :=
  aws_config <- get_aws_config f ;;
  match aws_config with
  | [] => Ret None
  | _ => Ret (Some (filter (fun '(k, _) => negb (py_contains "password" (py_lower k))) aws_config))
  end.

(** [Timestamp.strftime]: NaT raises. *)
Definition strftime_stamp (v : cell) : result Z :=
  match v with
  | CTime t => Ret t
  | CNA => Raise (ValueError "NaTType does not support strftime")
  | _ => Raise TypeError
  end.

(** The "Data Freshness" panel: latest post, oldest post and the whole days
    between them ([Timedelta.days] floors); [None] is the warning. *)
Definition data_freshness (parse : string -> option Z) (df : option table)
  : result (option (Z * Z * Z)) :=
  match df with
  | Some t =>
      if negb (is_empty t) && has_column t "created_utc" then
        latest <- (col <- map_result (to_datetime_cell parse) (column_values t "created_utc") ;;
                   extreme_cells Gt col) ;;
        oldest <- (col <- map_result (to_datetime_cell parse) (column_values t "created_utc") ;;
                   extreme_cells Lt col) ;;
        l <- strftime_stamp latest ;;
        o <- strftime_stamp oldest ;;
        Ret (Some (l, o, (l - o) / day_ns))
      else Ret None
  | None => Ret None
  end.

(** [series >= m] on one cell: NaN compares false, a string raises. *)
Definition cell_ge (v : cell) (m : Z) : result bool :=
  match v with
  | CNA => Ret false
  | CInt z => Ret (m <=? z)
  | CBool b => Ret (m <=? (if b then 1 else 0))
  | CStr _ | CTime _ => Raise TypeError
  end.

(** [df[mask]] for a mask computed row by row. *)
Fixpoint filter_result {A} (p : A -> result bool) (l : list A) : result (list A) :=
  match l with
  | [] => Ret []
  | x :: l' => b <- p x ;; rest <- filter_result p l' ;; Ret (if b then x :: rest else rest)
  end.

Definition mask_rows (t : table) (c : string) (p : cell -> result bool) : result table :=
  _ <- require_column t c ;;
  rs <- filter_result (fun r => p (get_cell r c)) (rows t) ;;
  Ret (mk_table (columns t) rs).

(** The Data Viewer's filters.  [title_match term v] is
    [str.contains(term, case=False, na=False)] on one title cell. *)
Definition data_viewer_filter (title_match : string -> cell -> result bool) (t : table)
  (search_term : string) (min_score min_comments : Z) : result table :=
  t1 <- (if String.eqb search_term "" then Ret t else mask_rows t "title" (title_match search_term)) ;;
  t2 <- (if 0 <? min_score then mask_rows t1 "score" (fun v => cell_ge v min_score) else Ret t1) ;;
  if 0 <? min_comments then mask_rows t2 "num_comments" (fun v => cell_ge v min_comments)
  else Ret t2.

(** A value configparser writes and reads back unchanged and [get] returns
    as it is: printable ASCII without ['%'], no blank at either end. *)
Definition plain_char (c : ascii) : bool :=
  let n := nat_of_ascii c in (32 <=? n)%nat && (n <=? 126)%nat && negb (Ascii.eqb c "%").

Fixpoint all_plain (s : string) : bool :=
  match s with EmptyString => true | String c s' => plain_char c && all_plain s' end.

Definition plain_value (v : string) : bool :=
  all_plain v && negb (String.prefix " " v)
  && negb (String.eqb (substring (String.length v - 1) 1 v) " ").

(* ================================================================= *)
(** ** Vocabulary of the statements *)

(** One violation reported by [validate_config]. *)
Inductive violation : Type :=
| MissingSection (s : string)
| MissingKey (s k : string).

Definition render_violation (v : violation) : string :=
  match v with
  | MissingSection s => section_error s
  | MissingKey s k => key_error s k
  end.

Definition required_keys : list (string * list string) :=
  [("aws_config", required_aws_keys); ("reddit_config", required_reddit_keys);
   ("reddit_extraction", required_extraction_keys)].

Definition missing_keys (p : config_parser) (s : string) (ks : list string) : list violation :=
  if has_section p s
  then map (MissingKey s) (filter (fun k => negb (has_option p s k)) ks)
  else [].

(** The violations of a parsed file: the missing sections, then section by
    section the missing keys of the present ones. *)
Definition violations (p : config_parser) : list violation :=
  (map MissingSection (filter (fun s => negb (has_section p s)) required_sections)
   ++ flat_map (fun '(s, ks) => missing_keys p s ks) required_keys)%list.

Definition is_violation (p : config_parser) (v : violation) : Prop :=
  match v with
  | MissingSection s => In s required_sections /\ has_section p s = false
  | MissingKey s k =>
      exists ks, In (s, ks) required_keys /\ In k ks
                 /\ has_section p s = true /\ has_option p s k = false
  end.

(** The last element of a list, as a list of at most one element. *)
Definition last_one {A} (l : list A) : list A :=
  match rev l with [] => [] | x :: _ => [x] end.

(** The title shown for a row of the top-posts chart. *)
Definition shown_title (r : row) : string :=
  match get_cell r "title" with CStr s => short_title s | _ => EmptyString end.

(** [a] sorts before [b] in a descending sort by [key]. *)
Definition ge_key {A} (key : A -> option Z) (a b : A) : Prop := key_ge (key a) (key b) = true.

(* ================================================================= *)
(** ** Sample inputs *)

(** A settings file without [redshift_password] and without [reddit_config]. *)
Definition sample_settings : config_parser :=
  mk_parser []
    [("aws_config", [("bucket_name", "reddit-bucket"); ("redshift_username", "awsuser");
                     ("redshift_hostname", "cluster.example.com");
                     ("redshift_database", "dev")]);
     ("reddit_extraction", [("subreddit", "python"); ("time_filter", "week");
                            ("limit", "None")])].

(** A settings file with only [DEFAULT] and an incomplete [aws_config]. *)
Definition sample_settings_partial : config_parser :=
  mk_parser [("aws_region", "us-east-1")]
    [("aws_config", [("bucket_name", "reddit-bucket"); ("redshift_port", "5439")])].

Definition post_columns : list string :=
  ["id"; "title"; "author"; "score"; "num_comments"; "created_utc"].

Definition mk_post (i title author : string) (score comments : Z) (created : string) : row :=
  [("id", CStr i); ("title", CStr title); ("author", CStr author); ("score", CInt score);
   ("num_comments", CInt comments); ("created_utc", CStr created)].

(** One extraction batch: three posts with scores 10, 50 and 5. *)
Definition sample_batch : table :=
  mk_table post_columns
    [mk_post "p1" "Spark vs Flink for streaming" "alice" 10 4 "2023-05-01 13:45:10";
     mk_post "p2" "How we migrated our data warehouse to a lakehouse without downtime" "bob" 50 12
             "2023-05-02 09:00:00";
     mk_post "p3" "dbt tips" "alice" 5 1 "2023-05-02 18:30:00"].

(** A batch whose only post has a timestamp no parser accepts. *)
Definition bad_timestamp_batch : table :=
  mk_table post_columns [mk_post "p9" "Airflow question" "carol" 3 0 "not a date"].

(** A batch that lists post [p1] twice. *)
Definition repeated_id_batch : table :=
  mk_table post_columns
    [mk_post "p1" "Spark vs Flink for streaming" "alice" 10 4 "2023-05-01 13:45:10";
     mk_post "p1" "Spark vs Flink for streaming" "alice" 12 6 "2023-05-01 13:45:10"].

Definition other_batch : table :=
  mk_table post_columns [mk_post "p4" "Kafka basics" "dave" 7 2 "2023-05-03 08:15:00"].

(** A warehouse that cannot be reached; [/tmp] holds the given batches. *)
Definition sample_env (batches : list table) : env :=
  mk_env (Some sample_settings) (fun _ _ => Raise (DatabaseError "connection refused"))
         (fun d => if String.eqb d "/tmp" then map Ret batches else []) iso_parser.

(** A table with the post columns and no rows. *)
Definition empty_posts : table := mk_table post_columns [].

(** The table the local load makes of [sample_batch]. *)
Definition loaded_batch : table :=
  match load_local_data (sample_env [sample_batch]) "/tmp" with
  | Ret (Some t) => t
  | _ => empty_posts
  end.

(** Cells [sum()] and [mean()] accept. *)
Definition numeric_cell (v : cell) : bool :=
  match v with CNA | CInt _ | CBool _ => true | _ => false end.

Definition time_cell (v : cell) : bool :=
  match v with CNA | CTime _ => true | _ => false end.

(** Replace the [title] of a row (to show that titles do not steer the
    selection). *)
Definition retitle (f : cell -> cell) (r : row) : row :=
  map (fun '(k, v) => if String.eqb k "title" then (k, f v) else (k, v)) r.

Definition retitle_table (f : cell -> cell) (t : table) : table :=
  mk_table (columns t) (map (retitle f) (rows t)).

(** A batch without the score and num_comments columns. *)
Definition no_metrics_batch : table :=
  mk_table ["id"; "title"; "author"; "created_utc"]
    [[("id", CStr "p5"); ("title", CStr "Data contracts"); ("author", CStr "erin");
      ("created_utc", CTime 1683018000000000000)]].

(* ================================================================= *)
(** ** Vocabulary and sample inputs of the further statements *)

(** The character [str()] writes for the last decimal digit of [z]. *)
Definition digit_char (z : Z) : ascii := ascii_of_nat (48 + Z.to_nat (z mod 10))%nat.

(** The three [config.set] calls of [update_reddit_extraction_config]. *)
Definition set_three (q : config_parser) (sr tf : string) (lim : option Z) : result config_parser :=
  q1 <- cp_set q "reddit_extraction" "subreddit" sr ;;
  q2 <- cp_set q1 "reddit_extraction" "time_filter" tf ;;
  cp_set q2 "reddit_extraction" "limit" (limit_text lim).


(** A value of a column after [pd.to_datetime]: NaT or a timestamp. *)
Definition is_time_or_na (v : cell) : Prop := v = CNA \/ exists t, v = CTime t.

(** The boolean a mask entry holds; an entry that raised counts as [False]. *)
Definition res_true (c : result bool) : bool := match c with Ret b => b | Raise _ => false end.

(** The posts of day [d] ([orig] the table, [conv] its converted form). *)
Definition posts_on (conv orig : table) (d : Z) : list row :=
  map snd (filter (fun p => Z.eqb (fst p) d) (dated_rows conv orig)).

(** A settings file with every section: all nine [aws_config] keys and the
    Reddit credentials. *)
Definition sample_settings_full : config_parser :=
  mk_parser []
    [("aws_config", [("bucket_name", "reddit-bucket"); ("redshift_username", "awsuser");
                     ("redshift_password", "s3cret"); ("redshift_hostname", "cluster.example.com");
                     ("redshift_role", "arn:aws:iam::123456789012:role/redshift");
                     ("redshift_port", "5439"); ("redshift_database", "dev");
                     ("account_id", "123456789012"); ("aws_region", "us-east-1")]);
     ("reddit_config", [("secret", "xyz"); ("client_id", "abc"); ("developer", "dana");
                        ("name", "analytics")]);
     ("reddit_extraction", [("subreddit", "python"); ("time_filter", "week");
                            ("limit", "25")])].

(** A settings file whose Reddit secret is empty. *)
Definition sample_settings_no_secret : config_parser :=
  mk_parser [] [("reddit_config", [("secret", ""); ("client_id", "abc")])].

(** A settings file whose extraction section has the given time filter and
    limit texts. *)
Definition extraction_settings (tf lim : string) : config_parser :=
  mk_parser []
    [("reddit_extraction", [("subreddit", "python"); ("time_filter", tf); ("limit", lim)])].

(** A Reddit API that accepts every call; subreddit [sub] lookups give [e]. *)
Definition sample_api (lookup : api_result unit) : reddit_api :=
  mk_api (fun _ _ _ => AOk 1%nat) (fun _ => AOk tt) (fun _ _ => lookup)
         (fun _ n => AOk n) (fun _ _ a => AOk (CStr a)).

(** A reachable warehouse that returns [t] for every query. *)
Definition warehouse_env (t : table) : env :=
  mk_env (Some sample_settings_full) (fun _ _ => Ret t) (fun _ => []) iso_parser.

(** A data directory whose CSV files all fail to parse. *)
Definition unreadable_env : env :=
  mk_env (Some sample_settings) (fun _ _ => Raise (DatabaseError "connection refused"))
         (fun _ => [Raise (ParserError "Error tokenizing data"); Raise (ParserError "EOF")])
         iso_parser.

(** A case-insensitive title search on one cell. *)
Definition title_search (term : string) (v : cell) : result bool :=
  match v with CStr s => Ret (py_contains (py_lower term) (py_lower s)) | _ => Ret false end.

(** A batch whose posts have no timestamp. *)
Definition undated_batch : table :=
  mk_table post_columns
    [[("id", CStr "p7"); ("title", CStr "Untimed"); ("author", CStr "erin"); ("score", CInt 1);
      ("num_comments", CInt 0); ("created_utc", CNA)]].

(* ================================================================= *)
(** * Settings store *)

Section Settings.

Variable p : config_parser.

Lemma cp_get_missing (s k : string) (opts : options) :
  assoc s (sections p) = Some opts -> has_option p s k = false ->
  cp_get p s k = Raise (NoOptionError k s).
Proof.
  intros Hs Ho. unfold has_option, cp_get in *. rewrite Hs in *.
  destruct (assoc k opts); [discriminate|].
  destruct (assoc k (defaults p)); [discriminate|reflexivity].
Qed.

Lemma get_all_raises (s : string) (opts : options) (ks : list string) :
  assoc s (sections p) = Some opts ->
  (exists k, In k ks /\ has_option p s k = false) ->
  exists e, get_all p s ks = Raise e.
Proof.
  intros Hs. induction ks as [|k ks IH]; intros [k0 [Hin Hk0]]; [destruct Hin|].
  cbn [get_all]. destruct (cp_get p s k) as [v|e] eqn:Ev; cbn [bind]; [|now exists e].
  destruct Hin as [<-|Hin].
  - rewrite (cp_get_missing s k opts Hs Hk0) in Ev. discriminate Ev.
  - destruct (IH (ex_intro _ k0 (conj Hin Hk0))) as [e He]. rewrite He. cbn [bind].
    now exists e.
Qed.

Lemma get_all_keys (s : string) (ks : list string) (d : str_dict) :
  get_all p s ks = Ret d -> map fst d = ks.
Proof.
  revert d. induction ks as [|k ks IH]; intros d H; cbn [get_all] in H.
  - injection H as <-. reflexivity.
  - destruct (cp_get p s k); cbn [bind] in H; [|discriminate H].
    destruct (get_all p s ks) as [d'|] eqn:E; cbn [bind] in H; [|discriminate H].
    injection H as <-. cbn [map fst]. now rewrite (IH d' eq_refl).
Qed.

Lemma has_section_assoc (s : string) :
  has_section p s = true -> exists opts, assoc s (sections p) = Some opts.
Proof.
  unfold has_section. destruct (assoc s (sections p)); [eauto|discriminate].
Qed.

Lemma render_missing_keys (s : string) (ks : list string) :
  map render_violation (missing_keys p s ks) = check_keys p s ks.
Proof.
  unfold missing_keys, check_keys. destruct (has_section p s); [|reflexivity].
  now rewrite map_map.
Qed.

Lemma validate_config_eq :
  validate_config (Some p)
  = Ret (Nat.eqb (length (violations p)) 0, map render_violation (violations p)).
Proof.
  unfold validate_config. cbn [read_config].
  assert (E : map render_violation (violations p)
              = (map section_error (filter (fun s => negb (has_section p s)) required_sections)
                 ++ check_keys p "aws_config" required_aws_keys
                 ++ check_keys p "reddit_config" required_reddit_keys
                 ++ check_keys p "reddit_extraction" required_extraction_keys)%list).
  { unfold violations. rewrite map_app, map_map. cbn [flat_map required_keys].
    rewrite !map_app, !render_missing_keys, app_nil_r. reflexivity. }
  rewrite <- E, length_map. reflexivity.
Qed.

Lemma in_missing_keys (s : string) (ks : list string) (v : violation) :
  In v (missing_keys p s ks) <->
  exists k, v = MissingKey s k /\ In k ks /\ has_section p s = true /\ has_option p s k = false.
Proof.
  unfold missing_keys. destruct (has_section p s).
  - rewrite in_map_iff. split.
    + intros [k [<- Hk]]. apply filter_In in Hk as [Hk Ho].
      exists k. repeat split; auto. now apply negb_true_iff.
    + intros [k [-> [Hk [_ Ho]]]]. exists k. split; auto.
      apply filter_In. now rewrite Ho.
  - split; [intros []|]. intros [k [_ [_ [H _]]]]. discriminate.
Qed.

Lemma NoDup_map_inj {A B} (f : A -> B) (l : list A) :
  (forall a b, f a = f b -> a = b) -> NoDup l -> NoDup (map f l).
Proof.
  intros Hf. induction 1 as [|x l Hx Hl IH]; simpl; constructor; auto.
  rewrite in_map_iff. intros [y [Hy Hin]]. apply Hf in Hy. subst. contradiction.
Qed.

Lemma NoDup_missing_keys (s : string) (ks : list string) :
  NoDup ks -> NoDup (missing_keys p s ks).
Proof.
  intros Hks. unfold missing_keys. destruct (has_section p s); [|constructor].
  apply NoDup_map_inj; [|now apply NoDup_filter].
  intros a b H. now injection H.
Qed.

End Settings.

Ltac solve_nodup_strings :=
  repeat constructor; simpl; intuition discriminate.

Lemma NoDup_violations (p : config_parser) : NoDup (violations p).
Proof.
  unfold violations. apply NoDup_app.
  - apply NoDup_map_inj; [intros a b H; now injection H|].
    apply NoDup_filter. unfold required_sections. solve_nodup_strings.
  - cbn [flat_map required_keys]. rewrite app_nil_r.
    apply NoDup_app; [apply NoDup_missing_keys; unfold required_aws_keys; solve_nodup_strings| |].
    + apply NoDup_app;
        [apply NoDup_missing_keys; unfold required_reddit_keys; solve_nodup_strings
        |apply NoDup_missing_keys; unfold required_extraction_keys; solve_nodup_strings|].
      intros v H1 H2. apply in_missing_keys in H1 as [k [-> _]].
      apply in_missing_keys in H2 as [k' [E _]]. discriminate.
    + intros v H1 H2. apply in_missing_keys in H1 as [k [-> _]].
      apply in_app_or in H2 as [H2|H2]; apply in_missing_keys in H2 as [k' [E _]];
        discriminate.
  - intros v Ha Hb. apply in_map_iff in Ha as [s [<- _]].
    apply in_flat_map in Hb as [[s' ks] [_ Hb]].
    apply in_missing_keys in Hb as [k [Hk _]]. discriminate.
Qed.

Lemma in_violations (p : config_parser) (v : violation) :
  In v (violations p) <-> is_violation p v.
Proof.
  unfold violations. split.
  - intro H. apply in_app_or in H as [H|H].
    + apply in_map_iff in H as [s [<- Hs]]. apply filter_In in Hs as [Hs Hn].
      cbn [is_violation]. split; auto. now apply negb_true_iff.
    + apply in_flat_map in H as [[s ks] [Hsk H]].
      apply in_missing_keys in H as [k [-> [Hk [Hs Ho]]]]. cbn [is_violation].
      exists ks. auto.
  - destruct v as [s|s k]; cbn [is_violation].
    + intros [Hin Hs]. apply in_or_app. left. apply in_map. apply filter_In.
      rewrite Hs. auto.
    + intros [ks [Hsk [Hk [Hs Ho]]]]. apply in_or_app. right. apply in_flat_map.
      exists (s, ks). split; auto. apply in_missing_keys. eauto.
Qed.

(** C8: [validate_config] reports every violation of a settings file, not just
    the first: one message per missing required section (in the order
    aws_config, reddit_config, reddit_extraction), then per present section
    one message per missing required key, in the order of the key lists; no
    violation is reported twice.  A file whose only faults are a missing
    [redshift_password] and a missing [reddit_config] section gets exactly
    those two errors. *)
Theorem validate_config_reports_all :
  (forall p : config_parser,
      validate_config (Some p)
        = Ret (Nat.eqb (length (violations p)) 0, map render_violation (violations p))
      /\ NoDup (violations p)
      /\ (forall v, In v (violations p) <-> is_violation p v))
  /\ (forall p : config_parser,
      has_section p "aws_config" = true ->
      (forall k, In k required_aws_keys -> k <> "redshift_password" ->
                 has_option p "aws_config" k = true) ->
      has_option p "aws_config" "redshift_password" = false ->
      has_section p "reddit_config" = false ->
      has_section p "reddit_extraction" = true ->
      (forall k, In k required_extraction_keys -> has_option p "reddit_extraction" k = true) ->
      validate_config (Some p)
        = Ret (false, [section_error "reddit_config";
                       key_error "aws_config" "redshift_password"])).
Proof.
  split.
  - intro p. split; [apply validate_config_eq|]. split; [apply NoDup_violations|].
    apply in_violations.
  - intros p H1 H2 H3 H4 H5 H6. rewrite validate_config_eq.
    unfold violations. cbn [flat_map required_keys]. unfold missing_keys.
    unfold required_sections. cbn [filter]. rewrite H1, H4, H5.
    unfold required_aws_keys, required_extraction_keys. cbn [filter].
    rewrite (H2 "bucket_name"), (H2 "redshift_username"), (H2 "redshift_hostname"),
      (H2 "redshift_database"), H3 by (simpl; tauto || discriminate).
    rewrite (H6 "subreddit"), (H6 "time_filter"), (H6 "limit") by (simpl; tauto).
    reflexivity.
Qed.

(** C9: when the settings file exists but has no [reddit_extraction] section,
    [get_reddit_extraction_config] returns the default record
    subreddit "dataengineering", time_filter "day", limit None. *)
Theorem get_reddit_extraction_config_default (p : config_parser) :
  has_section p "reddit_extraction" = false ->
  get_reddit_extraction_config (Some p) = Ret (mk_extraction "dataengineering" "day" None).
Proof.
  intro H. unfold get_reddit_extraction_config. cbn [read_config bind]. now rewrite H.
Qed.

(** C10: [get_aws_config] returns the empty mapping when the [aws_config]
    section is absent; when the section is present but one of the nine keys
    is not an option of it (neither in the section nor in [DEFAULT]), it
    raises an exception instead of returning a partial mapping (the
    [NoOptionError] of that key, or an interpolation error of a key read
    before it); and whenever a present section gives a mapping, the mapping
    has all nine keys, so the empty mapping comes only from an absent
    section. *)
Theorem get_aws_config_missing_key_raises (p : config_parser) :
  (has_section p "aws_config" = false -> get_aws_config (Some p) = Ret [])
  /\ (has_section p "aws_config" = true ->
      (exists k, In k aws_keys /\ has_option p "aws_config" k = false) ->
      exists e, get_aws_config (Some p) = Raise e)
  /\ (has_section p "aws_config" = true ->
      forall d, get_aws_config (Some p) = Ret d -> map fst d = aws_keys).
Proof.
  unfold get_aws_config. cbn [read_config bind]. split; [|split].
  - intro H. now rewrite H.
  - intros H Hk. rewrite H. destruct (has_section_assoc p _ H) as [opts Hs].
    now apply (get_all_raises p _ opts).
  - intros H d Hd. rewrite H in Hd. exact (get_all_keys p _ _ _ Hd).
Qed.

Lemma validate_config_reports_all_witness :
  validate_config (Some sample_settings)
  = Ret (false, [section_error "reddit_config"; key_error "aws_config" "redshift_password"]).
Proof.
  apply (proj2 validate_config_reports_all sample_settings);
    [reflexivity | | reflexivity | reflexivity | reflexivity |].
  - intros k Hk Hne.
    repeat (destruct Hk as [<-|Hk]; [reflexivity || (exfalso; now apply Hne)|]).
    destruct Hk.
  - intros k Hk. repeat (destruct Hk as [<-|Hk]; [reflexivity|]). destruct Hk.
Defined.

Lemma get_reddit_extraction_config_default_witness :
  get_reddit_extraction_config (Some sample_settings_partial)
  = Ret (mk_extraction "dataengineering" "day" None).
Proof.
  apply get_reddit_extraction_config_default. reflexivity.
Defined.

Lemma get_aws_config_missing_key_raises_witness :
  exists e, get_aws_config (Some sample_settings_partial) = Raise e.
Proof.
  apply (proj1 (proj2 (get_aws_config_missing_key_raises sample_settings_partial))).
  - reflexivity.
  - exists "redshift_password". split; [simpl; tauto|reflexivity].
Defined.

(* ================================================================= *)
(** * Source resolution *)

Lemma try_except_none {A} (c : result (option A)) :
  exists o, try_except c (fun _ => Ret None) = Ret o.
Proof. destruct c; simpl; eauto. Qed.

Lemma load_from_redshift_ret (e : env) (t : string) :
  exists o, load_from_redshift e t = Ret o.
Proof. apply try_except_none. Qed.

Lemma load_local_data_ret (e : env) (d : string) :
  exists o, load_local_data e d = Ret o.
Proof. apply try_except_none. Qed.

(** C1: [load_data] never raises, whichever source is preferred; a non-empty
    table from the preferred source is returned as it is; an empty or absent
    result from it gives exactly the result of the other source; and any
    exception inside a loader's body (configuration, connection, query,
    file parsing) turns into an absent result ([None]). *)
Theorem load_data_falls_back (e : env) (prefer_redshift : bool) :
  let primary :=
    if prefer_redshift then load_from_redshift e "reddit" else load_local_data e "/tmp" in
  let alternate :=
    if prefer_redshift then load_local_data e "/tmp" else load_from_redshift e "reddit" in
  (exists o, load_data e prefer_redshift = Ret o)
  /\ (exists o, primary = Ret o)
  /\ (forall df, primary = Ret (Some df) -> is_empty df = false ->
                 load_data e prefer_redshift = Ret (Some df))
  /\ (forall o, primary = Ret o -> has_data o = false -> load_data e prefer_redshift = alternate)
  /\ (forall ex, load_from_redshift_body e "reddit" = Raise ex ->
                 load_from_redshift e "reddit" = Ret None)
  /\ (forall ex, load_local_data_body e "/tmp" = Raise ex ->
                 load_local_data e "/tmp" = Ret None).
Proof.
  intros primary alternate.
  assert (Hload : forall o, primary = Ret o ->
            load_data e prefer_redshift = if has_data o then Ret o else alternate).
  { intros o Ho. subst primary alternate. unfold load_data.
    destruct prefer_redshift; rewrite Ho; reflexivity. }
  assert (Hp : exists o, primary = Ret o).
  { subst primary. destruct prefer_redshift;
      [apply load_from_redshift_ret | apply load_local_data_ret]. }
  split; [|split; [exact Hp|split; [|split; [|split]]]].
  - destruct Hp as [o Ho]. rewrite (Hload o Ho). destruct (has_data o); [eauto|].
    subst alternate. destruct prefer_redshift;
      [apply load_local_data_ret | apply load_from_redshift_ret].
  - intros df Hdf Hne. rewrite (Hload _ Hdf). simpl. now rewrite Hne.
  - intros o Ho Hn. rewrite (Hload o Ho). now rewrite Hn.
  - intros ex H. unfold load_from_redshift. now rewrite H.
  - intros ex H. unfold load_local_data. now rewrite H.
Qed.

Lemma load_data_falls_back_witness :
  load_from_redshift (sample_env [sample_batch]) "reddit" = Ret None
  /\ load_data (sample_env [sample_batch]) true = load_local_data (sample_env [sample_batch]) "/tmp".
Proof.
  destruct (load_data_falls_back (sample_env [sample_batch]) true)
    as [_ [_ [_ [Hfall [Hdeg _]]]]].
  assert (Hnone : load_from_redshift (sample_env [sample_batch]) "reddit" = Ret None).
  { apply (Hdeg (NoOptionError "redshift_password" "aws_config")). reflexivity. }
  split; [exact Hnone|]. apply (Hfall None); [exact Hnone|reflexivity].
Defined.

(* ================================================================= *)
(** * Local loading: timestamps and deduplication *)

Lemma assoc_in {V} (k : string) (l : list (string * V)) (v : V) :
  assoc k l = Some v -> In (k, v) l.
Proof.
  induction l as [|[k' v'] l IH]; simpl; [discriminate|].
  destruct (String.eqb_spec k k') as [->|_]; [intros [= ->]; now left|].
  intro H. right. now apply IH.
Qed.

Lemma map_result_raise {A B} (f : A -> result B) (l : list A) (x : A) (ex : exn) :
  In x l -> f x = Raise ex -> exists ex', map_result f l = Raise ex'.
Proof.
  induction l as [|y l IH]; [intros []|]. intros [<-|Hin] Hf; simpl.
  - rewrite Hf. simpl. eauto.
  - destruct (f y); simpl; [|eauto].
    destruct (IH Hin Hf) as [ex' ->]. simpl. eauto.
Qed.

Lemma map_result_length {A B} (f : A -> result B) (l : list A) (l' : list B) :
  map_result f l = Ret l' -> length l' = length l.
Proof.
  revert l'. induction l as [|x l IH]; simpl; intros l' H.
  - now injection H as <-.
  - destruct (f x); simpl in H; [|discriminate].
    destruct (map_result f l) eqn:E; simpl in H; [|discriminate].
    injection H as <-. simpl. f_equal. now apply IH.
Qed.

Lemma to_datetime_column_raises (parse : string -> option Z) (t : table) (c : string)
  (r : row) (s : string) :
  In r (rows t) -> get_cell r c = CStr s -> parse s = None ->
  exists ex, to_datetime_column parse t c = Raise ex.
Proof.
  intros Hr Hc Hp. unfold get_cell in Hc.
  destruct (assoc c r) eqn:Ha; [subst|discriminate].
  apply assoc_in in Ha.
  assert (Hu : exists ex, update_cell (to_datetime_cell parse) c r = Raise ex).
  { unfold update_cell. eapply map_result_raise; [exact Ha|].
    simpl. rewrite String.eqb_refl, Hp. reflexivity. }
  destruct Hu as [ex Hu].
  destruct (map_result_raise _ _ _ _ Hr Hu) as [ex' Hm].
  unfold to_datetime_column. rewrite Hm. simpl. eauto.
Qed.

Lemma to_datetime_column_length (parse : string -> option Z) (t t' : table) (c : string) :
  to_datetime_column parse t c = Ret t' -> len t' = len t.
Proof.
  unfold to_datetime_column, len. destruct (map_result _ _) eqn:E; simpl; [|discriminate].
  intros [= <-]. simpl. now apply map_result_length in E.
Qed.

Lemma insert_desc_perm {A} (key : A -> option Z) (x : A) (l : list A) :
  Permutation (insert_desc key x l) (x :: l).
Proof.
  induction l as [|y l IH]; simpl; [reflexivity|].
  destruct (key_ge (key x) (key y)); [reflexivity|].
  transitivity (y :: x :: l); [now constructor|apply perm_swap].
Qed.

Lemma sort_desc_perm {A} (key : A -> option Z) (l : list A) :
  Permutation (sort_desc key l) l.
Proof.
  induction l as [|x l IH]; simpl; [reflexivity|].
  rewrite insert_desc_perm. now constructor.
Qed.

Lemma combine_csvs_length (parse : string -> option Z) (dfs : list table) (df : table) :
  combine_csvs parse dfs = Ret df -> len df = len (concat_dedup dfs).
Proof.
  unfold combine_csvs.
  destruct (has_column (concat_dedup dfs) "created_utc").
  - destruct (to_datetime_column parse _ _) as [t'|] eqn:E; simpl; [|discriminate].
    apply to_datetime_column_length in E. intros [= <-].
    destruct (has_column t' "created_utc"); [|exact E].
    unfold len, sort_values_desc in *. simpl. now rewrite (Permutation_length (sort_desc_perm _ _)).
  - simpl. intros [= <-]. destruct (has_column _ "created_utc"); [|reflexivity].
    unfold len, sort_values_desc. simpl. now rewrite (Permutation_length (sort_desc_perm _ _)).
Qed.

(** C4: a string timestamp the datetime parser rejects, in any row that
    survives deduplication, makes [pd.to_datetime] raise inside the [try]
    of [load_local_data], so the whole local load returns [None]: the row
    is not kept in a returned table, and neither is any other row. *)
Theorem load_local_data_unparsable_timestamp (e : env) (data_dir : string) (r : row) (s : string) :
  read_csvs (csv_files e data_dir) <> [] ->
  has_column (concat_dedup (read_csvs (csv_files e data_dir))) "created_utc" = true ->
  In r (rows (concat_dedup (read_csvs (csv_files e data_dir)))) ->
  get_cell r "created_utc" = CStr s ->
  parse_datetime e s = None ->
  load_local_data e data_dir = Ret None.
Proof.
  intros Hne Hcol Hr Hc Hp.
  destruct (to_datetime_column_raises _ _ _ r s Hr Hc Hp) as [ex Hex].
  unfold load_local_data, load_local_data_body.
  destruct (csv_files e data_dir) as [|f fs] eqn:Hf; [reflexivity|].
  destruct (read_csvs (f :: fs)) as [|d ds] eqn:Hd; [reflexivity|].
  unfold combine_csvs. rewrite Hcol, Hex. reflexivity.
Qed.

Lemma load_local_data_unparsable_timestamp_witness :
  load_local_data (sample_env [bad_timestamp_batch; sample_batch]) "/tmp" = Ret None.
Proof.
  apply (load_local_data_unparsable_timestamp _ _
           (mk_post "p9" "Airflow question" "carol" 3 0 "not a date") "not a date").
  - discriminate.
  - reflexivity.
  - vm_compute. tauto.
  - reflexivity.
  - reflexivity.
Defined.

(** C4 fails: with one well-formed batch and one post whose [created_utc] is
    ["not a date"], the local load returns [None] rather than a table that
    keeps the post. *)
Lemma load_local_data_unparsable_timestamp_counterexample :
  load_local_data (sample_env [bad_timestamp_batch; sample_batch]) "/tmp" = Ret None
  /\ ~ (exists df, load_local_data (sample_env [bad_timestamp_batch; sample_batch]) "/tmp"
                   = Ret (Some df)).
Proof.
  split; [vm_compute; reflexivity|].
  intros [df H]. vm_compute in H. discriminate.
Qed.

Lemma cell_eqb_eq (a b : cell) : cell_eqb a b = true <-> a = b.
Proof.
  destruct a, b; simpl; split; intro H; try discriminate; try reflexivity;
    try (injection H as H; subst).
  - apply Z.eqb_eq in H. now subst.
  - now apply Z.eqb_eq.
  - apply Bool.eqb_prop in H. now subst.
  - apply Bool.eqb_reflx.
  - apply String.eqb_eq in H. now subst.
  - apply String.eqb_refl.
  - apply Z.eqb_eq in H. now subst.
  - now apply Z.eqb_eq.
Qed.


Lemma last_one_cons {A} (x : A) (l : list A) :
  l <> [] -> last_one (x :: l) = last_one l.
Proof.
  intro Hl. unfold last_one. simpl.
  destruct (rev l) eqn:E; [destruct l; [contradiction|]; simpl in E;
                           destruct (rev l); discriminate|reflexivity].
Qed.

Lemma drop_duplicates_last_keeps_last (c : string) (v : cell) (rs : list row) :
  filter (fun r => cell_eqb (get_cell r c) v) (drop_duplicates_last c rs)
  = last_one (filter (fun r => cell_eqb (get_cell r c) v) rs).
Proof.
  induction rs as [|r rs IH]; [reflexivity|]. simpl.
  destruct (existsb (fun r' => cell_eqb (get_cell r c) (get_cell r' c)) rs) eqn:Hex.
  - rewrite IH. destruct (cell_eqb (get_cell r c) v) eqn:Hv; [|reflexivity].
    rewrite last_one_cons; [reflexivity|].
    apply existsb_exists in Hex as [r' [Hin Heq]].
    apply cell_eqb_eq in Hv, Heq.
    intro Hnil. assert (Hf : In r' (filter (fun r => cell_eqb (get_cell r c) v) rs)).
    { apply filter_In. split; [exact Hin|]. apply cell_eqb_eq. congruence. }
    rewrite Hnil in Hf. destruct Hf.
  - simpl. rewrite IH. destruct (cell_eqb (get_cell r c) v) eqn:Hv; [|reflexivity].
    assert (Hnil : filter (fun r => cell_eqb (get_cell r c) v) rs = []).
    { destruct (filter _ rs) as [|r' l] eqn:Hf; [reflexivity|].
      assert (Hin : In r' (filter (fun r => cell_eqb (get_cell r c) v) rs))
        by (rewrite Hf; now left).
      apply filter_In in Hin as [Hin Hr'].
      assert (Htrue : existsb (fun r' => cell_eqb (get_cell r c) (get_cell r' c)) rs = true).
      { apply existsb_exists. exists r'. split; [exact Hin|].
        apply cell_eqb_eq in Hv, Hr'. apply cell_eqb_eq. congruence. }
      congruence. }
    rewrite Hnil. reflexivity.
Qed.

Lemma drop_duplicates_last_nodup (c : string) (rs : list row) :
  NoDup (map (fun r => get_cell r c) rs) -> drop_duplicates_last c rs = rs.
Proof.
  induction rs as [|r rs IH]; [reflexivity|]. simpl. intro Hnd.
  inversion Hnd as [|x l Hnin Hnd' [Hx Hl]]; subst.
  destruct (existsb _ rs) eqn:Hex.
  - exfalso. apply existsb_exists in Hex as [r' [Hin Heq]].
    apply cell_eqb_eq in Heq. apply Hnin. rewrite Heq.
    exact (in_map (fun r => get_cell r c) _ _ Hin).
  - f_equal. now apply IH.
Qed.

Lemma concat_two_rows (t1 t2 : table) :
  rows (concat_tables [t1; t2]) = (rows t1 ++ rows t2)%list.
Proof. simpl. now rewrite app_nil_r. Qed.

Lemma concat_dedup_rows_nodup (t1 t2 : table) :
  NoDup (map (fun r => get_cell r "id") (rows t1 ++ rows t2)) ->
  rows (concat_dedup [t1; t2]) = (rows t1 ++ rows t2)%list.
Proof.
  intro Hnd. unfold concat_dedup. rewrite <- concat_two_rows in *.
  destruct (has_column _ "id"); [|reflexivity].
  simpl rows at 1. now apply drop_duplicates_last_nodup.
Qed.

(** C5: when two batches each list every post id at most once and share no
    id, deduplicating their concatenation keeps [len t1 + len t2] rows, and
    so does the local load's table when timestamp conversion succeeds; in
    every case (repeated ids included), for each id the row kept is the
    last one with that id in concatenation order. *)
Theorem concat_dedup_two_batches (t1 t2 : table) :
  (NoDup (map (fun r => get_cell r "id") (rows t1)) ->
   NoDup (map (fun r => get_cell r "id") (rows t2)) ->
   (forall r1 r2, In r1 (rows t1) -> In r2 (rows t2) -> get_cell r1 "id" <> get_cell r2 "id") ->
   len (concat_dedup [t1; t2]) = (len t1 + len t2)%nat
   /\ forall parse df, combine_csvs parse [t1; t2] = Ret df -> len df = (len t1 + len t2)%nat)
  /\ (has_column (concat_tables [t1; t2]) "id" = true ->
      forall v, filter (fun r => cell_eqb (get_cell r "id") v) (rows (concat_dedup [t1; t2]))
                = last_one (filter (fun r => cell_eqb (get_cell r "id") v)
                                   (rows t1 ++ rows t2))).
Proof.
  split.
  - intros H1 H2 Hdis.
    assert (Hlen : len (concat_dedup [t1; t2]) = (len t1 + len t2)%nat).
    { unfold len. rewrite concat_dedup_rows_nodup; [apply length_app|].
      rewrite map_app. apply NoDup_app; [exact H1|exact H2|].
      intros a Ha Hb. apply in_map_iff in Ha as [r1 [<- Hr1]].
      apply in_map_iff in Hb as [r2 [Heq Hr2]]. exact (Hdis r1 r2 Hr1 Hr2 (eq_sym Heq)). }
    split; [exact Hlen|]. intros parse df Hdf. rewrite (combine_csvs_length _ _ _ Hdf).
    exact Hlen.
  - intros Hid v. unfold concat_dedup. rewrite Hid. unfold drop_duplicates. cbn [rows].
    rewrite drop_duplicates_last_keeps_last, concat_two_rows. reflexivity.
Qed.

Lemma concat_dedup_two_batches_witness :
  len (concat_dedup [sample_batch; other_batch]) = 4%nat.
Proof.
  apply (proj1 (concat_dedup_two_batches sample_batch other_batch)).
  - vm_compute. repeat constructor; simpl; intuition discriminate.
  - vm_compute. repeat constructor; simpl; intuition discriminate.
  - intros r1 r2 H1 H2. simpl in H1, H2.
    destruct H2 as [<-|[]]. repeat (destruct H1 as [<-|H1]; [discriminate|]). destruct H1.
Defined.

(** C5 fails as stated: a batch that lists post [p1] twice and a batch with
    post [p4] have disjoint id sets, yet the local load keeps 2 rows, not
    [2 + 1]. *)
Lemma concat_dedup_two_batches_counterexample :
  (forall r1 r2, In r1 (rows repeated_id_batch) -> In r2 (rows other_batch) ->
                 get_cell r1 "id" <> get_cell r2 "id")
  /\ len repeated_id_batch = 2%nat /\ len other_batch = 1%nat
  /\ (exists df, load_local_data (sample_env [repeated_id_batch; other_batch]) "/tmp"
                 = Ret (Some df) /\ len df = 2%nat).
Proof.
  split; [|split; [reflexivity|split; [reflexivity|]]].
  - intros r1 r2 H1 H2. simpl in H1, H2.
    destruct H2 as [<-|[]]. repeat (destruct H1 as [<-|H1]; [discriminate|]). destruct H1.
  - eexists. split; [vm_compute; reflexivity|reflexivity].
Qed.

(* ================================================================= *)
(** * Summary statistics *)

Lemma sum_cells_ret (l : list cell) :
  forallb numeric_cell l = true -> exists z, sum_cells l = Ret z.
Proof.
  induction l as [|v l IH]; simpl; [eauto|]. intro H.
  apply andb_true_iff in H as [Hv Hl]. destruct (IH Hl) as [z ->]. simpl.
  destruct v; try discriminate; eauto.
Qed.

Lemma mean_cells_ret (l : list cell) :
  forallb numeric_cell l = true -> exists q, mean_cells l = Ret q.
Proof.
  intro H. unfold mean_cells. destruct (sum_cells_ret l H) as [z ->]. simpl. eauto.
Qed.

Lemma extreme_cells_ret (w : comparison) (l : list cell) :
  forallb time_cell l = true -> exists v, extreme_cells w l = Ret v /\ time_cell v = true.
Proof.
  induction l as [|v l IH]; simpl; [eauto|]. intro H.
  apply andb_true_iff in H as [Hv Hl]. destruct (IH Hl) as [acc [-> Hacc]]. simpl.
  destruct v; try discriminate; [eauto|].
  destruct acc; try discriminate; simpl; [eauto|].
  eexists. split; [reflexivity|]. destruct (Z.compare _ _), w; reflexivity.
Qed.

Lemma if_column_ret {A} (t : table) (c : string) (f : list cell -> result A) (d : A) :
  (exists x, f (column_values t c) = Ret x) -> exists x, if_column t c f d = Ret x.
Proof.
  intros [x Hx]. unfold if_column. destruct (has_column t c); eauto.
Qed.

(** C2 (amended): on [None] or an empty table [get_data_summary] returns the
    literal [{}]; on a non-empty table whose score, num_comments, over_18 and
    edited cells are numbers, booleans or missing and whose created_utc cells
    are timestamps or missing, it returns the ten-field record, with
    [total_posts] the number of rows. *)
Theorem get_data_summary_total_posts (t : table) :
  get_data_summary None = Ret empty_dict
  /\ (is_empty t = true -> get_data_summary (Some t) = Ret empty_dict)
  /\ (is_empty t = false ->
      forallb numeric_cell (column_values t "score") = true ->
      forallb numeric_cell (column_values t "num_comments") = true ->
      forallb numeric_cell (column_values t "over_18") = true ->
      forallb numeric_cell (column_values t "edited") = true ->
      forallb time_cell (column_values t "created_utc") = true ->
      exists s, get_data_summary (Some t) = Ret (summary_of s) /\ total_posts s = len t).
Proof.
  split; [reflexivity|split].
  - intro H. unfold get_data_summary. now rewrite H.
  - intros Hne Hs Hc Ho He Ht. unfold get_data_summary. rewrite Hne.
    assert (Hst : exists x, if_column t "created_utc"
                              (fun l => v <- extreme_cells Lt l ;; Ret (Some v)) None = Ret x).
    { apply if_column_ret. destruct (extreme_cells_ret Lt _ Ht) as [v [-> _]]. simpl. eauto. }
    assert (Hen : exists x, if_column t "created_utc"
                              (fun l => v <- extreme_cells Gt l ;; Ret (Some v)) None = Ret x).
    { apply if_column_ret. destruct (extreme_cells_ret Gt _ Ht) as [v [-> _]]. simpl. eauto. }
    destruct Hst as [st ->], Hen as [en ->]. simpl.
    destruct (if_column_ret t "score" sum_cells 0%Z (sum_cells_ret _ Hs)) as [ts ->].
    destruct (if_column_ret t "num_comments" sum_cells 0%Z (sum_cells_ret _ Hc)) as [tc ->].
    destruct (if_column_ret t "score" mean_cells (Some 0%Q) (mean_cells_ret _ Hs)) as [avs ->].
    destruct (if_column_ret t "num_comments" mean_cells (Some 0%Q) (mean_cells_ret _ Hc))
      as [avc ->].
    destruct (if_column_ret t "author" (fun l => Ret (nunique l)) 0%nat (ex_intro _ _ eq_refl))
      as [ua ->].
    destruct (if_column_ret t "over_18" sum_cells 0%Z (sum_cells_ret _ Ho)) as [ns ->].
    destruct (if_column_ret t "edited" sum_cells 0%Z (sum_cells_ret _ He)) as [ed ->].
    simpl. eexists. split; reflexivity.
Qed.

Lemma get_data_summary_total_posts_witness :
  exists s, get_data_summary (Some loaded_batch) = Ret (summary_of s) /\ total_posts s = 3%nat.
Proof.
  apply (proj2 (proj2 (get_data_summary_total_posts loaded_batch)));
    vm_compute; reflexivity.
Defined.

(** C2 fails as stated: on an empty table the summary is the empty dict,
    which has no [total_posts] field (not a record of zeros). *)
Lemma get_data_summary_total_posts_counterexample :
  get_data_summary (Some empty_posts) = Ret empty_dict
  /\ forall s, get_data_summary (Some empty_posts) <> Ret (summary_of s).
Proof.
  split; [reflexivity|]. intros s H. vm_compute in H. discriminate.
Qed.

(* ================================================================= *)
(** * Top-N selection *)

Section SortDesc.

Context {A : Type} (key : A -> option Z).

Lemma key_ge_refl (a : option Z) : key_ge a a = true.
Proof. destruct a; simpl; [apply Z.leb_refl|reflexivity]. Qed.

Lemma key_ge_trans (a b c : option Z) :
  key_ge a b = true -> key_ge b c = true -> key_ge a c = true.
Proof.
  destruct a, b, c; simpl; try discriminate; auto.
  rewrite !Z.leb_le. lia.
Qed.

Lemma key_ge_total (a b : option Z) : key_ge a b = false -> key_ge b a = true.
Proof.
  destruct a, b; simpl; try discriminate; auto.
  rewrite Z.leb_gt, Z.leb_le. lia.
Qed.

Lemma insert_desc_in (x y : A) (l : list A) :
  In y (insert_desc key x l) <-> y = x \/ In y l.
Proof.
  split.
  - intro H. apply (Permutation_in _ (insert_desc_perm key x l)) in H.
    destruct H; auto.
  - intro H. apply (Permutation_in _ (Permutation_sym (insert_desc_perm key x l))).
    destruct H; [left|right]; auto.
Qed.

Lemma insert_desc_sorted (x : A) (l : list A) :
  StronglySorted (ge_key key) l -> StronglySorted (ge_key key) (insert_desc key x l).
Proof.
  induction l as [|y l IH]; intro Hs; simpl.
  - repeat constructor.
  - inversion Hs as [|y' l' Hl Hy]; subst.
    destruct (key_ge (key x) (key y)) eqn:Hxy.
    + constructor; [exact Hs|]. constructor; [exact Hxy|].
      eapply Forall_impl; [|exact Hy]. intros z Hz. exact (key_ge_trans _ _ _ Hxy Hz).
    + constructor; [now apply IH|].
      apply Forall_forall. intros z Hz. apply insert_desc_in in Hz as [->|Hz].
      * now apply key_ge_total.
      * exact (proj1 (Forall_forall _ _) Hy z Hz).
Qed.

Lemma sort_desc_sorted (l : list A) : StronglySorted (ge_key key) (sort_desc key l).
Proof.
  induction l as [|x l IH]; simpl; [constructor|]. now apply insert_desc_sorted.
Qed.

(** Among elements with equal keys, sorting keeps the original order. *)
Lemma filter_insert_desc (P : A -> bool) (x : A) (l : list A) :
  (forall a b, P a = true -> P b = true -> key_ge (key a) (key b) = true) ->
  filter P (insert_desc key x l) = if P x then x :: filter P l else filter P l.
Proof.
  intro HP. induction l as [|y l IH]; simpl; [destruct (P x); reflexivity|].
  destruct (key_ge (key x) (key y)) eqn:Hxy; simpl; [destruct (P x); reflexivity|].
  rewrite IH. destruct (P x) eqn:Hx, (P y) eqn:Hy; try reflexivity.
  rewrite (HP x y Hx Hy) in Hxy. discriminate.
Qed.

Lemma filter_sort_desc (P : A -> bool) (l : list A) :
  (forall a b, P a = true -> P b = true -> key_ge (key a) (key b) = true) ->
  filter P (sort_desc key l) = filter P l.
Proof.
  intro HP. induction l as [|x l IH]; simpl; [reflexivity|].
  rewrite (filter_insert_desc P x _ HP), IH. reflexivity.
Qed.

Lemma sorted_split (l : list A) (n : nat) (x y : A) :
  StronglySorted (ge_key key) l -> In x (firstn n l) -> In y (skipn n l) -> ge_key key x y.
Proof.
  revert n. induction l as [|z l IH]; intros n Hs Hx Hy.
  - destruct n; destruct Hx.
  - inversion Hs as [|z' l' Hl Hz]; subst. destruct n as [|n]; [destruct Hx|].
    simpl in Hx, Hy. destruct Hx as [<-|Hx].
    + apply (proj1 (Forall_forall _ _) Hz). rewrite <- (firstn_skipn n l).
      apply in_or_app. now right.
    + exact (IH n Hl Hx Hy).
Qed.

Lemma sort_desc_map (g : A -> A) (l : list A) :
  (forall a, key (g a) = key a) -> sort_desc key (map g l) = map g (sort_desc key l).
Proof.
  intro Hg. induction l as [|x l IH]; simpl; [reflexivity|]. rewrite IH.
  clear IH. induction (sort_desc key l) as [|y l' IH']; simpl; [reflexivity|].
  rewrite !Hg. destruct (key_ge (key x) (key y)); simpl; [reflexivity|]. now rewrite IH'.
Qed.

End SortDesc.

Lemma get_cell_retitle (f : cell -> cell) (r : row) (c : string) :
  c <> "title" -> get_cell (retitle f r) c = get_cell r c.
Proof.
  intro Hc. unfold get_cell. induction r as [|[k v] r IH]; simpl; [reflexivity|].
  destruct (String.eqb_spec k "title") as [->|Hk]; simpl.
  - destruct (String.eqb_spec c "title"); [contradiction|]. exact IH.
  - destruct (String.eqb c k); [reflexivity|exact IH].
Qed.

Lemma map_result_ret {A B} (f : A -> result B) (g : A -> B) (l : list A) :
  (forall x, In x l -> f x = Ret (g x)) -> map_result f l = Ret (map g l).
Proof.
  induction l as [|x l IH]; intro H; simpl; [reflexivity|].
  rewrite (H x (or_introl eq_refl)). simpl. rewrite IH; [reflexivity|].
  intros y Hy. apply H. now right.
Qed.

Lemma in_firstn_in {A} (n : nat) (l : list A) (x : A) : In x (firstn n l) -> In x l.
Proof. intro H. rewrite <- (firstn_skipn n l). apply in_or_app. now left. Qed.


(** C7: on a table whose metric cells are integers and whose titles are
    strings, [nlargest n metric] returns exactly [min n (len t)] rows; with
    the rows left out it is a rearrangement of the table in which every
    selected value is at least every left-out value; for each metric value,
    the selected rows carrying it are the first ones carrying it in table
    order (ties broken by table order); changing titles changes neither
    which rows are selected nor their order; and the chart shows exactly
    the selected rows, in that order, with their metric values, truncation
    touching only the shown title. *)
Theorem top_posts_selection (t : table) (n : nat) (metric : string) :
  metric <> "title" -> has_column t metric = true -> has_column t "title" = true ->
  (forall r, In r (rows t) -> exists z, get_cell r metric = CInt z) ->
  (forall r, In r (rows t) -> exists s, get_cell r "title" = CStr s) ->
  exists sel rest,
    nlargest n metric t = Ret sel
    /\ length sel = Nat.min n (len t)
    /\ Permutation (sel ++ rest) (rows t)
    /\ (forall r1 r2 z1 z2, In r1 sel -> In r2 rest ->
          get_cell r1 metric = CInt z1 -> get_cell r2 metric = CInt z2 -> (z2 <= z1)%Z)
    /\ (forall v, exists suffix,
          (filter (fun r => cell_eqb (get_cell r metric) v) sel ++ suffix)%list
          = filter (fun r => cell_eqb (get_cell r metric) v) (rows t))
    /\ (forall f, nlargest n metric (retitle_table f t) = Ret (map (retitle f) sel))
    /\ (is_empty t = false ->
        create_top_posts_chart (Some t) n metric
        = Ret (TopPostsBar n metric (map (fun r => (shown_title r, get_cell r metric)) sel))).
Proof.
  intros Hmt Hcol Htitle Hint Hstr.
  set (key := metric_key metric).
  set (sorted := sort_desc key (rows t)).
  assert (Hperm : Permutation sorted (rows t)) by apply sort_desc_perm.
  assert (Hnum : forallb numeric_or_na (column_values t metric) = true).
  { apply forallb_forall. intros v Hv. unfold column_values in Hv.
    apply in_map_iff in Hv as [r [<- Hr]]. destruct (Hint r Hr) as [z ->]. reflexivity. }
  assert (Hnl : nlargest n metric t = Ret (firstn n sorted)).
  { unfold nlargest. rewrite Hcol, Hnum. reflexivity. }
  exists (firstn n sorted), (skipn n sorted).
  split; [exact Hnl|]. split; [|split; [|split; [|split; [|split]]]].
  - rewrite length_firstn. unfold len. now rewrite (Permutation_length Hperm).
  - now rewrite firstn_skipn.
  - intros r1 r2 z1 z2 H1 H2 Hz1 Hz2.
    pose proof (sorted_split key sorted n r1 r2 (sort_desc_sorted key (rows t)) H1 H2) as Hge.
    unfold ge_key, key, metric_key in Hge. rewrite Hz1, Hz2 in Hge. simpl in Hge.
    now apply Z.leb_le.
  - intro v. exists (filter (fun r => cell_eqb (get_cell r metric) v) (skipn n sorted)).
    rewrite <- filter_app, firstn_skipn. unfold sorted. apply filter_sort_desc.
    intros a b Ha Hb. apply cell_eqb_eq in Ha, Hb. unfold key, metric_key.
    rewrite Ha, Hb. apply key_ge_refl.
  - intro f. unfold nlargest.
    assert (Hcv : column_values (retitle_table f t) metric = column_values t metric).
    { unfold column_values, retitle_table. simpl. rewrite map_map.
      apply map_ext. intro r. now apply get_cell_retitle. }
    change (has_column (retitle_table f t) metric) with (has_column t metric).
    rewrite Hcv, Hcol, Hnum. simpl. rewrite <- firstn_map. f_equal. f_equal.
    apply sort_desc_map. intro a. unfold key, metric_key. now rewrite get_cell_retitle.
  - intro Hne. unfold create_top_posts_chart. rewrite Hne, Hnl. simpl.
    unfold require_column. rewrite Htitle. simpl.
    rewrite (map_result_ret _ (fun r => (shown_title r, get_cell r metric))); [reflexivity|].
    intros r Hr. apply in_firstn_in in Hr. apply (Permutation_in _ Hperm) in Hr.
    destruct (Hstr r Hr) as [s Hs]. unfold shown_title. rewrite Hs. reflexivity.
Qed.

Lemma top_posts_selection_witness :
  exists sel rest,
    nlargest 2 "score" loaded_batch = Ret sel
    /\ length sel = Nat.min 2 (len loaded_batch)
    /\ Permutation (sel ++ rest) (rows loaded_batch)
    /\ (forall r1 r2 z1 z2, In r1 sel -> In r2 rest ->
          get_cell r1 "score" = CInt z1 -> get_cell r2 "score" = CInt z2 -> (z2 <= z1)%Z)
    /\ (forall v, exists suffix,
          (filter (fun r => cell_eqb (get_cell r "score") v) sel ++ suffix)%list
          = filter (fun r => cell_eqb (get_cell r "score") v) (rows loaded_batch))
    /\ (forall f, nlargest 2 "score" (retitle_table f loaded_batch) = Ret (map (retitle f) sel))
    /\ (is_empty loaded_batch = false ->
        create_top_posts_chart (Some loaded_batch) 2 "score"
        = Ret (TopPostsBar 2 "score" (map (fun r => (shown_title r, get_cell r "score")) sel))).
Proof.
  apply top_posts_selection; [discriminate|reflexivity|reflexivity| |].
  - intros r Hr. vm_compute in Hr.
    repeat (destruct Hr as [<-|Hr]; [eexists; reflexivity|]). destruct Hr.
  - intros r Hr. vm_compute in Hr.
    repeat (destruct Hr as [<-|Hr]; [eexists; reflexivity|]). destruct Hr.
Defined.

(** The example of the specification: of three posts scored 10, 50 and 5 the
    top two by score are the 50 and the 10 one, in that order, and the long
    title is shown cut to 50 characters. *)
Example top_two_by_score :
  option_map (map (fun r => get_cell r "id")) (match nlargest 2 "score" loaded_batch with
                                                 | Ret l => Some l | Raise _ => None end)
  = Some [CStr "p2"; CStr "p1"]
  /\ create_top_posts_chart (Some loaded_batch) 2 "score"
     = Ret (TopPostsBar 2 "score"
              [("How we migrated our data warehouse to a lakehouse ...", CInt 50);
               ("Spark vs Flink for streaming", CInt 10)]).
Proof. split; vm_compute; reflexivity. Qed.

(* ================================================================= *)
(** * Chart derivations *)

Lemma in_insert_uniq (x y : Z) (l : list Z) : In y (insert_uniq x l) <-> x = y \/ In y l.
Proof.
  induction l as [|z l IH]; simpl; [tauto|].
  destruct (Z.ltb_spec x z); simpl; [tauto|].
  destruct (Z.eqb_spec x z) as [->|Hne]; simpl; [tauto|]. rewrite IH. tauto.
Qed.

Lemma in_sort_uniq (y : Z) (l : list Z) : In y (sort_uniq l) <-> In y l.
Proof.
  induction l as [|x l IH]; simpl; [tauto|]. rewrite in_insert_uniq, IH. intuition.
Qed.

Lemma insert_uniq_sorted (x : Z) (l : list Z) :
  StronglySorted Z.lt l -> StronglySorted Z.lt (insert_uniq x l).
Proof.
  induction l as [|z l IH]; intro Hs; simpl; [repeat constructor|].
  inversion Hs as [|z' l' Hl Hz]; subst.
  destruct (Z.ltb_spec x z).
  - constructor; [exact Hs|]. constructor; [assumption|].
    eapply Forall_impl; [|exact Hz]. intros a Ha. lia.
  - destruct (Z.eqb_spec x z); [exact Hs|].
    constructor; [now apply IH|]. apply Forall_forall. intros a Ha.
    apply in_insert_uniq in Ha as [<-|Ha]; [lia|].
    exact (proj1 (Forall_forall _ _) Hz a Ha).
Qed.

Lemma sort_uniq_sorted (l : list Z) : StronglySorted Z.lt (sort_uniq l).
Proof.
  induction l as [|x l IH]; simpl; [constructor|]. now apply insert_uniq_sorted.
Qed.

(** C6 (amended): the activity matrix of [create_heatmap] has one row per
    day of the week on which there is at least one post, in Monday-Sunday
    order, and one column per hour at which there is at least one post,
    ascending; each cell counts the posts of that day and hour (0 where
    there are none); a day or an hour with no post at all has no row or
    column. *)
Theorem create_heatmap_present_only (parse : string -> option Z) (t t' : table) :
  is_empty t = false -> has_column t "created_utc" = true ->
  to_datetime_column parse t "created_utc" = Ret t' ->
  exists ds hs z,
    create_heatmap parse (Some t) = Ret (Heatmap ds hs z)
    /\ (forall d, In d ds <-> In d days_order /\ exists x, In x (stamps_of t') /\ day_name x = d)
    /\ (exists keep, ds = filter keep days_order)
    /\ (forall h, In h hs <-> exists x, In x (stamps_of t') /\ hour_of x = h)
    /\ StronglySorted Z.lt hs
    /\ z = map (fun d => map (heatmap_count (stamps_of t') d) hs) ds.
Proof.
  intros Hne Hcol Hconv.
  set (keep := fun d => existsb (fun x => String.eqb (day_name x) d) (stamps_of t')).
  exists (filter keep days_order), (sort_uniq (map hour_of (stamps_of t'))).
  eexists. split.
  - unfold create_heatmap. rewrite Hne, Hcol, Hconv. reflexivity.
  - split; [|split; [eauto|split; [|split; [apply sort_uniq_sorted|reflexivity]]]].
    + intro d. rewrite filter_In. unfold keep. rewrite existsb_exists.
      split; intros [Hd [x [Hx Heq]]]; split; auto; exists x; split; auto;
        [now apply String.eqb_eq | now apply String.eqb_eq].
    + intro h. rewrite in_sort_uniq, in_map_iff.
      split; intros [x [Hx Hy]]; exists x; auto.
Qed.

Lemma create_heatmap_present_only_witness :
  exists ds hs z,
    create_heatmap iso_parser (Some loaded_batch) = Ret (Heatmap ds hs z)
    /\ (forall d, In d ds <->
                  In d days_order /\ exists x, In x (stamps_of loaded_batch) /\ day_name x = d)
    /\ (exists keep, ds = filter keep days_order)
    /\ (forall h, In h hs <-> exists x, In x (stamps_of loaded_batch) /\ hour_of x = h)
    /\ StronglySorted Z.lt hs
    /\ z = map (fun d => map (heatmap_count (stamps_of loaded_batch) d) hs) ds.
Proof.
  apply create_heatmap_present_only; vm_compute; reflexivity.
Defined.

(** C6 fails as stated: the three sample posts (Monday 13h, Tuesday 9h,
    Tuesday 18h) give a 2 x 3 matrix, not a 7 x 24 one; the zeros appear
    only between days and hours that occur. *)
Lemma create_heatmap_present_only_counterexample :
  create_heatmap iso_parser (Some loaded_batch)
  = Ret (Heatmap ["Monday"; "Tuesday"] [9; 13; 18] [[0; 1; 0]; [1; 0; 1]]%nat)
  /\ forall ds hs z, create_heatmap iso_parser (Some loaded_batch) = Ret (Heatmap ds hs z) ->
                     ds <> days_order /\ length hs <> 24%nat.
Proof.
  split; [vm_compute; reflexivity|].
  intros ds hs z H. vm_compute in H. injection H as <- <- <-. split; discriminate.
Qed.

Lemma charts_no_data (parse : string -> option Z) (df : option table) (n : nat) (c : string) :
  no_data df = true ->
  create_time_series_chart parse df c = Ret EmptyFigure
  /\ create_top_posts_chart df n c = Ret EmptyFigure
  /\ create_author_chart df n = Ret EmptyFigure
  /\ create_engagement_scatter df = Ret EmptyFigure
  /\ create_distribution_chart df c = Ret EmptyFigure
  /\ create_heatmap parse df = Ret EmptyFigure.
Proof.
  destruct df as [t|]; simpl; [|repeat split].
  intro H. unfold create_time_series_chart, create_top_posts_chart, create_author_chart,
    create_engagement_scatter, create_distribution_chart, create_heatmap.
  rewrite H. repeat split.
Qed.

(** C3: every derivation returns an empty figure on a missing or empty
    table, but on a non-empty table without the [score] and [num_comments]
    columns the top-posts chart and the time series raise [KeyError] and
    the engagement scatter raises [ValueError], where the sibling
    derivations (distribution, author, heatmap) check the column they need
    and return an empty figure. *)
Theorem charts_missing_column :
  create_top_posts_chart (Some no_metrics_batch) 10 "score" = Raise (KeyError "score")
  /\ create_engagement_scatter (Some no_metrics_batch) = Raise (ValueError "num_comments")
  /\ create_time_series_chart iso_parser (Some no_metrics_batch) "score"
     = Raise (KeyError "score")
  /\ create_distribution_chart (Some no_metrics_batch) "score" = Ret EmptyFigure
  /\ create_author_chart (Some (mk_table ["id"; "title"] [[("id", CStr "p5")]])) 10
     = Ret EmptyFigure
  /\ create_heatmap iso_parser (Some (mk_table ["id"; "title"] [[("id", CStr "p5")]]))
     = Ret EmptyFigure
  /\ (forall parse n c, create_top_posts_chart (Some empty_posts) n c = Ret EmptyFigure
                        /\ create_engagement_scatter (Some empty_posts) = Ret EmptyFigure
                        /\ create_time_series_chart parse (Some empty_posts) c = Ret EmptyFigure).
Proof.
  split; [vm_compute; reflexivity|]. split; [vm_compute; reflexivity|].
  split; [vm_compute; reflexivity|]. split; [vm_compute; reflexivity|].
  split; [vm_compute; reflexivity|]. split; [vm_compute; reflexivity|].
  intros parse n c.
  destruct (charts_no_data parse (Some empty_posts) n c eq_refl) as [H1 [H2 [_ [H4 _]]]].
  auto.
Qed.

(* ================================================================= *)
(** * Further properties of the code *)

Lemma digit_value_digit (d : Z) :
  0 <= d < 10 -> digit_value (ascii_of_nat (48 + Z.to_nat d)%nat) = Some d.
Proof.
  intro Hd. unfold digit_value. rewrite nat_ascii_embedding by lia.
  replace ((48 <=? 48 + Z.to_nat d)%nat && (48 + Z.to_nat d <=? 57)%nat) with true.
  - f_equal. rewrite Nat.add_comm, Nat.add_sub. now apply Z2Nat.id.
  - symmetry. apply andb_true_iff. split; apply Nat.leb_le; lia.
Qed.

Lemma digits_value_cons (acc : Z) (c : ascii) (s : string) (d : Z) :
  digit_value c = Some d -> digits_value acc (String c s) = digits_value (10 * acc + d) s.
Proof. intro H. change (digits_value acc (String c s)) with
  (match digit_value c with Some d => digits_value (10 * acc + d) s | None => None end).
  now rewrite H. Qed.

Lemma z_digits_S (f : nat) (z : Z) (acc : string) :
  z_digits (S f) z acc
  = if z <? 10 then String (digit_char z) acc else z_digits f (z / 10) (String (digit_char z) acc).
Proof. reflexivity. Qed.

Lemma digit_char_value (z : Z) : digit_value (digit_char z) = Some (z mod 10).
Proof. apply digit_value_digit, Z.mod_pos_bound. lia. Qed.

Lemma z_digits_value (fuel : nat) (z acc : Z) (s : string) :
  0 <= z < 10 ^ Z.of_nat fuel ->
  exists k, 0 <= k /\ digits_value acc (z_digits fuel z s) = digits_value (acc * 10 ^ k + z) s.
Proof.
  revert z acc s. induction fuel as [|f IH]; intros z acc s Hz.
  - exists 0. split; [lia|]. change (z_digits 0 z s) with s.
    rewrite Nat2Z.inj_0, Z.pow_0_r in Hz. replace z with 0 by lia.
    now rewrite Z.pow_0_r, Z.mul_1_r, Z.add_0_r.
  - rewrite z_digits_S. destruct (Z.ltb_spec z 10).
    + exists 1. split; [lia|]. rewrite (digits_value_cons _ _ _ _ (digit_char_value z)).
      rewrite Z.mod_small by lia. f_equal. lia.
    + destruct (IH (z / 10) acc (String (digit_char z) s)) as [k [Hk Hv]].
      { split; [apply Z.div_pos; lia|]. apply Z.div_lt_upper_bound; [lia|].
        rewrite Nat2Z.inj_succ, Z.pow_succ_r in Hz by lia. lia. }
      exists (k + 1). split; [lia|]. rewrite Hv.
      rewrite (digits_value_cons _ _ _ _ (digit_char_value z)).
      f_equal. rewrite Z.pow_add_r, Z.pow_1_r by lia.
      rewrite (Z.div_mod z 10) at 3 by lia. ring.
Qed.

Lemma z_digits_head (f : nat) (z : Z) (s : string) :
  exists c rest, z_digits (S f) z s = String c rest /\ digit_value c <> None.
Proof.
  revert z s. induction f as [|f IH]; intros z s; rewrite z_digits_S.
  - destruct (z <? 10); [|change (z_digits 0 (z / 10) (String (digit_char z) s))
                             with (String (digit_char z) s)];
      eexists _, _; (split; [reflexivity|]); rewrite digit_char_value; discriminate.
  - destruct (z <? 10); [|apply IH].
    eexists _, _; split; [reflexivity|]. rewrite digit_char_value; discriminate.
Qed.

Lemma digit_not_space (c : ascii) : digit_value c <> None -> is_space c = false.
Proof.
  intro Hc. destruct c as [[] [] [] [] [] [] [] []];
    solve [reflexivity | exfalso; apply Hc; reflexivity].
Qed.

Lemma take_token_digits (s : string) :
  Forall (fun c => digit_value c <> None) (list_ascii_of_string s) -> take_token s = (s, EmptyString).
Proof.
  induction s as [|c s IH]; intro H; [reflexivity|].
  inversion H as [|? ? Hc Hs]; subst. cbn [take_token].
  rewrite (digit_not_space c Hc), (IH Hs). reflexivity.
Qed.

Lemma drop_separators_digits (b : bool) (s : string) :
  Forall (fun c => digit_value c <> None) (list_ascii_of_string s) -> drop_separators b s = Some s.
Proof.
  revert b. induction s as [|c s IH]; intros b H; [reflexivity|].
  inversion H as [|? ? Hc Hs]; subst.
  destruct c as [[] [] [] [] [] [] [] []]; try (exfalso; apply Hc; reflexivity);
    cbn [drop_separators]; rewrite IH by exact Hs; reflexivity.
Qed.

Lemma parse_int_digit (c : ascii) (s : string) :
  Forall (fun c => digit_value c <> None) (list_ascii_of_string (String c s)) ->
  parse_int (String c s) = digits_value 0 (String c s).
Proof.
  intro H. pose proof (Forall_inv H) as Hc.
  assert (Hl : lstrip (String c s) = String c s)
    by (cbn [lstrip]; now rewrite (digit_not_space c Hc)).
  unfold parse_int. rewrite Hl, (take_token_digits _ H). cbn [all_space].
  unfold parse_literal, unsigned_value. rewrite (drop_separators_digits false _ H).
  destruct c as [[] [] [] [] [] [] [] []]; solve [reflexivity | exfalso; apply Hc; reflexivity].
Qed.

Lemma parse_int_minus (c : ascii) (s : string) :
  Forall (fun c => digit_value c <> None) (list_ascii_of_string (String c s)) ->
  parse_int (String "-" (String c s)) = option_map Z.opp (digits_value 0 (String c s)).
Proof.
  intro H.
  assert (Hl : lstrip (String "-" (String c s)) = String "-" (String c s)) by reflexivity.
  assert (Ht : take_token (String "-" (String c s)) = (String "-" (String c s), EmptyString)).
  { assert (E : forall t, take_token (String "-" t) = let '(a, b) := take_token t in (String "-" a, b))
      by reflexivity.
    now rewrite E, (take_token_digits _ H). }
  unfold parse_int. rewrite Hl, Ht. cbn [all_space].
  unfold parse_literal, unsigned_value. rewrite (drop_separators_digits false _ H).
  reflexivity.
Qed.

Lemma z_digits_digits (f : nat) (z : Z) (acc : string) :
  Forall (fun c => digit_value c <> None) (list_ascii_of_string acc) ->
  Forall (fun c => digit_value c <> None) (list_ascii_of_string (z_digits f z acc)).
Proof.
  revert z acc. induction f as [|f IH]; intros z acc H; [exact H|].
  assert (Hd : Forall (fun c => digit_value c <> None)
                 (list_ascii_of_string (String (digit_char z) acc))).
  { constructor; [rewrite digit_char_value; discriminate|exact H]. }
  rewrite z_digits_S. destruct (z <? 10); [exact Hd|exact (IH _ _ Hd)].
Qed.

Lemma log2_fuel (z : Z) : 0 <= z -> 0 <= z < 10 ^ Z.of_nat (S (Z.to_nat (Z.log2 z))).
Proof.
  intro Hz. split; [exact Hz|].
  rewrite Nat2Z.inj_succ, Z2Nat.id by apply Z.log2_nonneg.
  destruct (Z.eq_dec z 0) as [->|Hz0]; [reflexivity|].
  destruct (Z.log2_spec z) as [_ Hlt]; [lia|].
  eapply Z.lt_le_trans; [exact Hlt|]. apply Z.pow_le_mono_l. lia.
Qed.

Lemma py_str_int_parse (z : Z) : parse_int (py_str_int z) = Some z.
Proof.
  unfold py_str_int. destruct (Z.ltb_spec z 0).
  - destruct (z_digits_head (Z.to_nat (Z.log2 (- z))) (- z) "") as [c [rest [Heq Hc]]].
    pose proof (z_digits_digits (S (Z.to_nat (Z.log2 (- z)))) (- z) "" (Forall_nil _)) as Hd.
    change (parse_int ("-" ++ z_digits (S (Z.to_nat (Z.log2 (- z)))) (- z) ""))
      with (parse_int (String "-" (z_digits (S (Z.to_nat (Z.log2 (- z)))) (- z) ""))).
    rewrite Heq in *. rewrite (parse_int_minus _ _ Hd).
    rewrite <- Heq.
    destruct (z_digits_value _ (- z) 0 "" (log2_fuel (- z) ltac:(lia))) as [k [_ Hv]].
    rewrite Hv. cbn [digits_value option_map]. f_equal; lia.
  - destruct (z_digits_head (Z.to_nat (Z.log2 z)) z "") as [c [rest [Heq Hc]]].
    pose proof (z_digits_digits (S (Z.to_nat (Z.log2 z))) z "" (Forall_nil _)) as Hd.
    rewrite Heq in *. rewrite (parse_int_digit _ _ Hd). rewrite <- Heq.
    destruct (z_digits_value _ z 0 "" (log2_fuel z ltac:(lia))) as [k [_ Hv]].
    rewrite Hv. cbn [digits_value]. f_equal; lia.
Qed.

Lemma assoc_set_same {V} (k : string) (v : V) (l : list (string * V)) :
  assoc k (assoc_set k v l) = Some v.
Proof.
  induction l as [|[k' v'] l IH]; simpl; [now rewrite String.eqb_refl|].
  destruct (String.eqb_spec k k') as [->|Hne]; simpl; [now rewrite String.eqb_refl|].
  destruct (String.eqb_spec k k'); [contradiction|exact IH].
Qed.

Lemma assoc_set_other {V} (k k' : string) (v : V) (l : list (string * V)) :
  k' <> k -> assoc k' (assoc_set k v l) = assoc k' l.
Proof.
  intro Hne. induction l as [|[k0 v0] l IH]; simpl.
  - destruct (String.eqb_spec k' k); [contradiction|reflexivity].
  - destruct (String.eqb_spec k k0) as [->|Hk]; simpl.
    + destruct (String.eqb_spec k' k0); [contradiction|reflexivity].
    + destruct (String.eqb k' k0); [reflexivity|exact IH].
Qed.

Lemma assoc_app_new {V} (k : string) (v : V) (l : list (string * V)) :
  assoc k l = None -> assoc k (l ++ [(k, v)]) = Some v.
Proof.
  induction l as [|[k0 v0] l IH]; simpl; [now rewrite String.eqb_refl|].
  destruct (String.eqb k k0); [discriminate|exact IH].
Qed.

Lemma assoc_app_other {V} (k k' : string) (v : V) (l : list (string * V)) :
  k' <> k -> assoc k' (l ++ [(k, v)]) = assoc k' l.
Proof.
  intro Hne. induction l as [|[k0 v0] l IH]; simpl.
  - destruct (String.eqb_spec k' k); [contradiction|reflexivity].
  - destruct (String.eqb k' k0); [reflexivity|exact IH].
Qed.

Lemma py_contains_cons (sub : string) (c : ascii) (s : string) :
  py_contains sub (String c s) = String.prefix sub (String c s) || py_contains sub s.
Proof. reflexivity. Qed.

Lemma no_pct_cons (c : ascii) (s : string) :
  c <> "%"%char -> py_contains "%" (String c s) = py_contains "%" s.
Proof.
  intro Hc. rewrite py_contains_cons. cbn [String.prefix].
  destruct (ascii_dec "%" c) as [H|H]; [subst; contradiction|reflexivity].
Qed.

Lemma pct_cons_false (c : ascii) (s : string) :
  py_contains "%" (String c s) = false -> c <> "%"%char /\ py_contains "%" s = false.
Proof.
  rewrite py_contains_cons. cbn [String.prefix]. intro H. apply orb_false_iff in H as [H1 H2].
  split; [|exact H2]. intro E. rewrite E in H1. destruct s; vm_compute in H1; discriminate.
Qed.

Lemma drop_escaped_no_pct (s : string) : py_contains "%" s = false -> drop_escaped s = s.
Proof.
  induction s as [|c s IH]; [reflexivity|]. intro H.
  apply pct_cons_false in H as [Hc Hs].
  assert (E : drop_escaped (String c s) = String c (drop_escaped s)).
  { destruct c as [[] [] [] [] [] [] [] []]; try reflexivity. contradiction. }
  rewrite E, IH by exact Hs. reflexivity.
Qed.

Lemma drop_key_refs_no_pct (n : nat) (s : string) : py_contains "%" s = false -> drop_key_refs n s = s.
Proof.
  revert s. induction n as [|n IH]; intros s H; [reflexivity|].
  destruct s as [|c s]; [reflexivity|]. cbn [drop_key_refs].
  apply pct_cons_false in H as [Hc Hs].
  assert (E : key_ref_rest (String c s) = None).
  { destruct c as [[] [] [] [] [] [] [] []]; try reflexivity. contradiction. }
  rewrite E, IH by exact Hs. reflexivity.
Qed.

Lemma before_set_no_pct (v : string) : py_contains "%" v = false -> before_set v = Ret v.
Proof.
  intro H. unfold before_set. rewrite drop_escaped_no_pct by exact H.
  rewrite drop_key_refs_no_pct by exact H. now rewrite H.
Qed.

Lemma all_plain_no_pct (s : string) : all_plain s = true -> py_contains "%" s = false.
Proof.
  induction s as [|c s IH]; [reflexivity|]. cbn [all_plain]. intro H.
  apply andb_true_iff in H as [Hc Hs]. unfold plain_char in Hc.
  apply andb_true_iff in Hc as [_ Hc]. rewrite no_pct_cons by
    (intros ->; discriminate). now apply IH.
Qed.

Lemma plain_value_no_pct (v : string) : plain_value v = true -> py_contains "%" v = false.
Proof.
  unfold plain_value. intro H. apply andb_true_iff in H as [H _].
  apply andb_true_iff in H as [H _]. now apply all_plain_no_pct.
Qed.

Lemma digit_char_not_pct (z : Z) : digit_char z <> "%"%char.
Proof. intro H. pose proof (digit_char_value z) as Hv. rewrite H in Hv. discriminate. Qed.

Lemma z_digits_no_pct (f : nat) (z : Z) (acc : string) :
  py_contains "%" acc = false -> py_contains "%" (z_digits f z acc) = false.
Proof.
  revert z acc. induction f as [|f IH]; intros z acc H; [exact H|].
  rewrite z_digits_S.
  assert (H' : py_contains "%" (String (digit_char z) acc) = false)
    by (rewrite no_pct_cons by apply digit_char_not_pct; exact H).
  destruct (z <? 10); [exact H'|]. now apply IH.
Qed.

Lemma limit_text_no_pct (l : option Z) : py_contains "%" (limit_text l) = false.
Proof.
  destruct l as [z|]; [|reflexivity]. unfold limit_text, py_str_int.
  destruct (z <? 0).
  - change ("-" ++ z_digits (S (Z.to_nat (Z.log2 (- z)))) (- z) "")
      with (String "-" (z_digits (S (Z.to_nat (Z.log2 (- z)))) (- z) "")).
    rewrite no_pct_cons by discriminate. now apply z_digits_no_pct.
  - now apply z_digits_no_pct.
Qed.

Lemma cp_set_section (p : config_parser) (s k v : string) (opts : options) :
  py_contains "%" v = false -> s <> "" -> s <> "DEFAULT" ->
  assoc s (sections p) = Some opts ->
  cp_set p s k v
  = Ret (mk_parser (defaults p) (assoc_set s (assoc_set (py_lower k) v opts) (sections p))).
Proof.
  intros Hv Hs Hd Ho. unfold cp_set.
  assert (E : (if String.eqb v "" then Ret v else before_set v) = Ret v).
  { destruct (String.eqb v ""); [reflexivity|]. now apply before_set_no_pct. }
  rewrite E. cbn [bind]. apply String.eqb_neq in Hs, Hd. rewrite Hs, Hd. cbn [orb].
  now rewrite Ho.
Qed.

Lemma limit_text_get (l : option Z) :
  (if String.eqb (limit_text l) "None" then Ret None
   else z <- py_int (limit_text l) ;; Ret (Some z)) = Ret l.
Proof.
  destruct l as [z|]; [|reflexivity]. unfold limit_text.
  assert (Hp := py_str_int_parse z).
  destruct (String.eqb_spec (py_str_int z) "None") as [E|_].
  - rewrite E in Hp. discriminate.
  - unfold py_int. now rewrite Hp.
Qed.

Lemma set_three_eq (q : config_parser) (opts0 : options) (sr tf : string) (lim : option Z) :
  assoc "reddit_extraction" (sections q) = Some opts0 ->
  py_contains "%" sr = false -> py_contains "%" tf = false ->
  exists q', set_three q sr tf lim = Ret q'
    /\ assoc "reddit_extraction" (sections q')
       = Some (assoc_set "limit" (limit_text lim)
                 (assoc_set "time_filter" tf (assoc_set "subreddit" sr opts0)))
    /\ defaults q' = defaults q
    /\ (forall s, s <> "reddit_extraction" -> assoc s (sections q') = assoc s (sections q)).
Proof.
  intros Ho Hsr Htf. unfold set_three.
  rewrite (cp_set_section q _ _ _ opts0 Hsr) by (try discriminate; exact Ho). cbn [bind].
  rewrite (cp_set_section _ _ _ _ (assoc_set "subreddit" sr opts0) Htf)
    by (try discriminate; apply assoc_set_same). cbn [bind].
  rewrite (cp_set_section _ _ _ _ (assoc_set "time_filter" tf (assoc_set "subreddit" sr opts0))
             (limit_text_no_pct lim))
    by (try discriminate; apply assoc_set_same).
  eexists. split; [reflexivity|]. cbn [sections defaults].
  split; [apply assoc_set_same|]. split; [reflexivity|].
  intros s Hs. rewrite !assoc_set_other by exact Hs. reflexivity.
Qed.

Lemma interpolate_loop_plain (lookup : string -> option string) (o sec : string)
  (nested : string -> result string) (n : nat) (v : string) :
  py_contains "%" v = false -> interpolate_loop lookup o sec nested n v = Ret v.
Proof.
  revert n. induction v as [|c v IH]; intros n H; [destruct n; reflexivity|].
  destruct n as [|f]; [reflexivity|].
  destruct (pct_cons_false c v H) as [Hc Hv].
  destruct c as [[] [] [] [] [] [] [] []]; try (exfalso; apply Hc; reflexivity);
    cbn [interpolate_loop]; rewrite (IH f Hv); reflexivity.
Qed.

Lemma before_get_plain (lookup : string -> option string) (o sec v : string) :
  py_contains "%" v = false -> before_get lookup o sec v = Ret v.
Proof.
  intro H. unfold before_get. cbn [interpolate_some]. now apply interpolate_loop_plain.
Qed.

Lemma get_after_set (q : config_parser) (opts0 : options) (sr tf : string) (lim : option Z) :
  py_contains "%" sr = false -> py_contains "%" tf = false ->
  assoc "reddit_extraction" (sections q)
  = Some (assoc_set "limit" (limit_text lim)
            (assoc_set "time_filter" tf (assoc_set "subreddit" sr opts0))) ->
  get_reddit_extraction_config (Some q) = Ret (mk_extraction sr tf lim).
Proof.
  intros Hsr Htf Ho. unfold get_reddit_extraction_config. cbn [read_config bind].
  unfold has_section. rewrite Ho. cbn [negb].
  unfold cp_get. rewrite Ho.
  rewrite assoc_set_same, before_get_plain by apply limit_text_no_pct. cbn [bind].
  rewrite assoc_set_other by discriminate. rewrite assoc_set_other by discriminate.
  rewrite assoc_set_same, before_get_plain by exact Hsr. cbn [bind].
  rewrite assoc_set_other by discriminate. rewrite assoc_set_same, before_get_plain by exact Htf.
  cbn [bind]. rewrite limit_text_get. reflexivity.
Qed.



Lemma truthy_true (o : option string) :
  truthy o = true -> exists v, o = Some v /\ v <> "".
Proof.
  destruct o as [v|]; simpl; [|discriminate].
  intro H. exists v. split; [reflexivity|]. apply String.eqb_neq.
  now destruct (String.eqb v "").
Qed.

Lemma create_reddit_instance_inv (f : settings_file) (api : reddit_api) (h : nat) :
  create_reddit_instance f api = Some h ->
  exists p cid sec dev nm,
    f = Some p /\
    cp_get p "reddit_config" "secret" = Ret sec /\ sec <> "" /\
    cp_get p "reddit_config" "client_id" = Ret cid /\ cid <> "" /\
    cp_get p "reddit_config" "developer" = Ret dev /\
    cp_get p "reddit_config" "name" = Ret nm /\
    praw_reddit api cid sec ("Reddit Analytics by u/" ++ dev) = AOk h /\
    user_me api h = AOk tt.
Proof.
  unfold create_reddit_instance.
  destruct (get_reddit_api_config f) as [config|ex] eqn:E; [|discriminate].
  unfold get_reddit_api_config in E. destruct f as [p|]; [|discriminate E].
  cbn [read_config bind] in E.
  destruct (has_section p "reddit_config"); cbn [negb] in E.
  - cbn [get_all bind] in E.
    destruct (cp_get p "reddit_config" "secret") as [sec|] eqn:Es; [|discriminate E].
    destruct (cp_get p "reddit_config" "client_id") as [cid|] eqn:Ec; [|discriminate E].
    destruct (cp_get p "reddit_config" "developer") as [dev|] eqn:Ed; [|discriminate E].
    destruct (cp_get p "reddit_config" "name") as [nm|] eqn:En; [|discriminate E].
    injection E as <-. cbn [assoc String.eqb Ascii.eqb Bool.eqb andb].
    unfold truthy. cbn [negb].
    destruct (String.eqb cid "") eqn:Tc; cbn [negb orb]; [discriminate|].
    destruct (String.eqb sec "") eqn:Ts; cbn [negb orb]; [discriminate|].
    apply String.eqb_neq in Tc, Ts.
    destruct (praw_reddit api cid sec (user_agent dev)) as [h'|m] eqn:Ep; [|discriminate].
    destruct (user_me api h') as [u|m] eqn:Em; [|discriminate].
    intro Hh. injection Hh as ->. destruct u.
    exists p, cid, sec, dev, nm. repeat split; assumption.
  - injection E as <-. cbn. discriminate.
Qed.

(** The instance was made with the configured credentials and developer. *)
(** X4: an instance [create_reddit_instance] returns was built from the
    non-empty [client_id] and [secret] of [reddit_config], with the user
    agent naming its [developer], and passed the [user.me()] check. *)
Theorem create_reddit_instance_uses_config (p : config_parser) (api : reddit_api) (h : nat) :
  create_reddit_instance (Some p) api = Some h ->
  exists cid sec dev,
    cp_get p "reddit_config" "client_id" = Ret cid /\ cid <> "" /\
    cp_get p "reddit_config" "secret" = Ret sec /\ sec <> "" /\
    cp_get p "reddit_config" "developer" = Ret dev /\
    praw_reddit api cid sec ("Reddit Analytics by u/" ++ dev) = AOk h /\
    user_me api h = AOk tt.
Proof.
  intro H. destruct (create_reddit_instance_inv _ _ _ H)
    as [p' [cid [sec [dev [nm [Ep [Hs [Hsne [Hc [Hcne [Hd [Hn [Hp Hm]]]]]]]]]]]]].
  injection Ep as <-. exists cid, sec, dev. repeat split; assumption.
Qed.

Lemma create_reddit_instance_uses_config_witness :
  exists cid sec dev,
    cp_get sample_settings_full "reddit_config" "client_id" = Ret cid /\ cid <> "" /\
    cp_get sample_settings_full "reddit_config" "secret" = Ret sec /\ sec <> "" /\
    cp_get sample_settings_full "reddit_config" "developer" = Ret dev /\
    praw_reddit (sample_api (AOk tt)) cid sec ("Reddit Analytics by u/" ++ dev) = AOk 1%nat /\
    user_me (sample_api (AOk tt)) 1%nat = AOk tt.
Proof.
  apply (create_reddit_instance_uses_config sample_settings_full (sample_api (AOk tt)) 1%nat).
  vm_compute. reflexivity.
Defined.

(** X5: when the settings give no non-empty [client_id] and [secret],
    whatever the API, [validate_subreddit] reports that it cannot connect,
    [get_subreddit_info] returns [None] and [test_reddit_credentials]
    reports that no instance could be created. *)
Theorem reddit_without_credentials (f : settings_file) (name : string) :
  (forall p cid sec, f = Some p ->
     cp_get p "reddit_config" "client_id" = Ret cid ->
     cp_get p "reddit_config" "secret" = Ret sec -> cid = "" \/ sec = "") ->
  forall api,
    validate_subreddit f api name
      = (false, Some "Unable to connect to Reddit API. Check your credentials.")
    /\ get_subreddit_info f api name = None
    /\ test_reddit_credentials f api
      = (false, Some "Unable to create Reddit instance. Check your credentials in configuration.conf").
Proof.
  intros Hcred api.
  assert (Hn : create_reddit_instance f api = None).
  { destruct (create_reddit_instance f api) as [h|] eqn:E; [|reflexivity].
    destruct (create_reddit_instance_inv _ _ _ E)
      as [p [cid [sec [dev [nm [Ep [Hs [Hsne [Hc [Hcne _]]]]]]]]]].
    destruct (Hcred p cid sec Ep Hc Hs); contradiction. }
  unfold validate_subreddit, get_subreddit_info, test_reddit_credentials.
  rewrite Hn. auto.
Qed.

Lemma reddit_without_credentials_witness :
  validate_subreddit (Some sample_settings_no_secret) (sample_api (AOk tt)) "python"
    = (false, Some "Unable to connect to Reddit API. Check your credentials.")
  /\ get_subreddit_info (Some sample_settings_no_secret) (sample_api (AOk tt)) "python" = None
  /\ test_reddit_credentials (Some sample_settings_no_secret) (sample_api (AOk tt))
    = (false, Some "Unable to create Reddit instance. Check your credentials in configuration.conf").
Proof.
  apply (reddit_without_credentials (Some sample_settings_no_secret) "python").
  intros p cid sec Hp Hc Hs. injection Hp as <-. vm_compute in Hs.
  injection Hs as <-. right. reflexivity.
Defined.


(** X7: when the subreddit lookup or its [display_name] fails with an error
    whose text contains ["404"] or ["Redirect"], [validate_subreddit]
    reports that the subreddit does not exist. *)
Theorem validate_subreddit_not_found (f : settings_file) (api : reddit_api) (name msg : string)
  (h : nat) :
  create_reddit_instance f api = Some h ->
  (subreddit_of api h name = AErr msg \/
   (subreddit_of api h name = AOk tt /\ display_name api h name = AErr msg)) ->
  py_contains "404" msg = true \/ py_contains "Redirect" msg = true ->
  validate_subreddit f api name = (false, Some ("Subreddit r/" ++ name ++ " does not exist.")).
Proof.
  intros Hc Hs Hm. unfold validate_subreddit. rewrite Hc.
  assert (E : api_bind (subreddit_of api h name) (fun _ => display_name api h name) = AErr msg).
  { destruct Hs as [Hs|[Hs Hd]]; rewrite Hs; cbn [api_bind]; first [reflexivity | assumption]. }
  rewrite E. unfold lookup_error.
  destruct Hm as [Hm|Hm]; rewrite Hm; [reflexivity|].
  now rewrite orb_true_r.
Qed.

Lemma validate_subreddit_not_found_witness :
  validate_subreddit (Some sample_settings_full) (sample_api (AErr "received 404 HTTP response"))
    "nosuchsub" = (false, Some ("Subreddit r/" ++ "nosuchsub" ++ " does not exist.")).
Proof.
  apply (validate_subreddit_not_found (Some sample_settings_full)
           (sample_api (AErr "received 404 HTTP response")) "nosuchsub"
           "received 404 HTTP response" 1%nat).
  - vm_compute. reflexivity.
  - left. reflexivity.
  - left. vm_compute. reflexivity.
Defined.

(** X8: a dict [get_subreddit_info] returns has the keys name, title,
    description, subscribers, created_utc, over18 and url in this order,
    and its url is the Reddit address of the name it reports. *)
Theorem get_subreddit_info_shape (f : settings_file) (api : reddit_api) (name : string)
  (info : list (string * cell)) :
  get_subreddit_info f api name = Some info ->
  map fst info = ["name"; "title"; "description"; "subscribers"; "created_utc"; "over18"; "url"]
  /\ exists dn, assoc "name" info = Some (CStr dn)
                /\ assoc "url" info = Some (CStr ("https://reddit.com/r/" ++ dn)).
Proof.
  unfold get_subreddit_info.
  destruct (create_reddit_instance f api) as [h|]; [|discriminate].
  destruct (subreddit_of api h name) as [u|m]; cbn [api_bind]; [|discriminate].
  destruct (display_name api h name) as [dn|m] eqn:Ed; cbn [api_bind]; [|discriminate].
  destruct (sub_attr api h name "title"); cbn [api_bind]; [|discriminate].
  destruct (sub_attr api h name "public_description"); cbn [api_bind]; [|discriminate].
  destruct (sub_attr api h name "subscribers"); cbn [api_bind]; [|discriminate].
  destruct (sub_attr api h name "created_utc"); cbn [api_bind]; [|discriminate].
  destruct (sub_attr api h name "over18"); cbn [api_bind]; [|discriminate].
  cbn [api_bind]. intro H. injection H as <-.
  split; [reflexivity|]. exists dn. split; reflexivity.
Qed.

Lemma get_subreddit_info_shape_witness :
  exists info,
    get_subreddit_info (Some sample_settings_full) (sample_api (AOk tt)) "python" = Some info
    /\ map fst info = ["name"; "title"; "description"; "subscribers"; "created_utc"; "over18"; "url"]
    /\ exists dn, assoc "name" info = Some (CStr dn)
                  /\ assoc "url" info = Some (CStr ("https://reddit.com/r/" ++ dn)).
Proof.
  destruct (get_subreddit_info (Some sample_settings_full) (sample_api (AOk tt)) "python")
    as [info|] eqn:E; [|vm_compute in E; discriminate E].
  exists info. split; [reflexivity|].
  exact (get_subreddit_info_shape (Some sample_settings_full) (sample_api (AOk tt)) "python" info E).
Defined.

Lemma update_success (d : disk) (p : config_parser) (sr tf : string) (lim : option Z) :
  file d = Some p -> writable d = true -> plain_value sr = true -> plain_value tf = true ->
  exists p' opts0, update_reddit_extraction_config d sr tf lim = (true, mk_disk (Some p') true)
    /\ assoc "reddit_extraction" (sections p')
       = Some (assoc_set "limit" (limit_text lim)
                 (assoc_set "time_filter" tf (assoc_set "subreddit" sr opts0)))
    /\ defaults p' = defaults p
    /\ (forall s, s <> "reddit_extraction" -> assoc s (sections p') = assoc s (sections p)).
Proof.
  intros Hf Hw Hsr Htf.
  apply plain_value_no_pct in Hsr, Htf.
  assert (H0 : exists q opts0,
             (if negb (has_section p "reddit_extraction")
              then add_section p "reddit_extraction" else p) = q
             /\ assoc "reddit_extraction" (sections q) = Some opts0
             /\ defaults q = defaults p
             /\ (forall s, s <> "reddit_extraction" -> assoc s (sections q) = assoc s (sections p))).
  { unfold has_section. destruct (assoc "reddit_extraction" (sections p)) as [o|] eqn:E;
      cbn [negb].
    - exists p, o. auto.
    - eexists _, []. split; [reflexivity|]. cbn [add_section sections defaults].
      split; [now apply assoc_app_new|]. split; [reflexivity|].
      intros s Hs. now apply assoc_app_other. }
  destruct H0 as [q [opts0 [Eq [Ho [Hd Hs]]]]].
  destruct (set_three_eq q opts0 sr tf lim Ho Hsr Htf) as [p' [Hset [Ho' [Hd' Hs']]]].
  exists p', opts0.
  assert (Hbody : update_body (file d) sr tf lim = Ret p').
  { unfold update_body. rewrite Hf. cbn [read_config bind]. rewrite Eq. exact Hset. }
  split; [unfold update_reddit_extraction_config; rewrite Hbody; unfold write_config;
          now rewrite Hw|].
  split; [exact Ho'|].
  split; [congruence|].
  intros s Hne. rewrite Hs' by exact Hne. now apply Hs.
Qed.













Lemma get_all_inv (p : config_parser) (s : string) (ks : list string) (d : str_dict) :
  get_all p s ks = Ret d ->
  map fst d = ks /\ (forall k v, In (k, v) d -> cp_get p s k = Ret v).
Proof.
  revert d. induction ks as [|k ks IH]; intros d H.
  - cbn in H. injection H as <-. split; [reflexivity|intros _ _ []].
  - cbn [get_all] in H. destruct (cp_get p s k) as [v|] eqn:Ev; cbn [bind] in H; [|discriminate].
    destruct (get_all p s ks) as [d'|] eqn:Ed; cbn [bind] in H; [|discriminate].
    injection H as <-. destruct (IH d' eq_refl) as [H1 H2]. split; [cbn; now rewrite H1|].
    intros k' v' [E|Hin]; [injection E as <- <-; exact Ev|now apply H2].
Qed.

Lemma map_fst_filter (f : string * string -> bool) (d : str_dict) :
  (forall k v, f (k, v) = f (k, "")) ->
  map fst (filter f d) = filter (fun k => f (k, "")) (map fst d).
Proof.
  intro Hf. induction d as [|[k v] d IH]; [reflexivity|]. cbn. rewrite Hf.
  destruct (f (k, "")); cbn; now rewrite IH.
Qed.

(** X9: the AWS configuration the Monitoring page shows lists the eight
    [aws_config] keys other than [redshift_password], each with its value
    in the settings. *)
Theorem aws_config_view_hides_password (p : config_parser) (shown : str_dict) :
  aws_config_view (Some p) = Ret (Some shown) ->
  map fst shown = ["bucket_name"; "redshift_username"; "redshift_hostname"; "redshift_role";
                   "redshift_port"; "redshift_database"; "account_id"; "aws_region"]
  /\ (forall k v, In (k, v) shown -> cp_get p "aws_config" k = Ret v).
Proof.
  unfold aws_config_view, get_aws_config. cbn [read_config bind].
  destruct (has_section p "aws_config"); cbn [negb].
  - destruct (get_all p "aws_config" aws_keys) as [d|] eqn:E; cbn [bind]; [|discriminate].
    destruct (get_all_inv _ _ _ _ E) as [Hk Hv].
    intro H.
    assert (Hs : shown = filter (fun '(k, _) => negb (py_contains "password" (py_lower k))) d)
      by (destruct d; [discriminate|injection H as H; symmetry; exact H]).
    subst shown. split.
    + rewrite map_fst_filter by (intros; reflexivity). rewrite Hk. reflexivity.
    + intros k v Hin. apply filter_In in Hin as [Hin _]. now apply Hv.
  - cbn [bind]. discriminate.
Qed.

Lemma aws_config_view_hides_password_witness :
  exists shown, aws_config_view (Some sample_settings_full) = Ret (Some shown)
    /\ map fst shown = ["bucket_name"; "redshift_username"; "redshift_hostname"; "redshift_role";
                       "redshift_port"; "redshift_database"; "account_id"; "aws_region"]
    /\ (forall k v, In (k, v) shown -> cp_get sample_settings_full "aws_config" k = Ret v).
Proof.
  destruct (aws_config_view (Some sample_settings_full)) as [[shown|]|] eqn:E;
    [|vm_compute in E; discriminate E|vm_compute in E; discriminate E].
  exists shown. split; [reflexivity|].
  exact (aws_config_view_hides_password sample_settings_full shown E).
Defined.



Lemma list_index_none (x : string) (l : list string) : ~ In x l -> list_index x l = None.
Proof.
  induction l as [|y l IH]; intro H; [reflexivity|]. cbn.
  destruct (String.eqb x y) eqn:E.
  - apply String.eqb_eq in E. subst. exfalso. apply H. now left.
  - rewrite IH; [reflexivity|]. intro Hin. apply H. now right.
Qed.

(** X11: the Configuration page fails with [ValueError] when the stored
    time filter is not one of hour, day, week, month, year and all. *)
Theorem configuration_form_bad_time_filter (f : settings_file) (c : extraction_config) :
  get_reddit_extraction_config f = Ret c -> ~ In (time_filter c) time_filter_options ->
  configuration_form f = Raise (ValueError (py_repr (time_filter c) ++ " is not in list")).
Proof.
  intros Hg Hn. unfold configuration_form. rewrite Hg. cbn [bind].
  unfold py_index. rewrite list_index_none by exact Hn. reflexivity.
Qed.

Lemma configuration_form_bad_time_filter_witness :
  configuration_form (Some (extraction_settings "weekly" "25"))
  = Raise (ValueError ("'weekly' is not in list")).
Proof.
  apply (configuration_form_bad_time_filter (Some (extraction_settings "weekly" "25"))
           (mk_extraction "python" "weekly" (Some 25))).
  - vm_compute. reflexivity.
  - simpl. intros H. repeat (destruct H as [H|H]; [discriminate H|]). exact H.
Defined.

(** X12: a stored limit of [0] is shown as "No limit" in the sidebar, and
    the Configuration form opens on "Custom Limit" with the value 100. *)
Theorem zero_limit_display (f : settings_file) (c : extraction_config) (i : nat) :
  get_reddit_extraction_config f = Ret c -> limit c = Some 0 ->
  list_index (time_filter c) time_filter_options = Some i ->
  sidebar_info f = Some ("r/" ++ subreddit c, time_filter c, "No limit")
  /\ configuration_form f = Ret (mk_form (subreddit c) i 1 100).
Proof.
  intros Hg Hl Hi. unfold sidebar_info, configuration_form. rewrite Hg. cbn [bind].
  unfold py_index. rewrite Hi. cbn [bind]. rewrite Hl. split; reflexivity.
Qed.

Lemma zero_limit_display_witness :
  sidebar_info (Some (extraction_settings "day" "0")) = Some ("r/" ++ "python", "day", "No limit")
  /\ configuration_form (Some (extraction_settings "day" "0")) = Ret (mk_form "python" 1 1 100).
Proof.
  apply (zero_limit_display (Some (extraction_settings "day" "0")) (mk_extraction "python" "day" (Some 0)) 1);
    vm_compute; reflexivity.
Defined.

Lemma time_filter_option_index (i : nat) :
  (i < 6)%nat ->
  plain_value (nth i time_filter_options "") = true
  /\ list_index (nth i time_filter_options "") time_filter_options = Some i.
Proof.
  intro H. do 6 (destruct i as [|i]; [split; reflexivity|]). lia.
Qed.

(** X13: saving a plain subreddit, one of the six time filters and no limit
    or a limit between 1 and 1000 succeeds, and the Configuration form
    and the sidebar then show the saved values. *)
Theorem save_then_reload (d : disk) (p : config_parser) (sr : string) (i : nat) (lim : option Z) :
  file d = Some p -> writable d = true -> plain_value sr = true -> (i < 6)%nat ->
  (forall z, lim = Some z -> 1 <= z <= 1000) ->
  exists p',
    update_reddit_extraction_config d sr (nth i time_filter_options "") lim
      = (true, mk_disk (Some p') true)
    /\ configuration_form (Some p')
       = Ret (mk_form sr i (match lim with None => 0 | Some _ => 1 end)%nat
                      (match lim with Some z => z | None => 100 end))
    /\ sidebar_info (Some p')
       = Some ("r/" ++ sr, nth i time_filter_options "",
               match lim with Some z => py_str_int z | None => "No limit" end).
Proof.
  intros Hf Hw Hsr Hi Hlim.
  destruct (time_filter_option_index i Hi) as [Htf Hidx].
  destruct (update_success d p sr _ lim Hf Hw Hsr Htf) as [p' [opts0 [Hu [Ho _]]]].
  exists p'. split; [exact Hu|].
  pose proof (get_after_set p' opts0 sr _ lim (plain_value_no_pct _ Hsr) (plain_value_no_pct _ Htf) Ho)
    as Hg.
  unfold configuration_form, sidebar_info. rewrite Hg. cbn [bind subreddit time_filter limit].
  unfold py_index. rewrite Hidx. cbn [bind].
  destruct lim as [z|].
  - specialize (Hlim z eq_refl).
    assert (Hz : (z =? 0) = false) by (apply Z.eqb_neq; lia).
    assert (Hb : (1 <=? z) && (z <=? 1000) = true)
      by (apply andb_true_iff; split; apply Z.leb_le; lia).
    unfold limit_display. rewrite Hz. cbv zeta. rewrite Hb. split; reflexivity.
  - split; reflexivity.
Qed.

Lemma save_then_reload_witness :
  exists p',
    update_reddit_extraction_config (mk_disk (Some sample_settings) true) "dataengineering"
      (nth 3 time_filter_options "") (Some 50) = (true, mk_disk (Some p') true)
    /\ configuration_form (Some p') = Ret (mk_form "dataengineering" 3 1 50)
    /\ sidebar_info (Some p') = Some ("r/" ++ "dataengineering", nth 3 time_filter_options "", py_str_int 50).
Proof.
  apply (save_then_reload (mk_disk (Some sample_settings) true) sample_settings "dataengineering" 3 (Some 50)).
  - reflexivity.
  - reflexivity.
  - vm_compute. reflexivity.
  - lia.
  - intros z Hz. injection Hz as <-. lia.
Defined.

Lemma map_result_in {A B} (f : A -> result B) (l : list A) (l' : list B) :
  map_result f l = Ret l' ->
  (forall b, In b l' -> exists a, In a l /\ f a = Ret b)
  /\ (forall a, In a l -> exists b, In b l' /\ f a = Ret b).
Proof.
  revert l'. induction l as [|x l IH]; intros l' H.
  - cbn in H. injection H as <-. split; [intros _ []|intros _ []].
  - cbn in H. destruct (f x) as [y|] eqn:Ey; cbn [bind] in H; [|discriminate].
    destruct (map_result f l) as [ys|] eqn:Eys; cbn [bind] in H; [|discriminate].
    injection H as <-. destruct (IH ys eq_refl) as [H1 H2]. split.
    + intros b [<-|Hb]; [exists x; split; [now left|exact Ey]|].
      destruct (H1 b Hb) as [a [Ha Hfa]]. exists a. split; [now right|exact Hfa].
    + intros a [<-|Ha]; [exists y; split; [now left|exact Ey]|].
      destruct (H2 a Ha) as [b [Hb Hfb]]. exists b. split; [now right|exact Hfb].
Qed.

Lemma to_datetime_cell_time (parse : string -> option Z) (a b : cell) :
  to_datetime_cell parse a = Ret b -> is_time_or_na b.
Proof.
  unfold is_time_or_na. destruct a; cbn; intro H; try discriminate;
    try (injection H as <-; eauto).
  destruct (parse s); [injection H as <-; eauto|discriminate].
Qed.

Lemma extreme_times (want : comparison) (l : list cell) :
  (forall v, In v l -> is_time_or_na v) -> want = Gt \/ want = Lt ->
  (extreme_cells want l = Ret CNA /\ forall v, In v l -> v = CNA)
  \/ exists t, extreme_cells want l = Ret (CTime t) /\ In (CTime t) l
               /\ forall u, In (CTime u) l -> (want = Gt -> u <= t) /\ (want = Lt -> t <= u).
Proof.
  intros Hl Hw. induction l as [|v l IH].
  - left. split; [reflexivity|intros _ []].
  - assert (Hl' : forall v, In v l -> is_time_or_na v) by (intros; apply Hl; now right).
    destruct (IH Hl') as [[E Hna]|[a [E [Ha Hb]]]]; cbn [extreme_cells]; rewrite E; cbn [bind].
    + destruct (Hl v (or_introl eq_refl)) as [->|[t ->]].
      * left. split; [reflexivity|]. intros w [<-|Hw']; [reflexivity|now apply Hna].
      * right. exists t. split; [reflexivity|]. split; [now left|].
        intros u [Eu|Hu]; [injection Eu as ->; split; intros; lia|].
        apply Hna in Hu. discriminate.
    + destruct (Hl v (or_introl eq_refl)) as [->|[t ->]].
      * right. exists a. split; [reflexivity|]. split; [now right|].
        intros u [Eu|Hu]; [discriminate|now apply Hb].
      * right. cbn [cell_compare bind].
        destruct Hw as [->| ->]; destruct (Z.compare_spec t a) as [Et|Et|Et].
        -- exists a. split; [reflexivity|]. split; [now right|].
           intros u [Eu|Hu]; [injection Eu as ->; split; intros; [lia|discriminate]|now apply Hb].
        -- exists a. split; [reflexivity|]. split; [now right|].
           intros u [Eu|Hu]; [injection Eu as ->; split; intros; [lia|discriminate]|now apply Hb].
        -- exists t. split; [reflexivity|]. split; [now left|].
           intros u [Eu|Hu]; [injection Eu as ->; split; intros; [lia|discriminate]|].
           destruct (Hb u Hu) as [H1 _]. split; intros; [specialize (H1 eq_refl); lia|discriminate].
        -- exists a. split; [reflexivity|]. split; [now right|].
           intros u [Eu|Hu]; [injection Eu as ->; split; intros; [discriminate|lia]|now apply Hb].
        -- exists t. split; [reflexivity|]. split; [now left|].
           intros u [Eu|Hu]; [injection Eu as ->; split; intros; [discriminate|lia]|].
           destruct (Hb u Hu) as [_ H2]. split; intros; [discriminate|specialize (H2 eq_refl); lia].
        -- exists a. split; [reflexivity|]. split; [now right|].
           intros u [Eu|Hu]; [injection Eu as ->; split; intros; [discriminate|lia]|now apply Hb].
Qed.

(** X14: the Data Freshness panel's latest and oldest posts are timestamps
    of rows of the table, every timestamp lies between them, and the day
    count is the whole number of days from the oldest to the latest. *)
Theorem data_freshness_bounds (parse : string -> option Z) (t : table) (l o days : Z) :
  data_freshness parse (Some t) = Ret (Some (l, o, days)) ->
  o <= l /\ 0 <= days /\ days = (l - o) / day_ns
  /\ (exists r, In r (rows t) /\ to_datetime_cell parse (get_cell r "created_utc") = Ret (CTime l))
  /\ (exists r, In r (rows t) /\ to_datetime_cell parse (get_cell r "created_utc") = Ret (CTime o))
  /\ (forall r u, In r (rows t) -> to_datetime_cell parse (get_cell r "created_utc") = Ret (CTime u) ->
                  o <= u <= l).
Proof.
  unfold data_freshness.
  destruct (negb (is_empty t) && has_column t "created_utc"); [|intro Hx; discriminate Hx].
  destruct (map_result (to_datetime_cell parse) (column_values t "created_utc")) as [col|]
    eqn:Ec; cbn [bind]; [|intro Hx; discriminate Hx].
  destruct (map_result_in _ _ _ Ec) as [Hback Hfwd].
  assert (Hcol : forall v, In v col -> is_time_or_na v).
  { intros v Hv. destruct (Hback v Hv) as [a [_ Ha]]. exact (to_datetime_cell_time _ _ _ Ha). }
  destruct (extreme_times Gt col Hcol (or_introl eq_refl)) as [[E1 _]|[lt [E1 [Hl1 Hl2]]]];
    rewrite E1; cbn [bind strftime_stamp]; [destruct (extreme_cells Lt col); cbn [bind]; intro Hx; discriminate Hx|].
  destruct (extreme_times Lt col Hcol (or_intror eq_refl)) as [[E2 _]|[ot [E2 [Ho1 Ho2]]]];
    rewrite E2; cbn [bind strftime_stamp]; [intro Hx; discriminate Hx|].
  intro H. injection H as <- <- <-.
  assert (Hbound : forall r u, In r (rows t) ->
            to_datetime_cell parse (get_cell r "created_utc") = Ret (CTime u) -> ot <= u <= lt).
  { intros r u Hr Hu.
    assert (Hin : In (get_cell r "created_utc") (column_values t "created_utc"))
      by (unfold column_values; apply in_map_iff; exists r; split; [reflexivity|exact Hr]).
    destruct (Hfwd _ Hin) as [b [Hb Hab]]. rewrite Hu in Hab. injection Hab as <-.
    destruct (Hl2 u Hb) as [H1 _]. destruct (Ho2 u Hb) as [_ H2].
    split; [exact (H2 eq_refl)|exact (H1 eq_refl)]. }
  assert (Hsrc : forall x, In (CTime x) col ->
            exists r, In r (rows t) /\ to_datetime_cell parse (get_cell r "created_utc") = Ret (CTime x)).
  { intros x Hx. destruct (Hback _ Hx) as [a [Ha Hax]].
    unfold column_values in Ha. apply in_map_iff in Ha as [r [<- Hr]]. eauto. }
  destruct (Hsrc lt Hl1) as [rl [Hrl Hrl']].
  assert (Hle : ot <= lt) by (destruct (Hbound rl lt Hrl Hrl'); lia).
  split; [exact Hle|]. split.
  { apply Z.div_pos; [lia|unfold day_ns; lia]. }
  split; [reflexivity|]. split; [eauto|]. split; [now apply Hsrc|exact Hbound].
Qed.

Lemma data_freshness_bounds_witness :
  1682948710000000000 <= 1683052200000000000 /\ 0 <= 1
  /\ 1 = (1683052200000000000 - 1682948710000000000) / day_ns
  /\ (exists r, In r (rows sample_batch)
         /\ to_datetime_cell iso_parser (get_cell r "created_utc") = Ret (CTime 1683052200000000000))
  /\ (exists r, In r (rows sample_batch)
         /\ to_datetime_cell iso_parser (get_cell r "created_utc") = Ret (CTime 1682948710000000000))
  /\ (forall r u, In r (rows sample_batch) ->
        to_datetime_cell iso_parser (get_cell r "created_utc") = Ret (CTime u) ->
        1682948710000000000 <= u <= 1683052200000000000).
Proof.
  apply (data_freshness_bounds iso_parser sample_batch). vm_compute. reflexivity.
Defined.

(** X15: on a non-empty table with a [created_utc] column whose values are
    all missing, the Data Freshness panel raises, as [strftime] on NaT
    does. *)
Theorem data_freshness_all_missing (parse : string -> option Z) (t : table) :
  is_empty t = false -> has_column t "created_utc" = true ->
  (forall r, In r (rows t) -> get_cell r "created_utc" = CNA) ->
  data_freshness parse (Some t) = Raise (ValueError "NaTType does not support strftime").
Proof.
  intros He Hc Hna. unfold data_freshness. rewrite He, Hc. cbn [negb andb].
  assert (E : map_result (to_datetime_cell parse) (column_values t "created_utc")
              = Ret (column_values t "created_utc")).
  { unfold column_values. induction (rows t) as [|r rs IH]; [reflexivity|].
    cbn. rewrite (Hna r (or_introl eq_refl)). cbn [to_datetime_cell bind].
    rewrite IH by (intros; apply Hna; now right). reflexivity. }
  assert (Eg : forall w, extreme_cells w (column_values t "created_utc") = Ret CNA).
  { intro w. unfold column_values. clear E. induction (rows t) as [|r rs IH]; [reflexivity|].
    cbn. rewrite IH by (intros; apply Hna; now right). cbn [bind].
    rewrite (Hna r (or_introl eq_refl)). reflexivity. }
  rewrite E. cbn [bind]. rewrite Eg. cbn [bind strftime_stamp].
  rewrite Eg. reflexivity.
Qed.

Lemma data_freshness_all_missing_witness :
  data_freshness iso_parser (Some undated_batch)
  = Raise (ValueError "NaTType does not support strftime").
Proof.
  apply (data_freshness_all_missing iso_parser undated_batch); try reflexivity.
  intros r [<-|[]]. reflexivity.
Defined.

Lemma filter_result_eq {A} (p : A -> result bool) (l l' : list A) :
  filter_result p l = Ret l' -> l' = filter (fun x => res_true (p x)) l.
Proof.
  revert l'. induction l as [|x l IH]; intros l' H; cbn in H.
  - now injection H as <-.
  - destruct (p x) as [b|] eqn:Ep; cbn [bind] in H; [|discriminate].
    destruct (filter_result p l) as [r|] eqn:Er; cbn [bind] in H; [|discriminate].
    injection H as <-. cbn. rewrite Ep. cbn [res_true]. rewrite <- (IH r eq_refl).
    now destruct b.
Qed.

Lemma mask_rows_eq (t t' : table) (c : string) (p : cell -> result bool) :
  mask_rows t c p = Ret t' ->
  columns t' = columns t /\ rows t' = filter (fun r => res_true (p (get_cell r c))) (rows t).
Proof.
  unfold mask_rows, require_column. destruct (has_column t c); cbn [bind]; [|discriminate].
  destruct (filter_result _ (rows t)) as [rs|] eqn:E; cbn [bind]; [|discriminate].
  intro H. injection H as <-. split; [reflexivity|]. cbn. exact (filter_result_eq _ _ _ E).
Qed.

Lemma filter_filter_and {A} (f g : A -> bool) (l : list A) :
  filter f (filter g l) = filter (fun x => g x && f x) l.
Proof.
  induction l as [|x l IH]; [reflexivity|]. cbn.
  destruct (g x); cbn; [destruct (f x); cbn; now rewrite IH|exact IH].
Qed.

Lemma filter_true_id {A} (l : list A) : filter (fun _ => true) l = l.
Proof. induction l as [|x l IH]; cbn; [reflexivity|now rewrite IH]. Qed.

Lemma mask_stage (b : bool) (u u1 : table) (c : string) (p : cell -> result bool) :
  (if b then mask_rows u c p else Ret u) = Ret u1 ->
  columns u1 = columns u /\ rows u1 = filter (fun r => negb b || res_true (p (get_cell r c))) (rows u).
Proof.
  destruct b; cbn [negb orb].
  - exact (mask_rows_eq _ _ _ _).
  - intro H. injection H as <-. split; [reflexivity|]. now rewrite filter_true_id.
Qed.

(** X16: the Data Viewer's filters keep the columns and select, in their
    order, the rows that pass all three active conditions (title search,
    minimum score, minimum comments). *)
Theorem data_viewer_filter_rows (title_match : string -> cell -> result bool) (t t' : table)
  (search_term : string) (min_score min_comments : Z) :
  data_viewer_filter title_match t search_term min_score min_comments = Ret t' ->
  columns t' = columns t
  /\ rows t' = filter (fun r =>
       (String.eqb search_term "" || res_true (title_match search_term (get_cell r "title")))
       && (negb (0 <? min_score) || res_true (cell_ge (get_cell r "score") min_score))
       && (negb (0 <? min_comments)
           || res_true (cell_ge (get_cell r "num_comments") min_comments)))
       (rows t).
Proof.
  unfold data_viewer_filter.
  assert (S1 : forall u1, (if String.eqb search_term "" then Ret t
                           else mask_rows t "title" (title_match search_term)) = Ret u1 ->
                          columns u1 = columns t /\
                          rows u1 = filter (fun r => String.eqb search_term ""
                                     || res_true (title_match search_term (get_cell r "title")))
                                   (rows t)).
  { intros u1 H. destruct (String.eqb search_term ""); cbn [orb].
    - injection H as <-. split; [reflexivity|]. now rewrite filter_true_id.
    - exact (mask_rows_eq _ _ _ _ H). }
  destruct (if String.eqb search_term "" then Ret t
            else mask_rows t "title" (title_match search_term)) as [t1|] eqn:E1;
    cbn [bind]; [|discriminate].
  destruct (S1 t1 eq_refl) as [C1 R1].
  destruct (if 0 <? min_score then mask_rows t1 "score" (fun v => cell_ge v min_score)
            else Ret t1) as [t2|] eqn:E2; cbn [bind]; [|discriminate].
  destruct (mask_stage _ _ _ _ _ E2) as [C2 R2].
  intro E3. destruct (mask_stage _ _ _ _ _ E3) as [C3 R3].
  split; [congruence|].
  rewrite R3, R2, R1, !filter_filter_and. apply filter_ext. intro r. now rewrite andb_assoc.
Qed.

Lemma data_viewer_filter_rows_witness :
  exists t', data_viewer_filter title_search sample_batch "SPARK" 5 0 = Ret t'
    /\ columns t' = columns sample_batch
    /\ rows t' = filter (fun r =>
         (String.eqb "SPARK" "" || res_true (title_search "SPARK" (get_cell r "title")))
         && (negb (0 <? 5) || res_true (cell_ge (get_cell r "score") 5))
         && (negb (0 <? 0) || res_true (cell_ge (get_cell r "num_comments") 0)))
         (rows sample_batch).
Proof.
  destruct (data_viewer_filter title_search sample_batch "SPARK" 5 0) as [t'|ex] eqn:E;
    [|vm_compute in E; discriminate E].
  exists t'. split; [reflexivity|].
  exact (data_viewer_filter_rows title_search sample_batch t' "SPARK" 5 0 E).
Defined.

Lemma distinct_cells_spec (l : list cell) :
  NoDup (distinct_cells l) /\ (forall v, In v (distinct_cells l) <-> In v l /\ is_na v = false).
Proof.
  induction l as [|x l [IHn IHi]]; cbn.
  - split; [constructor|]. intro v. split; [intros []|intros [[] _]].
  - destruct (is_na x) eqn:Hx; cbn [orb].
    + split; [exact IHn|]. intro v. rewrite IHi. split; [tauto|].
      intros [[<-|H] Hv]; [congruence|tauto].
    + destruct (existsb (cell_eqb x) (distinct_cells l)) eqn:He.
      * split; [exact IHn|]. intro v. rewrite IHi. split; [tauto|].
        intros [[<-|H] Hv]; [|tauto].
        apply existsb_exists in He as [y [Hy Ey]]. apply cell_eqb_eq in Ey. subst y.
        now apply IHi.
      * split.
        -- constructor; [|exact IHn]. intro Hin.
           assert (E : existsb (cell_eqb x) (distinct_cells l) = true).
           { apply existsb_exists. exists x. split; [exact Hin|]. now apply cell_eqb_eq. }
           congruence.
        -- intro v. cbn. rewrite IHi. split.
           ++ intros [<-|[H1 H2]]; tauto.
           ++ intros [[<-|H] Hv]; [now left|right; tauto].
Qed.

Lemma list_sum_perm (l l' : list nat) : Permutation l l' -> list_sum l = list_sum l'.
Proof. induction 1; unfold list_sum in *; cbn; lia. Qed.

Lemma count_one (x : cell) (u : list cell) :
  NoDup u -> In x u -> list_sum (map (fun v => if cell_eqb v x then 1 else 0)%nat u) = 1%nat.
Proof.
  induction 1 as [|y u Hy Hu IH]; intros Hin; [destruct Hin|]. cbn.
  destruct Hin as [<-|Hin].
  - assert (E : cell_eqb y y = true) by now apply cell_eqb_eq. rewrite E.
    assert (Z0 : forall w, In w u -> cell_eqb w y = false).
    { intros w Hw. destruct (cell_eqb w y) eqn:Ew; [|reflexivity].
      apply cell_eqb_eq in Ew. subst. contradiction. }
    clear IH Hu. induction u as [|w u IHu]; [reflexivity|]. cbn.
    rewrite Z0 by now left. apply IHu; [intro; apply Hy; now right|].
    intros; apply Z0; now right.
  - destruct (cell_eqb y x) eqn:Ey; [apply cell_eqb_eq in Ey; subst; contradiction|].
    cbn. now apply IH.
Qed.

Lemma sum_counts (u vals : list cell) :
  NoDup u -> (forall x, In x vals -> In x u) ->
  list_sum (map (fun v => length (filter (cell_eqb v) vals)) u) = length vals.
Proof.
  intros Hu. induction vals as [|x vals IH]; intro Hin.
  - cbn. clear Hu Hin. induction u; unfold list_sum in *; cbn in *; lia.
  - assert (E : map (fun v => length (filter (cell_eqb v) (x :: vals))) u
                = map (fun v => ((if cell_eqb v x then 1 else 0)
                                 + length (filter (cell_eqb v) vals))%nat) u).
    { apply map_ext. intro v. cbn. destruct (cell_eqb v x); reflexivity. }
    rewrite E. clear E.
    assert (Split : forall (f g : cell -> nat) (w : list cell),
               list_sum (map (fun v => (f v + g v)%nat) w)
               = (list_sum (map f w) + list_sum (map g w))%nat).
    { intros f g w. induction w; unfold list_sum in *; cbn in *; lia. }
    rewrite Split, count_one, IH; [cbn; lia| |exact Hu|apply Hin; now left].
    intros y Hy. apply Hin. now right.
Qed.

Lemma filter_na_count (v : cell) (l : list cell) :
  is_na v = false ->
  filter (cell_eqb v) (filter (fun w => negb (is_na w)) l) = filter (cell_eqb v) l.
Proof.
  intro Hv. induction l as [|x l IH]; [reflexivity|]. cbn.
  destruct (is_na x) eqn:Hx; cbn [negb filter].
  - destruct x; try discriminate. destruct v; try discriminate; exact IH.
  - destruct (cell_eqb v x); now rewrite IH.
Qed.

Lemma value_counts_spec (l : list cell) :
  NoDup (map fst (value_counts l))
  /\ (forall v n, In (v, n) (value_counts l) ->
        In v l /\ is_na v = false /\ n = length (filter (cell_eqb v) l))
  /\ (forall v, In v l -> is_na v = false -> In v (map fst (value_counts l)))
  /\ StronglySorted (fun a b => snd b <= snd a)%nat (value_counts l)
  /\ list_sum (map snd (value_counts l)) = count_valid l.
Proof.
  unfold value_counts, count_valid.
  set (vals := filter (fun v => negb (is_na v)) l).
  set (uniq := rev (distinct_cells (rev vals))).
  set (key := fun p : cell * nat => Some (Z.of_nat (snd p))).
  set (pairs := map (fun v => (v, length (filter (cell_eqb v) vals))) uniq).
  destruct (distinct_cells_spec (rev vals)) as [Hnd Hin].
  assert (Hu : NoDup uniq) by (apply NoDup_rev; exact Hnd).
  assert (Hui : forall v, In v uniq <-> In v vals /\ is_na v = false).
  { intro v. unfold uniq. rewrite <- in_rev, Hin, <- in_rev. tauto. }
  assert (Hvals : forall v, In v vals <-> In v l /\ is_na v = false).
  { intro v. unfold vals. rewrite filter_In. destruct (is_na v); cbn; intuition. }
  pose proof (sort_desc_perm key pairs) as Hp.
  assert (Hfst : map fst pairs = uniq).
  { unfold pairs. rewrite map_map. cbn. apply map_id. }
  split; [|split; [|split; [|split]]].
  - apply (Permutation_NoDup (Permutation_map fst (Permutation_sym Hp))). now rewrite Hfst.
  - intros v n H. apply (Permutation_in _ Hp) in H.
    unfold pairs in H. apply in_map_iff in H as [w [E Hw]]. injection E as -> <-.
    apply Hui in Hw as [Hw Hna]. apply Hvals in Hw as [Hw _].
    split; [exact Hw|]. split; [exact Hna|]. unfold vals. now rewrite filter_na_count.
  - intros v Hv Hna. apply (Permutation_in _ (Permutation_map fst (Permutation_sym Hp))). rewrite Hfst.
    apply Hui. split; [apply Hvals|]; tauto.
  - assert (Hs := sort_desc_sorted key pairs). clear -Hs.
    induction Hs as [|a l' Hl IH Ha]; constructor; [exact IH|].
    eapply Forall_impl; [|exact Ha]. intros b Hb. unfold ge_key, key, key_ge in Hb.
    apply Z.leb_le in Hb. lia.
  - rewrite (list_sum_perm _ _ (Permutation_map snd Hp)).
    unfold pairs. rewrite map_map. cbn.
    apply sum_counts; [exact Hu|]. intros x Hx. apply Hui. split; [exact Hx|].
    now apply Hvals.
Qed.

(** X17: the slices of [create_pie_chart] are the distinct non-missing
    values of the column, each with its number of occurrences; they add
    up to the column's count of non-missing values. *)
Theorem create_pie_chart_slices (t : table) (column title title' : string)
  (slices : list (cell * nat)) :
  create_pie_chart (Some t) column title = Pie title' slices ->
  title' = title
  /\ NoDup (map fst slices)
  /\ (forall v n, In (v, n) slices ->
        In v (column_values t column) /\ is_na v = false
        /\ n = length (filter (cell_eqb v) (column_values t column)))
  /\ (forall v, In v (column_values t column) -> is_na v = false -> In v (map fst slices))
  /\ list_sum (map snd slices) = count_valid (column_values t column).
Proof.
  unfold create_pie_chart. destruct (is_empty t || negb (has_column t column)); [discriminate|].
  intro H. injection H as <- <-.
  destruct (value_counts_spec (column_values t column)) as [H1 [H2 [H3 [_ H5]]]].
  auto.
Qed.

Lemma create_pie_chart_slices_witness :
  "Authors" = "Authors"
  /\ NoDup (map fst [(CStr "alice", 2%nat); (CStr "bob", 1%nat)])
  /\ (forall v n, In (v, n) [(CStr "alice", 2%nat); (CStr "bob", 1%nat)] ->
        In v (column_values sample_batch "author") /\ is_na v = false
        /\ n = length (filter (cell_eqb v) (column_values sample_batch "author")))
  /\ (forall v, In v (column_values sample_batch "author") -> is_na v = false ->
        In v (map fst [(CStr "alice", 2%nat); (CStr "bob", 1%nat)]))
  /\ list_sum (map snd [(CStr "alice", 2%nat); (CStr "bob", 1%nat)])
     = count_valid (column_values sample_batch "author").
Proof.
  apply (create_pie_chart_slices sample_batch "author" "Authors"). vm_compute. reflexivity.
Defined.

Lemma sorted_split_rel {A} (R : A -> A -> Prop) (l : list A) (n : nat) (x y : A) :
  StronglySorted R l -> In x (firstn n l) -> In y (skipn n l) -> R x y.
Proof.
  revert n. induction l as [|z l IH]; intros n Hs Hx Hy.
  - destruct n; destruct Hx.
  - inversion Hs as [|z' l' Hl Hz]; subst. destruct n as [|n]; [destruct Hx|].
    simpl in Hx, Hy. destruct Hx as [<-|Hx].
    + apply (proj1 (Forall_forall _ _) Hz). rewrite <- (firstn_skipn n l).
      apply in_or_app. now right.
    + exact (IH n Hl Hx Hy).
Qed.

Lemma sorted_firstn {A} (R : A -> A -> Prop) (l : list A) (n : nat) :
  StronglySorted R l -> StronglySorted R (firstn n l).
Proof.
  revert n. induction l as [|x l IH]; intros n Hs; [destruct n; constructor|].
  destruct n as [|n]; [constructor|]. inversion Hs as [|? ? Hl Hx]; subst. cbn.
  constructor; [now apply IH|]. apply Forall_forall. intros y Hy.
  apply (proj1 (Forall_forall _ _) Hx). exact (in_firstn_in _ _ _ Hy).
Qed.

(** X18: [create_author_chart df n] shows at most [n] distinct authors
    with their post counts, in decreasing order of count, and no author
    left out has more posts than a shown one. *)
Theorem create_author_chart_bars (t : table) (n n' : nat) (bars : list (cell * nat)) :
  create_author_chart (Some t) n = Ret (AuthorBar n' bars) ->
  n' = n
  /\ (length bars <= n)%nat
  /\ NoDup (map fst bars)
  /\ (forall a k, In (a, k) bars ->
        In a (column_values t "author") /\ is_na a = false
        /\ k = length (filter (cell_eqb a) (column_values t "author")))
  /\ StronglySorted (fun a b => snd b <= snd a)%nat bars
  /\ (forall a, In a (column_values t "author") -> is_na a = false ->
        ~ In a (map fst bars) ->
        forall b k, In (b, k) bars -> (length (filter (cell_eqb a) (column_values t "author")) <= k)%nat).
Proof.
  unfold create_author_chart.
  destruct (is_empty t || negb (has_column t "author")); [discriminate|].
  intro H. injection H as <- <-.
  set (vc := value_counts (column_values t "author")).
  destruct (value_counts_spec (column_values t "author")) as [H1 [H2 [H3 [H4 _]]]].
  fold vc in H1, H2, H3, H4.
  split; [reflexivity|].
  split; [apply firstn_le_length|].
  split.
  { rewrite <- firstn_map. rewrite <- (firstn_skipn n (map fst vc)) in H1.
    now apply NoDup_app_remove_r in H1. }
  split; [intros a k Hin; apply H2; exact (in_firstn_in _ _ _ Hin)|].
  split; [now apply sorted_firstn|].
  intros a Ha Hna Hnot b k Hb.
  apply H3 in Ha; [|exact Hna]. apply in_map_iff in Ha as [[a' ka] [Ea Hina]].
  cbn in Ea. subst a'.
  destruct (H2 a ka Hina) as [_ [_ Eka]]. rewrite <- Eka.
  rewrite <- (firstn_skipn n vc) in Hina. apply in_app_or in Hina as [Hina|Hina].
  - exfalso. apply Hnot. apply in_map_iff. exists (a, ka). auto.
  - exact (sorted_split_rel _ vc n (b, k) (a, ka) H4 Hb Hina).
Qed.

Lemma create_author_chart_bars_witness :
  (1 = 1)%nat /\ (length [(CStr "alice", 2%nat)] <= 1)%nat
  /\ NoDup (map fst [(CStr "alice", 2%nat)])
  /\ (forall a k, In (a, k) [(CStr "alice", 2%nat)] ->
        In a (column_values loaded_batch "author") /\ is_na a = false
        /\ k = length (filter (cell_eqb a) (column_values loaded_batch "author")))
  /\ StronglySorted (fun a b => snd b <= snd a)%nat [(CStr "alice", 2%nat)]
  /\ (forall a, In a (column_values loaded_batch "author") -> is_na a = false ->
        ~ In a (map fst [(CStr "alice", 2%nat)]) ->
        forall b k, In (b, k) [(CStr "alice", 2%nat)] ->
        (length (filter (cell_eqb a) (column_values loaded_batch "author")) <= k)%nat).
Proof.
  apply (create_author_chart_bars loaded_batch 1 1). vm_compute. reflexivity.
Defined.

Lemma list_sum_split {A} (f g : A -> nat) (w : list A) :
  list_sum (map (fun v => (f v + g v)%nat) w) = (list_sum (map f w) + list_sum (map g w))%nat.
Proof. induction w; unfold list_sum in *; cbn in *; lia. Qed.

Lemma sum_indicator {K} (eqb : K -> K -> bool) (Heq : forall a b, eqb a b = true <-> a = b)
  (k0 : K) (ks : list K) :
  NoDup ks -> In k0 ks -> list_sum (map (fun k => if eqb k0 k then 1 else 0)%nat ks) = 1%nat.
Proof.
  induction 1 as [|y u Hy Hu IH]; intros Hin; [destruct Hin|]. cbn.
  destruct Hin as [->|Hin].
  - assert (E : eqb k0 k0 = true) by now apply Heq. rewrite E.
    assert (Z0 : forall w, In w u -> eqb k0 w = false).
    { intros w Hw. destruct (eqb k0 w) eqn:Ew; [|reflexivity].
      apply Heq in Ew. subst. contradiction. }
    clear IH Hu. induction u as [|w u IHu]; [reflexivity|]. cbn.
    rewrite Z0 by now left. apply IHu; [intro; apply Hy; now right|].
    intros; apply Z0; now right.
  - destruct (eqb k0 y) eqn:Ey; [apply Heq in Ey; subst; contradiction|].
    cbn. now apply IH.
Qed.

Lemma sum_partition {A K} (eqb : K -> K -> bool) (Heq : forall a b, eqb a b = true <-> a = b)
  (f : A -> K) (ks : list K) (l : list A) :
  NoDup ks -> (forall x, In x l -> In (f x) ks) ->
  list_sum (map (fun k => length (filter (fun x => eqb (f x) k) l)) ks) = length l.
Proof.
  intros Hk. induction l as [|x l IH]; intro Hin.
  - cbn. clear Hk Hin. induction ks; unfold list_sum in *; cbn in *; lia.
  - assert (E : map (fun k => length (filter (fun y => eqb (f y) k) (x :: l))) ks
                = map (fun k => ((if eqb (f x) k then 1 else 0)
                                 + length (filter (fun y => eqb (f y) k) l))%nat) ks).
    { apply map_ext. intro k. cbn. destruct (eqb (f x) k); reflexivity. }
    rewrite E, list_sum_split, (sum_indicator eqb Heq), IH; [cbn; lia| |exact Hk|].
    + intros y Hy. apply Hin. now right.
    + apply Hin. now left.
Qed.

Lemma sorted_lt_nodup (l : list Z) : StronglySorted Z.lt l -> NoDup l.
Proof.
  induction 1 as [|a l Hl IH Ha]; constructor; [|exact IH].
  intro Hin. apply (proj1 (Forall_forall _ _) Ha) in Hin. lia.
Qed.

Lemma day_name_in (x : Z) : In (day_name x) days_order.
Proof.
  unfold day_name. apply nth_In. unfold days_order. cbn [length].
  assert (0 <= (date_of x + 3) mod 7 < 7) by (apply Z.mod_pos_bound; lia). lia.
Qed.

(** X19: the cells of the activity heatmap add up to the number of posts
    with a timestamp. *)
Theorem create_heatmap_total (parse : string -> option Z) (t t' : table)
  (ds : list string) (hs : list Z) (z : list (list nat)) :
  to_datetime_column parse t "created_utc" = Ret t' ->
  create_heatmap parse (Some t) = Ret (Heatmap ds hs z) ->
  list_sum (map list_sum z) = length (stamps_of t').
Proof.
  intros Hc. unfold create_heatmap.
  destruct (is_empty t || negb (has_column t "created_utc")); [discriminate|].
  rewrite Hc. cbn [bind]. intro H. injection H as <- <- <-.
  set (stamps := stamps_of t').
  set (hours := sort_uniq (map hour_of stamps)).
  set (days := filter (fun d => existsb (fun x => String.eqb (day_name x) d) stamps) days_order).
  assert (Hh : NoDup hours) by (apply sorted_lt_nodup, sort_uniq_sorted).
  assert (Hd : NoDup days).
  { apply NoDup_filter. unfold days_order. repeat constructor; cbn; intuition discriminate. }
  rewrite map_map.
  assert (Inner : forall d, list_sum (map (heatmap_count stamps d) hours)
                            = length (filter (fun x => String.eqb (day_name x) d) stamps)).
  { intro d. unfold heatmap_count.
    rewrite <- (sum_partition Z.eqb Z.eqb_eq hour_of hours
                  (filter (fun x => String.eqb (day_name x) d) stamps) Hh).
    - f_equal. apply map_ext. intro h. rewrite filter_filter_and. reflexivity.
    - intros x Hx. apply filter_In in Hx as [Hx _]. unfold hours.
      apply in_sort_uniq. now apply in_map. }
  rewrite (map_ext _ _ Inner).
  apply (sum_partition String.eqb String.eqb_eq day_name days stamps Hd).
  intros x Hx. unfold days. apply filter_In. split; [apply day_name_in|].
  apply existsb_exists. exists x. split; [exact Hx|]. apply String.eqb_refl.
Qed.

Lemma create_heatmap_total_witness :
  exists t', to_datetime_column iso_parser sample_batch "created_utc" = Ret t'
    /\ list_sum (map list_sum [[0%nat; 1%nat; 0%nat]; [1%nat; 0%nat; 1%nat]]) = length (stamps_of t').
Proof.
  destruct (to_datetime_column iso_parser sample_batch "created_utc") as [t'|ex] eqn:E;
    [|vm_compute in E; discriminate E].
  exists t'. split; [reflexivity|].
  apply (create_heatmap_total iso_parser sample_batch t' ["Monday"; "Tuesday"] [9; 13; 18]
           [[0%nat; 1%nat; 0%nat]; [1%nat; 0%nat; 1%nat]] E).
  vm_compute. reflexivity.
Defined.

Lemma map_result_map {A B C} (f : A -> result B) (h : B -> C) (k : A -> C) (l : list A) (l' : list B) :
  (forall x y, f x = Ret y -> h y = k x) -> map_result f l = Ret l' -> map h l' = map k l.
Proof.
  intro Hf. revert l'. induction l as [|x l IH]; intros l' H; cbn in H.
  - now injection H as <-.
  - destruct (f x) as [y|] eqn:Ey; cbn [bind] in H; [|discriminate].
    destruct (map_result f l) as [ys|] eqn:Eys; cbn [bind] in H; [|discriminate].
    injection H as <-. cbn. rewrite (Hf x y Ey). f_equal. now apply IH.
Qed.

Lemma length_filter_map {A B} (p : B -> bool) (h : A -> B) (l : list A) :
  length (filter p (map h l)) = length (filter (fun x => p (h x)) l).
Proof. induction l as [|x l IH]; cbn; [reflexivity|]. destruct (p (h x)); cbn; now rewrite IH. Qed.

Lemma filter_comm {A} (f g : A -> bool) (l : list A) :
  filter f (filter g l) = filter g (filter f l).
Proof. rewrite !filter_filter_and. apply filter_ext. intro; apply andb_comm. Qed.

Lemma map_result_exists {A B} (f : A -> result B) (l : list A) :
  (forall x, In x l -> exists y, f x = Ret y) -> exists ys, map_result f l = Ret ys.
Proof.
  induction l as [|x l IH]; intro H; [now exists []|].
  destruct (H x (or_introl eq_refl)) as [y Hy].
  destruct IH as [ys Hys]; [intros z Hz; apply H; now right|].
  exists (y :: ys). cbn. rewrite Hy. cbn [bind]. rewrite Hys. reflexivity.
Qed.

Lemma dated_rows_dates (conv orig : table) :
  len conv = len orig ->
  map fst (dated_rows conv orig) = map date_of (stamps_of conv).
Proof.
  unfold dated_rows, stamps_of, timestamps, len.
  generalize (rows orig) as os. induction (rows conv) as [|r' rs IH]; intros os Hl.
  - reflexivity.
  - destruct os as [|r os]; [discriminate Hl|]. cbn [combine flat_map].
    rewrite !map_app. rewrite (IH os) by (cbn in Hl; lia).
    destruct (get_cell r' "created_utc"); reflexivity.
Qed.

Lemma dated_rows_in (conv orig : table) (d : Z) (r : row) :
  In (d, r) (dated_rows conv orig) -> In r (rows orig).
Proof.
  unfold dated_rows. rewrite in_flat_map. intros [[r' r0] [Hin H]].
  destruct (get_cell r' "created_utc"); cbn in H; try contradiction.
  destruct H as [E|[]]. injection E as _ ->. exact (in_combine_r _ _ _ _ Hin).
Qed.

(** X20: on a non-empty table with [created_utc], [id] and a numeric
    metric column (not [id] and not [date]), whose timestamps convert, the
    time series is returned; it has one point per calendar day that has
    posts, in increasing date order; each point carries the sum of the
    metric and the number of post ids of that day, and the counts add up
    to the number of timestamped posts with an id. *)
Theorem create_time_series_points (parse : string -> option Z) (t t' : table) (metric : string) :
  to_datetime_column parse t "created_utc" = Ret t' ->
  is_empty t = false -> has_column t "created_utc" = true ->
  has_column t metric = true -> has_column t "id" = true ->
  metric <> "id" -> metric <> "date" ->
  forallb numeric_cell (column_values t metric) = true ->
  exists points,
    create_time_series_chart parse (Some t) metric = Ret (TimeSeries metric points)
    /\ StronglySorted Z.lt (map (fun p => fst (fst p)) points)
    /\ (forall d, In d (map (fun p => fst (fst p)) points) <->
                  exists x, In x (stamps_of t') /\ date_of x = d)
    /\ (forall d s c, In (d, s, c) points ->
          sum_cells (map (fun r => get_cell r metric) (posts_on t' t d)) = Ret s
          /\ c = count_valid (map (fun r => get_cell r "id") (posts_on t' t d)))
    /\ list_sum (map snd points)
       = count_valid (map (fun p => get_cell (snd p) "id") (dated_rows t' t)).
Proof.
  intros Hc Hne Hcu Hm Hid Hmid _ Hnum. unfold create_time_series_chart.
  rewrite Hne, Hcu. cbn [orb negb]. rewrite Hc. cbn [bind].
  unfold require_column. rewrite Hm, Hid. cbn [bind].
  apply String.eqb_neq in Hmid. rewrite Hmid.
  set (f := fun d => s <- sum_cells (map (fun r => get_cell r metric) (posts_on t' t d)) ;;
                     Ret (d, s, count_valid (map (fun r => get_cell r "id") (posts_on t' t d)))).
  change (map_result (fun d => _) _) with (map_result f (sort_uniq (map fst (dated_rows t' t)))).
  destruct (map_result_exists f (sort_uniq (map fst (dated_rows t' t)))) as [ps Ep].
  { intros d _. unfold f.
    destruct (sum_cells_ret (map (fun r => get_cell r metric) (posts_on t' t d))) as [z Hz].
    - apply forallb_forall. intros v Hv. apply in_map_iff in Hv as [r [<- Hr]].
      unfold posts_on in Hr. apply in_map_iff in Hr as [[d' r0] [Er Hr]]. cbn in Er. subst r0.
      apply filter_In in Hr as [Hr _]. apply dated_rows_in in Hr.
      apply (proj1 (forallb_forall _ _) Hnum). unfold column_values.
      now apply (in_map (fun r => get_cell r metric)).
    - rewrite Hz. cbn [bind]. eauto. }
  rewrite Ep. cbn [bind]. exists ps. split; [reflexivity|].
  assert (Hf : forall d y, f d = Ret y ->
                 exists s, y = (d, s, count_valid (map (fun r => get_cell r "id") (posts_on t' t d)))
                 /\ sum_cells (map (fun r => get_cell r metric) (posts_on t' t d)) = Ret s).
  { intros d y E. unfold f in E.
    destruct (sum_cells _) as [s|]; cbn [bind] in E; [|discriminate].
    injection E as <-. eauto. }
  assert (Hkeys : map (fun p => fst (fst p)) ps = sort_uniq (map fst (dated_rows t' t))).
  { rewrite <- (map_id (sort_uniq _)). apply (map_result_map f); [|exact Ep].
    intros d y E. destruct (Hf d y E) as [s [-> _]]. reflexivity. }
  assert (Hdates : map fst (dated_rows t' t) = map date_of (stamps_of t'))
    by exact (dated_rows_dates t' t (to_datetime_column_length _ _ _ _ Hc)).
  split; [rewrite Hkeys; apply sort_uniq_sorted|].
  split.
  { intro d. rewrite Hkeys, in_sort_uniq, Hdates, in_map_iff.
    split; intros [x [H1 H2]]; exists x; auto. }
  split.
  { intros d s c Hin. destruct (map_result_in f _ _ Ep) as [Hback _].
    destruct (Hback _ Hin) as [d' [_ E]]. destruct (Hf d' _ E) as [s' [E1 E2]].
    injection E1 as -> -> ->. split; [exact E2|reflexivity]. }
  rewrite (map_result_map f snd (fun d => count_valid (map (fun r => get_cell r "id") (posts_on t' t d)))
             _ _ ltac:(intros d y E; destruct (Hf d y E) as [s [-> _]]; reflexivity) Ep).
  set (L := filter (fun p => negb (is_na (get_cell (snd p) "id"))) (dated_rows t' t)).
  transitivity (length L).
  - rewrite <- (sum_partition Z.eqb Z.eqb_eq fst (sort_uniq (map fst (dated_rows t' t))) L).
    + f_equal. apply map_ext. intro d. unfold count_valid, posts_on, L.
      rewrite map_map, length_filter_map, filter_comm. reflexivity.
    + apply sorted_lt_nodup, sort_uniq_sorted.
    + intros x Hx. apply in_sort_uniq, in_map. unfold L in Hx. now apply filter_In in Hx.
  - unfold L, count_valid. rewrite length_filter_map. reflexivity.
Qed.

Lemma create_time_series_points_witness :
  exists t' points, to_datetime_column iso_parser sample_batch "created_utc" = Ret t'
    /\ create_time_series_chart iso_parser (Some sample_batch) "score"
       = Ret (TimeSeries "score" points)
    /\ list_sum (map snd points)
       = count_valid (map (fun p => get_cell (snd p) "id") (dated_rows t' sample_batch)).
Proof.
  destruct (to_datetime_column iso_parser sample_batch "created_utc") as [t'|ex] eqn:E;
    [|vm_compute in E; discriminate E].
  destruct (create_time_series_points iso_parser sample_batch t' "score" E
              eq_refl eq_refl eq_refl eq_refl ltac:(discriminate) ltac:(discriminate)
              ltac:(vm_compute; reflexivity))
    as [points [Hch [_ [_ [_ Hc]]]]].
  exists t', points. split; [reflexivity|]. split; [exact Hch|exact Hc].
Defined.

Lemma bind_ret_inv {A B} (c : result A) (k : A -> result B) (y : B) :
  bind c k = Ret y -> exists x, c = Ret x /\ k x = Ret y.
Proof. destruct c; cbn; [eauto|discriminate]. Qed.

Lemma distinct_cells_length (l : list cell) : (length (distinct_cells l) <= length l)%nat.
Proof.
  induction l as [|x l IH]; cbn; [lia|].
  destruct (is_na x || existsb (cell_eqb x) (distinct_cells l)); cbn; lia.
Qed.

Lemma get_data_summary_ret (t : table) :
  is_empty t = false ->
  forallb numeric_cell (column_values t "score") = true ->
  forallb numeric_cell (column_values t "num_comments") = true ->
  forallb numeric_cell (column_values t "over_18") = true ->
  forallb numeric_cell (column_values t "edited") = true ->
  forallb time_cell (column_values t "created_utc") = true ->
  exists s, get_data_summary (Some t) = Ret (summary_of s).
Proof.
  intros Hne Hs Hc Ho He Ht. unfold get_data_summary. rewrite Hne.
  assert (Hst : exists x, if_column t "created_utc"
                            (fun l => v <- extreme_cells Lt l ;; Ret (Some v)) None = Ret x).
  { apply if_column_ret. destruct (extreme_cells_ret Lt _ Ht) as [v [-> _]]. simpl. eauto. }
  assert (Hen : exists x, if_column t "created_utc"
                            (fun l => v <- extreme_cells Gt l ;; Ret (Some v)) None = Ret x).
  { apply if_column_ret. destruct (extreme_cells_ret Gt _ Ht) as [v [-> _]]. simpl. eauto. }
  destruct Hst as [st ->], Hen as [en ->]. simpl.
  destruct (if_column_ret t "score" sum_cells 0%Z (sum_cells_ret _ Hs)) as [ts ->].
  destruct (if_column_ret t "num_comments" sum_cells 0%Z (sum_cells_ret _ Hc)) as [tc ->].
  destruct (if_column_ret t "score" mean_cells (Some 0%Q) (mean_cells_ret _ Hs)) as [avs ->].
  destruct (if_column_ret t "num_comments" mean_cells (Some 0%Q) (mean_cells_ret _ Hc))
    as [avc ->].
  destruct (if_column_ret t "author" (fun l => Ret (nunique l)) 0%nat (ex_intro _ _ eq_refl))
    as [ua ->].
  destruct (if_column_ret t "over_18" sum_cells 0%Z (sum_cells_ret _ Ho)) as [ns ->].
  destruct (if_column_ret t "edited" sum_cells 0%Z (sum_cells_ret _ He)) as [ed ->].
  simpl. eexists. reflexivity.
Qed.

Lemma get_data_summary_props (t : table) (s : summary_record) :
  get_data_summary (Some t) = Ret (summary_of s) ->
  (unique_authors s <= total_posts s)%nat
  /\ (has_column t "created_utc" = false -> date_start s = None /\ date_end s = None)
  /\ (has_column t "created_utc" = true ->
      forallb time_cell (column_values t "created_utc") = true ->
      (date_start s = Some CNA /\ date_end s = Some CNA
       /\ forall r, In r (rows t) -> get_cell r "created_utc" = CNA)
      \/ exists a b, date_start s = Some (CTime a) /\ date_end s = Some (CTime b) /\ a <= b
                     /\ (forall r u, In r (rows t) -> get_cell r "created_utc" = CTime u ->
                                     a <= u <= b)).
Proof.
  unfold get_data_summary. destruct (is_empty t); [discriminate|].
  intro H.
  apply bind_ret_inv in H as [st [Hst H]].
  apply bind_ret_inv in H as [en [Hen H]].
  apply bind_ret_inv in H as [ts [_ H]].
  apply bind_ret_inv in H as [tc [_ H]].
  apply bind_ret_inv in H as [avs [_ H]].
  apply bind_ret_inv in H as [avc [_ H]].
  apply bind_ret_inv in H as [ua [Hua H]].
  apply bind_ret_inv in H as [ns [_ H]].
  apply bind_ret_inv in H as [ed [_ H]].
  cbn in H. injection H as <-. cbn [unique_authors total_posts date_start date_end].
  split; [|split].
  - unfold if_column in Hua. unfold len.
    destruct (has_column t "author"); cbn in Hua; injection Hua as <-; [|lia].
    unfold nunique, column_values. rewrite <- (length_map (fun r => get_cell r "author") (rows t)).
    apply distinct_cells_length.
  - intro Hc. unfold if_column in Hst, Hen. rewrite Hc in Hst, Hen.
    injection Hst as <-. injection Hen as <-. split; reflexivity.
  - intros Hc Hall. unfold if_column in Hst, Hen. rewrite Hc in Hst, Hen.
    assert (Ht : forall v, In v (column_values t "created_utc") -> is_time_or_na v).
    { intros v Hv. rewrite forallb_forall in Hall. specialize (Hall v Hv).
      unfold is_time_or_na. destruct v; cbn in Hall; try discriminate; eauto. }
    apply bind_ret_inv in Hst as [vs [Evs Hst]]. injection Hst as <-.
    apply bind_ret_inv in Hen as [ve [Eve Hen]]. injection Hen as <-.
    destruct (extreme_times Lt _ Ht (or_intror eq_refl)) as [[E1 N1]|[a [E1 [I1 B1]]]];
    destruct (extreme_times Gt _ Ht (or_introl eq_refl)) as [[E2 N2]|[b [E2 [I2 B2]]]];
    rewrite Evs in E1; rewrite Eve in E2; injection E1 as ->; injection E2 as ->.
    + left. split; [reflexivity|]. split; [reflexivity|].
      intros r Hr. apply N1. unfold column_values. now apply (in_map (fun r => get_cell r "created_utc")).
    + exfalso. specialize (N1 _ I2). discriminate.
    + exfalso. specialize (N2 _ I1). discriminate.
    + right. exists a, b. split; [reflexivity|]. split; [reflexivity|]. split.
      * apply (proj2 (B1 b I2)). reflexivity.
      * intros r u Hr Hu.
        assert (Iu : In (CTime u) (column_values t "created_utc")).
        { rewrite <- Hu. unfold column_values. now apply (in_map (fun r => get_cell r "created_utc")). }
        split; [apply (proj2 (B1 u Iu)) | apply (proj1 (B2 u Iu))]; reflexivity.
Qed.

(** X21: on a non-empty table whose [score], [num_comments], [over_18]
    and [edited] columns are numeric or boolean and whose [created_utc]
    column holds timestamps or NaT, [get_data_summary] returns a summary;
    it never counts more unique authors than posts, has no date range
    without a [created_utc] column, and, with one, has a first date no
    later than its last with every timestamp between them (or NaT for
    both when all are missing). *)
Theorem get_data_summary_consistent (t : table) :
  is_empty t = false ->
  forallb numeric_cell (column_values t "score") = true ->
  forallb numeric_cell (column_values t "num_comments") = true ->
  forallb numeric_cell (column_values t "over_18") = true ->
  forallb numeric_cell (column_values t "edited") = true ->
  forallb time_cell (column_values t "created_utc") = true ->
  exists s, get_data_summary (Some t) = Ret (summary_of s)
  /\ (unique_authors s <= total_posts s)%nat
  /\ (has_column t "created_utc" = false -> date_start s = None /\ date_end s = None)
  /\ (has_column t "created_utc" = true ->
      (date_start s = Some CNA /\ date_end s = Some CNA
       /\ forall r, In r (rows t) -> get_cell r "created_utc" = CNA)
      \/ exists a b, date_start s = Some (CTime a) /\ date_end s = Some (CTime b) /\ a <= b
                     /\ (forall r u, In r (rows t) -> get_cell r "created_utc" = CTime u ->
                                     a <= u <= b)).
Proof.
  intros Hne Hs Hc Ho He Ht.
  destruct (get_data_summary_ret t Hne Hs Hc Ho He Ht) as [s E].
  destruct (get_data_summary_props t s E) as [H1 [H2 H3]].
  exists s. split; [exact E|]. split; [exact H1|]. split; [exact H2|].
  intro Hcol. exact (H3 Hcol Ht).
Qed.

Lemma get_data_summary_consistent_witness :
  exists s, get_data_summary (Some loaded_batch) = Ret (summary_of s)
    /\ (unique_authors s <= total_posts s)%nat
    /\ exists a b, date_start s = Some (CTime a) /\ date_end s = Some (CTime b) /\ a <= b.
Proof.
  destruct (get_data_summary_consistent loaded_batch ltac:(vm_compute; reflexivity)
              ltac:(vm_compute; reflexivity) ltac:(vm_compute; reflexivity)
              ltac:(vm_compute; reflexivity) ltac:(vm_compute; reflexivity)
              ltac:(vm_compute; reflexivity))
    as [s [E [Hu [_ Hd]]]].
  exists s. split; [exact E|]. split; [exact Hu|].
  destruct (Hd ltac:(vm_compute; reflexivity)) as [[Hs _]|[a [b [Ha [Hb [Hab _]]]]]].
  - exfalso. vm_compute in E. injection E as <-. vm_compute in Hs. discriminate Hs.
  - exists a, b. auto.
Defined.

Lemma update_cell_other (f : cell -> result cell) (c c' : string) (r r' : row) :
  update_cell f c r = Ret r' -> c' <> c -> get_cell r' c' = get_cell r c'.
Proof.
  unfold update_cell, get_cell. intros H Hne. revert r' H.
  induction r as [|[k v] r IH]; intros r' H; cbn in H.
  - now injection H as <-.
  - destruct (String.eqb k c) eqn:Ekc.
    + destruct (f v) as [v'|]; cbn in H; [|discriminate].
      destruct (map_result _ r) as [rs|] eqn:E; cbn in H; [|discriminate].
      injection H as <-. cbn. apply String.eqb_eq in Ekc. subst k.
      destruct (String.eqb c' c) eqn:E'; [apply String.eqb_eq in E'; contradiction|].
      exact (IH rs eq_refl).
    + destruct (map_result _ r) as [rs|] eqn:E; cbn in H; [|discriminate].
      injection H as <-. cbn. destruct (String.eqb c' k); [reflexivity|].
      exact (IH rs eq_refl).
Qed.

Lemma update_cell_same (parse : string -> option Z) (c : string) (r r' : row) :
  update_cell (to_datetime_cell parse) c r = Ret r' -> is_time_or_na (get_cell r' c).
Proof.
  unfold update_cell, get_cell. revert r'.
  induction r as [|[k v] r IH]; intros r' H; cbn in H.
  - injection H as <-. now left.
  - destruct (String.eqb k c) eqn:Ekc.
    + destruct (to_datetime_cell parse v) as [v'|] eqn:Ev; cbn in H; [|discriminate].
      destruct (map_result _ r) as [rs|] eqn:E; cbn in H; [|discriminate].
      injection H as <-. cbn. apply String.eqb_eq in Ekc. subst k.
      rewrite String.eqb_refl. exact (to_datetime_cell_time parse v v' Ev).
    + destruct (map_result _ r) as [rs|] eqn:E; cbn in H; [|discriminate].
      injection H as <-. cbn. destruct (String.eqb c k) eqn:Eck.
      * apply String.eqb_eq in Eck. subst. now rewrite String.eqb_refl in Ekc.
      * exact (IH rs eq_refl).
Qed.

Lemma drop_duplicates_last_incl (c : string) (rs : list row) (r : row) :
  In r (drop_duplicates_last c rs) -> In r rs.
Proof.
  induction rs as [|x rs IH]; cbn; [tauto|].
  destruct (existsb _ rs); [intro; right; auto|intros [<-|H]; [now left|right; auto]].
Qed.

Lemma drop_duplicates_last_keys (c : string) (rs : list row) :
  NoDup (map (fun r => get_cell r c) (drop_duplicates_last c rs)).
Proof.
  induction rs as [|x rs IH]; cbn; [constructor|].
  destruct (existsb _ rs) eqn:Ex; [exact IH|].
  cbn. constructor; [|exact IH].
  intro Hin. apply in_map_iff in Hin as [y [Hy Hiny]].
  apply drop_duplicates_last_incl in Hiny.
  assert (Hf : existsb (fun r' => cell_eqb (get_cell x c) (get_cell r' c)) rs = true).
  { apply existsb_exists. exists y. split; [exact Hiny|]. apply cell_eqb_eq. now rewrite Hy. }
  congruence.
Qed.

Lemma columns_concat_dedup (dfs : list table) :
  columns (concat_dedup dfs) = columns (concat_tables dfs).
Proof. unfold concat_dedup. now destruct (has_column (concat_tables dfs) "id"). Qed.

Lemma concat_dedup_ids (dfs : list table) :
  has_column (concat_dedup dfs) "id" = true -> NoDup (column_values (concat_dedup dfs) "id").
Proof.
  unfold has_column. rewrite columns_concat_dedup. fold (has_column (concat_tables dfs) "id").
  intro H. unfold concat_dedup. rewrite H. apply drop_duplicates_last_keys.
Qed.

Lemma to_datetime_column_columns (parse : string -> option Z) (t t' : table) (c : string) :
  to_datetime_column parse t c = Ret t' -> columns t' = columns t.
Proof.
  unfold to_datetime_column. destruct (map_result _ _); cbn; [|discriminate].
  now intros [= <-].
Qed.

Lemma to_datetime_column_other (parse : string -> option Z) (t t' : table) (c c' : string) :
  to_datetime_column parse t c = Ret t' -> c' <> c ->
  column_values t' c' = column_values t c'.
Proof.
  unfold to_datetime_column, column_values.
  destruct (map_result _ _) as [rs|] eqn:E; cbn; [|discriminate].
  intros [= <-] Hne. cbn. apply (map_result_map _ _ _ _ _ (fun r r' H => update_cell_other _ _ _ _ _ H Hne) E).
Qed.

Lemma to_datetime_column_same (parse : string -> option Z) (t t' : table) (c : string) :
  to_datetime_column parse t c = Ret t' ->
  forall r, In r (rows t') -> is_time_or_na (get_cell r c).
Proof.
  unfold to_datetime_column.
  destruct (map_result _ _) as [rs|] eqn:E; cbn; [|discriminate].
  intros [= <-] r Hr. cbn in Hr.
  destruct (proj1 (map_result_in _ _ _ E) r Hr) as [a [_ Ha]].
  exact (update_cell_same _ _ _ _ Ha).
Qed.

Lemma nodup_map_perm {A B} (f : A -> B) (l l' : list A) :
  Permutation l l' -> NoDup (map f l') -> NoDup (map f l).
Proof.
  intros P H. apply (Permutation_NoDup (l := map f l')); [|exact H].
  apply Permutation_map. now symmetry.
Qed.

Lemma combine_csvs_invariants (parse : string -> option Z) (dfs : list table) (df : table) :
  combine_csvs parse dfs = Ret df ->
  columns df = columns (concat_tables dfs)
  /\ (has_column df "id" = true -> NoDup (column_values df "id"))
  /\ (has_column df "created_utc" = true ->
      (forall r, In r (rows df) -> is_time_or_na (get_cell r "created_utc"))
      /\ StronglySorted (ge_key (time_key "created_utc")) (rows df)).
Proof.
  unfold combine_csvs. rewrite <- columns_concat_dedup.
  destruct (has_column (concat_dedup dfs) "created_utc") eqn:Hc.
  - destruct (to_datetime_column parse _ _) as [t'|] eqn:E; cbn [bind]; [|discriminate].
    pose proof (to_datetime_column_columns _ _ _ _ E) as Hcol.
    assert (Hc' : has_column t' "created_utc" = true) by (unfold has_column in *; now rewrite Hcol).
    rewrite Hc'. intros [= <-]. unfold sort_values_desc. cbn [columns rows].
    split; [exact Hcol|]. split.
    + intro Hi. unfold column_values. cbn [rows].
      apply (nodup_map_perm _ _ _ (sort_desc_perm _ _)).
      fold (column_values t' "id").
      rewrite (to_datetime_column_other _ _ _ _ _ E); [|discriminate].
      apply concat_dedup_ids. unfold has_column in *. cbn [columns] in Hi. now rewrite <- Hcol.
    + intros _. split.
      * intros r Hr. apply (Permutation_in _ (sort_desc_perm _ _)) in Hr.
        exact (to_datetime_column_same _ _ _ _ E r Hr).
      * apply sort_desc_sorted.
  - cbn [bind]. rewrite Hc. intros [= <-]. split; [reflexivity|].
    split; [apply concat_dedup_ids|]. intro H; congruence.
Qed.

Lemma dict_get_cp_get (p : config_parser) (s : string) (ks : list string) (d : str_dict) (k v : string) :
  get_all p s ks = Ret d -> dict_get d k = Ret v -> cp_get p s k = Ret v.
Proof.
  intros Hd Hk. unfold dict_get in Hk. destruct (assoc k d) eqn:E; [|discriminate].
  injection Hk as <-. apply assoc_in in E. exact (proj2 (get_all_inv _ _ _ _ Hd) _ _ E).
Qed.

(** X23: a table [load_from_redshift] returns comes from the query on the
    connection built from the [aws_config] section, in which all nine
    keys are present. *)
Theorem load_from_redshift_uses_config (e : env) (tn : string) (df : table) :
  load_from_redshift e tn = Ret (Some df) ->
  exists p db u pw h pt,
    settings e = Some p /\ has_section p "aws_config" = true
    /\ (forall k, In k aws_keys -> exists v, cp_get p "aws_config" k = Ret v)
    /\ cp_get p "aws_config" "redshift_database" = Ret db
    /\ cp_get p "aws_config" "redshift_username" = Ret u
    /\ cp_get p "aws_config" "redshift_password" = Ret pw
    /\ cp_get p "aws_config" "redshift_hostname" = Ret h
    /\ cp_get p "aws_config" "redshift_port" = Ret pt
    /\ redshift e (mk_conn db u pw h pt) tn = Ret df.
Proof.
  unfold load_from_redshift. destruct (load_from_redshift_body e tn) as [o|] eqn:B; cbn [try_except]; [|discriminate].
  intros [= ->]. unfold load_from_redshift_body in B.
  apply bind_ret_inv in B as [cfg [Hcfg B]].
  unfold get_aws_config in Hcfg. destruct (settings e) as [p|] eqn:Hs; cbn [read_config bind] in Hcfg; [|discriminate].
  destruct (has_section p "aws_config") eqn:Hsec; cbn [negb] in Hcfg.
  2:{ injection Hcfg as <-. cbn in B. discriminate. }
  apply bind_ret_inv in B as [db [Hdb B]].
  apply bind_ret_inv in B as [u [Hu B]].
  apply bind_ret_inv in B as [pw [Hpw B]].
  apply bind_ret_inv in B as [h [Hh B]].
  apply bind_ret_inv in B as [pt [Hpt B]].
  apply bind_ret_inv in B as [df' [Hdf B]].
  injection B as ->.
  exists p, db, u, pw, h, pt.
  split; [reflexivity|]. split; [exact Hsec|]. split.
  { intros k Hk. destruct (get_all_inv _ _ _ _ Hcfg) as [Hf Hv].
    rewrite <- Hf in Hk. apply in_map_iff in Hk as [[k' v] [<- Hin]].
    exists v. exact (Hv _ _ Hin). }
  repeat split; try exact Hdf; eapply dict_get_cp_get; eassumption.
Qed.

Lemma load_from_redshift_uses_config_witness :
  exists p db u pw h pt,
    settings (warehouse_env sample_batch) = Some p /\ has_section p "aws_config" = true
    /\ (forall k, In k aws_keys -> exists v, cp_get p "aws_config" k = Ret v)
    /\ cp_get p "aws_config" "redshift_database" = Ret db
    /\ cp_get p "aws_config" "redshift_username" = Ret u
    /\ cp_get p "aws_config" "redshift_password" = Ret pw
    /\ cp_get p "aws_config" "redshift_hostname" = Ret h
    /\ cp_get p "aws_config" "redshift_port" = Ret pt
    /\ redshift (warehouse_env sample_batch) (mk_conn db u pw h pt) "reddit" = Ret sample_batch.
Proof.
  apply (load_from_redshift_uses_config (warehouse_env sample_batch) "reddit" sample_batch).
  vm_compute. reflexivity.
Defined.

Lemma load_local_data_some (e : env) (d : string) (df : table) :
  load_local_data e d = Ret (Some df) ->
  read_csvs (csv_files e d) <> [] /\ combine_csvs (parse_datetime e) (read_csvs (csv_files e d)) = Ret df.
Proof.
  unfold load_local_data. destruct (load_local_data_body e d) as [o|] eqn:B; cbn; [|discriminate].
  intros [= ->]. unfold load_local_data_body in B.
  destruct (csv_files e d) as [|f fs]; [discriminate|].
  destruct (read_csvs (f :: fs)) as [|t ts]; [discriminate|].
  apply bind_ret_inv in B as [df' [Hdf B]]. injection B as ->.
  split; [discriminate|exact Hdf].
Qed.

(** X22: a table [load_local_data] returns has the columns of the CSV
    files read, no two rows with the same [id], and (with a [created_utc]
    column) only timestamps or NaT in that column, with the rows newest
    first and the NaT rows last. *)
Theorem load_local_data_invariants (e : env) (d : string) (df : table) :
  load_local_data e d = Ret (Some df) ->
  columns df = columns (concat_tables (read_csvs (csv_files e d)))
  /\ (has_column df "id" = true -> NoDup (column_values df "id"))
  /\ (has_column df "created_utc" = true ->
      (forall r, In r (rows df) -> is_time_or_na (get_cell r "created_utc"))
      /\ StronglySorted (ge_key (time_key "created_utc")) (rows df)).
Proof.
  intro H. apply load_local_data_some in H as [_ H]. exact (combine_csvs_invariants _ _ _ H).
Qed.

Lemma load_local_data_invariants_witness :
  exists df, load_local_data (sample_env [sample_batch; repeated_id_batch]) "/tmp" = Ret (Some df)
    /\ NoDup (column_values df "id")
    /\ StronglySorted (ge_key (time_key "created_utc")) (rows df).
Proof.
  destruct (load_local_data (sample_env [sample_batch; repeated_id_batch]) "/tmp") as [[df|]|ex] eqn:E;
    [|vm_compute in E; discriminate E|vm_compute in E; discriminate E].
  exists df. split; [reflexivity|].
  destruct (load_local_data_invariants (sample_env [sample_batch; repeated_id_batch]) "/tmp" df E)
    as [Hcol [Hid Hc]].
  assert (Hi : has_column df "id" = true) by (vm_compute in E; injection E as <-; reflexivity).
  assert (Ht : has_column df "created_utc" = true) by (vm_compute in E; injection E as <-; reflexivity).
  split; [exact (Hid Hi)|exact (proj2 (Hc Ht))].
Defined.

Lemma read_csvs_all_raise (fs : list (result table)) :
  Forall (fun f => exists ex, f = Raise ex) fs -> read_csvs fs = [].
Proof. induction 1 as [|f fs [ex ->] _ IH]; cbn; [reflexivity|exact IH]. Qed.

(** X24: when every CSV file found fails to parse (or none is found),
    [load_local_data] returns [None]. *)
Theorem load_local_data_unreadable (e : env) (d : string) :
  Forall (fun f => exists ex, f = Raise ex) (csv_files e d) -> load_local_data e d = Ret None.
Proof.
  intro H. unfold load_local_data, load_local_data_body.
  destruct (csv_files e d) as [|f fs] eqn:E; [reflexivity|].
  rewrite (read_csvs_all_raise _ H). reflexivity.
Qed.

Lemma load_local_data_unreadable_witness : load_local_data unreadable_env "/tmp" = Ret None.
Proof.
  apply (load_local_data_unreadable unreadable_env "/tmp").
  vm_compute. repeat constructor; eexists; reflexivity.
Defined.
